(** * Remiro AI: the user profile and assessment progress store

    A shallow embedding of [backend/utils/UserManager.js], of the
    [backend/server.js] routes that wrap it, of the master agent that
    routes a chat message, and of the option router [get_next_options]
    documented in [AGENT_LOGICAL_FLOW_DETAILED.md], followed by the
    properties of the profile store proved about them.

    Modelling conventions.
    - A JavaScript string is a [string]: a sequence of code units, here the
      code units below 256 (the Latin-1 range).
    - The directory [usersDir] is an association list in [readdir] order,
      which is the order of the names ([uv_fs_scandir] sorts them with
      [strcmp]); paths are POSIX paths.
    - [this.usersDir], which the constructor computes from [__dirname], is
      a parameter of the development: the field of [Installation].
    - What the environment supplies ([uuidv4()], [new Date().toISOString()])
      is an explicit argument of the operation that asks for it.
    - A thrown exception is a value [Throw e]; [try { .. } catch (error)
      { throw new Error(prefix + error.message) }] is [rethrow prefix].
    - Disk failures are outside the model. A store holds the user
      directories, each with its [profile.json] and its session files: a
      file that [saveConversation] writes anywhere else, which a session
      id such as [../../0] makes it do, is not represented, and the
      statements about session files are about ids that [path.join] leaves
      in the [sessions] directory. *)

From Stdlib Require Import Bool Arith ZArith List String Ascii Lia Permutation.
From Stdlib Require Import Floats Uint63.
Import ListNotations.

Local Open Scope string_scope.
Local Open Scope list_scope.
Local Open Scope nat_scope.

(* ------------------------------------------------------------------ *)
(** ** JavaScript values and built-ins used by the store *)

Module Js.

(** [\s] of a JavaScript regular expression, and the white space removed by
    [String.prototype.trim], on code units below 256: TAB, LF, VT, FF, CR,
    SPACE and NBSP. *)
Definition is_space (c : ascii) : bool :=
  let n := nat_of_ascii c in
  ((9 <=? n) && (n <=? 13)) || (n =? 32) || (n =? 160).

Definition is_digit (c : ascii) : bool :=
  let n := nat_of_ascii c in (48 <=? n) && (n <=? 57).

Definition is_upper (c : ascii) : bool :=
  let n := nat_of_ascii c in (65 <=? n) && (n <=? 90).

Definition is_lower (c : ascii) : bool :=
  let n := nat_of_ascii c in (97 <=? n) && (n <=? 122).

Definition is_alnum (c : ascii) : bool :=
  is_lower c || is_upper c || is_digit c.

(** The complement of the class [[^a-zA-Z0-9\s]]. *)
Definition is_name_char (c : ascii) : bool := is_alnum c || is_space c.

Fixpoint filter_chars (keep : ascii -> bool) (s : string) : string :=
  match s with
  | EmptyString => EmptyString
  | String c r =>
      if keep c then String c (filter_chars keep r) else filter_chars keep r
  end.

Fixpoint forall_chars (p : ascii -> bool) (s : string) : bool :=
  match s with
  | EmptyString => true
  | String c r => p c && forall_chars p r
  end.

Fixpoint trimStart (s : string) : string :=
  match s with
  | EmptyString => EmptyString
  | String c r => if is_space c then trimStart r else s
  end.

Fixpoint trimEnd (s : string) : string :=
  match s with
  | EmptyString => EmptyString
  | String c r =>
      match trimEnd r with
      | EmptyString => if is_space c then EmptyString else String c EmptyString
      | r' => String c r'
      end
  end.

Definition trim (s : string) : string := trimEnd (trimStart s).

(** [s.includes(sub)]: [sub] occurs in [s] at some position. *)
Fixpoint includes (s sub : string) : bool :=
  prefix sub s ||
  match s with
  | EmptyString => false
  | String _ r => includes r sub
  end.

Fixpoint drop (n : nat) (s : string) : string :=
  match n, s with
  | O, _ => s
  | S _, EmptyString => EmptyString
  | S m, String _ r => drop m r
  end.

(** [s.replace(pat, rep)] with a string pattern: only the first occurrence
    is replaced. *)
Fixpoint replace (pat rep s : string) : string :=
  if prefix pat s then (rep ++ drop (String.length pat) s)%string
  else match s with
       | EmptyString => EmptyString
       | String c r => String c (replace pat rep r)
       end.

(** The value held by a property of the [profile] object: [null], a
    JSON value (kept as the text that [JSON.stringify] writes for it), or
    [undefined], which stands for every value that [JSON.stringify]
    leaves out of an object. These are the values that are read back as
    they were written. *)
Inductive value : Type :=
| JUndefined
| JNull
| JData (json : string).

Definition value_eqb (a b : value) : bool :=
  match a, b with
  | JUndefined, JUndefined => true
  | JNull, JNull => true
  | JData x, JData y => String.eqb x y
  | _, _ => false
  end.

(** [val !== null]. *)
Definition not_null (v : value) : bool :=
  match v with JNull => false | _ => true end.

(** An object is the list of its own enumerable properties in the order
    [Object.keys] lists them. *)
Definition object : Type := list (string * value).

Definition keys (o : object) : list string := map fst o.
Definition values (o : object) : list value := map snd o.

Fixpoint get (k : string) (o : object) : option value :=
  match o with
  | [] => None
  | (k', v) :: r => if String.eqb k' k then Some v else get k r
  end.

Definition has_key (k : string) (o : object) : bool :=
  match get k o with Some _ => true | None => false end.

(** Decimal reading of a string of digits. *)
Fixpoint digits_value (acc : N) (s : string) : option N :=
  match s with
  | EmptyString => Some acc
  | String c r =>
      if is_digit c
      then digits_value (acc * 10 + (N_of_ascii c - 48))%N r
      else None
  end.

(** An array index is a canonical numeric string below [2^32 - 1]; such
    keys are listed first, in ascending order, by every enumeration. *)
Definition array_index (k : string) : option N :=
  match k with
  | EmptyString => None
  | String c r =>
      if (Ascii.eqb c "0") && negb (String.eqb r EmptyString) then None
      else match digits_value 0%N k with
           | Some n => if (n <? 4294967295)%N then Some n else None
           | None => None
           end
  end.

Fixpoint replace_value (k : string) (v : value) (o : object) : object :=
  match o with
  | [] => []
  | (k', v') :: r =>
      if String.eqb k' k then (k', v) :: r else (k', v') :: replace_value k v r
  end.

(** Where a new array-index key [n] is placed: before the first property
    that is not an array index or is a larger one. *)
Fixpoint insert_index (n : N) (k : string) (v : value) (o : object) : object :=
  match o with
  | [] => [(k, v)]
  | (k', v') :: r =>
      match array_index k' with
      | Some m =>
          if (m <? n)%N then (k', v') :: insert_index n k v r
          else (k, v) :: o
      | None => (k, v) :: o
      end
  end.

(** [o[k] = v] on an ordinary object: [__proto__] reaches the inherited
    setter and creates no own property; an existing property keeps its
    place; a new one is added. *)
Definition set (k : string) (v : value) (o : object) : object :=
  if String.eqb k "__proto__" then o
  else if has_key k o then replace_value k v o
  else match array_index k with
       | Some n => insert_index n k v o
       | None => o ++ [(k, v)]
       end.

(** What is read back after [JSON.stringify]: properties whose value is
    [undefined] are not written. *)
Definition json_object (o : object) : object :=
  filter (fun kv => negb (value_eqb (snd kv) JUndefined)) o.

(** *** Numbers *)

Definition of_nat (n : nat) : float := of_uint63 (Uint63.of_Z (Z.of_nat n)).

Definition two52 : float := 0x1p52%float.

(** Largest integer not above [x], for [0 <= x < 2^52]. *)
Definition floor_pos (x : float) : float :=
  let r := ((x + two52) - two52)%float in
  if (x <? r)%float then (r - 1)%float else r.

(** [Math.round]: the nearest integer, ties towards plus infinity; NaN,
    infinities, zeros and integers are returned unchanged. *)
Definition Math_round (x : float) : float :=
  if is_nan x || is_infinity x then x
  else if (two52 <=? abs x)%float then x
  else if (0 <? x)%float then
    let f := floor_pos x in
    if (x - f <? 0.5)%float then f else (f + 1)%float
  else if (x <? 0)%float then
    let y := (- x)%float in
    let f := floor_pos y in
    if (y - f <=? 0.5)%float then (- f)%float else (- (f + 1))%float
  else x.

(** *** Exceptions *)

Record error : Type := mkError { err_name : string; err_message : string }.

(** [new Error(msg)]. *)
Definition Error (msg : string) : error := mkError "Error" msg.

(** What V8 raises for a property read on [undefined]. *)
Definition TypeError (msg : string) : error := mkError "TypeError" msg.

Inductive result (A : Type) : Type :=
| Ok (a : A)
| Throw (e : error).
Arguments Ok {A} a.
Arguments Throw {A} e.

Definition bind {A B : Type} (r : result A) (k : A -> result B) : result B :=
  match r with
  | Ok a => k a
  | Throw e => Throw e
  end.

(** [catch (error) { throw new Error(prefix + error.message) }]. *)
Definition rethrow {A : Type} (prefix : string) (r : result A) : result A :=
  match r with
  | Ok a => Ok a
  | Throw e => Throw (Error (prefix ++ err_message e))
  end.

Definition is_ok {A : Type} (r : result A) : bool :=
  match r with Ok _ => true | Throw _ => false end.

End Js.

Notation "x <- c ;; k" := (Js.bind c (fun x => k))
  (at level 61, c at next level, right associativity).

(* ------------------------------------------------------------------ *)
(** ** backend/utils/UserManager.js *)

Module UserManager.
Import Js.

(** The turn that the chat route hands to [saveConversation]. *)
Record ConversationTurn : Type := mkTurn {
  timestamp : string;
  userMessage : string;
  botResponse : string
}.

(** The content of [profile.json]. [updatedAt] is absent until the first
    [updateUserProfile]; [sessions] is written as an empty array and never
    touched again. *)
Record UserData : Type := mkUserData {
  ud_id : string;
  ud_name : string;
  ud_createdAt : string;
  ud_updatedAt : option string;
  ud_profile : object;
  ud_sessions : list string
}.

(** One user directory: its [profile.json] and, once [ensureDir] has made
    it, the [sessions] directory with one file per session. *)
Record UserDir : Type := mkUserDir {
  profile_json : UserData;
  sessions_dir : option (list (string * list ConversationTurn))
}.

(** [usersDir]: directory names with their content, in [readdir] order. *)
Definition Store : Type := list (string * UserDir).

(** [this.usersDir], the value of [path.join(__dirname, '../data/users')]:
    an absolute, normalized path that depends on where the backend is
    installed. *)
Class Installation : Type := { usersDir : string }.

(** [path.join(a, b)] for a plain name [b]. *)
Definition path_join (a b : string) : string := (a ++ "/" ++ b)%string.

(** The components of a path, split at the separators; [current] is the
    component being read. *)
Fixpoint components (current s : string) : list string :=
  match s with
  | EmptyString => [current]
  | String c r =>
      if Ascii.eqb c "/" then current :: components "" r
      else components (current ++ String c "") r
  end.

(** One component of a path being normalized; [dir] holds the components
    read so far, innermost first. An empty component and [.] are
    dropped, [..] removes the component before it (none at the root). *)
Definition descend (dir : list string) (part : string) : list string :=
  if String.eqb part "" || String.eqb part "." then dir
  else if String.eqb part ".." then tl dir
  else part :: dir.

(** [path.join(dir, name)] as the components of the normalized path,
    innermost first. *)
Definition join_normalized (dir : list string) (name : string) : list string :=
  fold_left descend (components "" name) dir.

(** The components of [target] below [dir], outermost first, when
    [target] is inside [dir]. *)
Definition below (dir target : list string) : option (list string) :=
  let n := List.length target - List.length dir in
  if list_eq_dec string_dec (skipn n target) dir
  then Some (rev (firstn n target))
  else None.

Section Directory.
Context {A : Type}.

(** [fs.readdir]. *)
Definition readdir (d : list (string * A)) : list string := map fst d.

Fixpoint entry (name : string) (d : list (string * A)) : option A :=
  match d with
  | [] => None
  | (n, a) :: r => if String.eqb n name then Some a else entry name r
  end.

(** Rewriting an existing entry: it stays where it is listed. *)
Fixpoint rewrite_entry (name : string) (a : A) (d : list (string * A))
  : list (string * A) :=
  match d with
  | [] => []
  | (n, b) :: r =>
      if String.eqb n name then (n, a) :: r else (n, b) :: rewrite_entry name a r
  end.

(** A new entry: [readdir] lists the names in the order of [strcmp], so
    it comes before the first name that is greater. *)
Fixpoint insert_entry (name : string) (a : A) (d : list (string * A))
  : list (string * A) :=
  match d with
  | [] => [(name, a)]
  | (n, b) :: r =>
      if String.ltb name n then (name, a) :: d else (n, b) :: insert_entry name a r
  end.

(** Writing under a name. *)
Definition put (name : string) (a : A) (d : list (string * A)) : list (string * A) :=
  match entry name d with
  | Some _ => rewrite_entry name a d
  | None => insert_entry name a d
  end.
End Directory.

(** [fs.readJson(path.join(usersDir, userDir, 'profile.json'))]. *)
Definition readProfile (userDir : string) (st : Store) : result UserData :=
  match entry userDir st with
  | Some d => Ok (profile_json d)
  | None => Throw (Error "ENOENT: no such file or directory")
  end.

(** What [JSON.stringify] keeps of the in-memory record. *)
Definition stored (u : UserData) : UserData :=
  mkUserData (ud_id u) (ud_name u) (ud_createdAt u) (ud_updatedAt u)
             (json_object (ud_profile u)) (ud_sessions u).

(** [fs.ensureDir(userDir)] followed by [fs.writeJson] of [profile.json]:
    an existing directory keeps its sessions. *)
Definition writeProfile (userDir : string) (u : UserData) (st : Store) : Store :=
  let sessions :=
    match entry userDir st with
    | Some d => sessions_dir d
    | None => None
    end in
  put userDir (mkUserDir (stored u) sessions) st.

(** The twelve dimensions, in the order of the object literal of
    [createUser]. *)
Definition dimensions : list string :=
  [ "cognitiveAbilities"; "personality"; "emotionalIntelligence";
    "physicalContext"; "strengthsWeaknesses"; "skills"; "constraints";
    "interests"; "motivationsValues"; "aspirations"; "trackRecord";
    "learningPreferences" ].

Definition initialProfile : object := map (fun k => (k, JNull)) dimensions.

Definition sanitize (name : string) : string :=
  trim (filter_chars is_name_char name).

(** What [createUser] returns. *)
Record Registration : Type := mkRegistration {
  userId : string;
  name : string;
  message : string
}.

Definition welcome (sanitizedName : string) : string :=
  ("Welcome " ++ sanitizedName ++
   "! I'm Remiro AI, your career counsellor. I'm here to help you discover your ideal career path through a comprehensive 12-dimensional assessment. Let's begin this journey together.")%string.

(** [createUser(name)]; [uuid] is the value of [uuidv4()] and [now] the
    value of [new Date().toISOString()]. *)
Definition createUser (uuid now name : string) (st : Store)
  : Registration * Store :=
  let userId := uuid in
  let sanitizedName := sanitize name in
  let userDir := (sanitizedName ++ "_" ++ userId)%string in
  let userData :=
    mkUserData userId sanitizedName now None initialProfile [] in
  (mkRegistration userId sanitizedName (welcome sanitizedName),
   writeProfile userDir userData st).

(** [userDirs.find(dir => dir.includes(userId))]. *)
Definition findUserDir (userId : string) (st : Store) : option string :=
  find (fun dir => includes dir userId) (readdir st).

Definition getUserContext (userId : string) (st : Store) : result UserData :=
  rethrow "Failed to get user context: "
    match findUserDir userId st with
    | None => Throw (Error "User not found")
    | Some userDir => readProfile userDir st
    end.

Definition updateUserProfile (userId dimension : string) (data : value)
    (now : string) (st : Store) : result (UserData * Store) :=
  rethrow "Failed to update user profile: "
    match findUserDir userId st with
    | None => Throw (Error "User not found")
    | Some userDir =>
        profile <- readProfile userDir st ;;
        let profile :=
          mkUserData (ud_id profile) (ud_name profile) (ud_createdAt profile)
                     (Some now)
                     (set dimension data (ud_profile profile))
                     (ud_sessions profile) in
        Ok (profile, writeProfile userDir profile st)
    end.

(** [sessionId || 'default']: a missing or empty id is falsy. *)
Definition orDefault (sessionId : option string) : string :=
  match sessionId with
  | Some s => if String.eqb s "" then "default" else s
  | None => "default"
  end.

Definition sessionFileName (sessionId : option string) : string :=
  (orDefault sessionId ++ ".json")%string.

(** The message of the error that [fs.writeFile] raises for a path
    whose parent is not a directory. *)
Definition open_error (code path : string) : string :=
  (code ++ ", open '" ++ path ++ "'")%string.

(** [saveConversation(userId, sessionId, conversation)]. [path.join]
    normalizes the path of the session file, and the session id is part
    of it:
    - a path directly in [sessionsDir] names a session file, which is
      created or extended;
    - a path deeper in [sessionsDir] has a parent that is a session file or
      does not exist (the store makes no directory there): [pathExists]
      answers [false] and [writeJson] throws;
    - a path that leaves [sessionsDir] names a file that a store does not
      hold; the call is taken to find no such file and to write it, which
      leaves the user directories as they are. *)
Definition saveConversation `{Installation} (userId : string)
    (sessionId : option string) (conversation : ConversationTurn) (st : Store)
  : result (list ConversationTurn * Store) :=
  rethrow "Failed to save conversation: "
    match findUserDir userId st with
    | None => Throw (Error "User not found")
    | Some userDir =>
        match entry userDir st with
        | None => Throw (Error "ENOENT: no such file or directory")
        | Some d =>
            let sessionsDir := path_join (path_join usersDir userDir) "sessions" in
            (* fs.ensureDir(sessionsDir) *)
            let files :=
              match sessions_dir d with Some fs => fs | None => [] end in
            let dir := join_normalized [] sessionsDir in
            match below dir (join_normalized dir (sessionFileName sessionId)) with
            | Some [sessionFile] =>
                let sessionData :=
                  match entry sessionFile files with
                  | Some turns => turns
                  | None => []
                  end in
                let sessionData := sessionData ++ [conversation] in
                let files := put sessionFile sessionData files in
                Ok (sessionData,
                    put userDir (mkUserDir (profile_json d) (Some files)) st)
            | Some (parent :: rest) =>
                let sessionFile :=
                  path_join sessionsDir (String.concat "/" (parent :: rest)) in
                match entry parent files with
                | Some _ =>
                    Throw (Error (open_error "ENOTDIR: not a directory" sessionFile))
                | None =>
                    Throw (Error (open_error "ENOENT: no such file or directory"
                                             sessionFile))
                end
            | _ => Ok ([conversation], st)
            end
        end
    end.

Record Session : Type := mkSession {
  sessionId : string;
  data : list ConversationTurn
}.

Record UserDataBundle : Type := mkBundle {
  profile : UserData;
  sessions : list Session;
  folderPath : string
}.

Definition getUserData `{Installation} (userId : string) (st : Store)
  : result UserDataBundle :=
  rethrow "Failed to get user data: "
    match findUserDir userId st with
    | None => Throw (Error "User not found")
    | Some userDir =>
        let userDirPath := path_join usersDir userDir in
        match entry userDir st with
        | None => Throw (Error "ENOENT: no such file or directory")
        | Some d =>
            let sessions :=
              match sessions_dir d with
              | Some sessionFiles =>
                  map (fun f => mkSession (replace ".json" "" (fst f)) (snd f))
                      sessionFiles
              | None => []
              end in
            Ok (mkBundle (profile_json d) sessions userDirPath)
        end
    end.

Definition calculateProfileCompleteness (profile : object) : float :=
  let totalDimensions := List.length (keys profile) in
  let completedDimensions := List.length (filter not_null (values profile)) in
  Math_round ((of_nat completedDimensions / of_nat totalDimensions) * 100)%float.

Definition getAssessedDimensions (profile : object) : list string :=
  map fst (filter (fun kv => not_null (snd kv)) profile).

Record ConversationSummary : Type := mkConversationSummary {
  totalMessages : nat;
  lastActivity : option string
}.

(** [lastSession.data[lastSession.data.length - 1].timestamp] raises a
    [TypeError] when the last session holds no turn. *)
Definition generateConversationSummary (sessions : list Session)
  : result ConversationSummary :=
  let totalMessages :=
    fold_left (fun count session => count + List.length (data session))
              sessions 0 in
  match last (map Some sessions) None with
  | None => Ok (mkConversationSummary totalMessages None)
  | Some lastSession =>
      match last (map Some (data lastSession)) None with
      | Some turn =>
          Ok (mkConversationSummary totalMessages (Some (timestamp turn)))
      | None =>
          Throw (TypeError
            "Cannot read properties of undefined (reading 'timestamp')")
      end
  end.

Definition generateRecommendations (profile : object) : list string :=
  let recommendations :=
    flat_map (fun kv =>
      match snd kv with
      | JNull =>
          [("Complete " ++ fst kv ++
            " assessment for better career guidance")%string]
      | _ => []
      end) profile in
  match recommendations with
  | [] => ["Profile complete! Ready for comprehensive career recommendations"]
  | _ => recommendations
  end.

Record SummaryUser : Type := mkSummaryUser {
  su_name : string;
  su_createdAt : string;
  totalSessions : nat
}.

Record Summary : Type := mkSummary {
  user : SummaryUser;
  profileCompleteness : float;
  dimensionsAssessed : list string;
  conversationSummary : ConversationSummary;
  recommendations : list string
}.

Definition getUserSummary `{Installation} (userId : string) (st : Store)
  : result Summary :=
  rethrow "Failed to generate user summary: "
    (userData <- getUserData userId st ;;
     let profile := profile userData in
     let sessions := sessions userData in
     conversationSummary <- generateConversationSummary sessions ;;
     Ok (mkSummary
           (mkSummaryUser (ud_name profile) (ud_createdAt profile)
                          (List.length sessions))
           (calculateProfileCompleteness (ud_profile profile))
           (getAssessedDimensions (ud_profile profile))
           conversationSummary
           (generateRecommendations (ud_profile profile)))).

End UserManager.

(* ------------------------------------------------------------------ *)
(** ** backend/server.js: the two routes over the store *)

Module Server.
Import Js UserManager.

(** [res.json(body)], or [res.status(code).json({ error })]. *)
Inductive response (A : Type) : Type :=
| Json (body : A)
| Status (code : nat) (error : string).
Arguments Json {A} body.
Arguments Status {A} code error.

(** [POST /api/register-user]; [name] is [req.body.name], [None] when the
    body has no such field. [!name] holds of a missing and of an empty
    name. *)
Definition register_user (uuid now : string) (name : option string)
    (st : Store) : response Registration * Store :=
  match name with
  | None => (Status 400 "Name is required", st)
  | Some name =>
      if String.eqb name "" then (Status 400 "Name is required", st)
      else let (user, st') := createUser uuid now name st in (Json user, st')
  end.

(** [GET /api/user/:userId]. *)
Definition get_user `{Installation} (userId : string) (st : Store)
  : response UserDataBundle :=
  match getUserData userId st with
  | Ok userData => Json userData
  | Throw _ => Status 500 "User not found"
  end.

End Server.

(* ------------------------------------------------------------------ *)
(** ** AGENT_LOGICAL_FLOW_DETAILED.md: progress and next options

    The master agent's decision flow, as the Python of the document gives
    it. Text is kept in UTF-8. *)

Module MasterFlow.

(** An assessment [dict], of which only the ['completed'] entry is read;
    [None] when the entry is absent. *)
Record Assessment : Type := mkAssessment { completed_flag : option bool }.

(** [user_profile]: its ['assessments'] entry, a [dict] from dimension to
    assessment, [None] when absent. *)
Record UserProfile : Type := mkUserProfile {
  assessments : option (list (string * Assessment))
}.

Fixpoint dict_get {A : Type} (k : string) (d : list (string * A)) : option A :=
  match d with
  | [] => None
  | (k', a) :: r => if String.eqb k' k then Some a else dict_get k r
  end.

Definition all_dimensions : list string :=
  [ "personality"; "interests"; "aspirations"; "skills"; "motivations_values";
    "cognitive_abilities"; "learning_preferences"; "physical_context";
    "strengths_weaknesses"; "emotional_intelligence"; "track_record";
    "constraints" ].

(** [assessments.get(dim, {}).get('completed', False)]. *)
Definition is_completed (assessments : list (string * Assessment))
    (dim : string) : bool :=
  match dict_get dim assessments with
  | Some a => match completed_flag a with Some b => b | None => false end
  | None => false
  end.

(** The result of [get_assessment_progress], without the
    ["progress_percentage"] entry, which [get_next_options] does not
    read. *)
Record Progress : Type := mkProgress {
  completed : list string;
  remaining : list string
}.

Definition get_assessment_progress (user_profile : UserProfile) : Progress :=
  let assessments :=
    match assessments user_profile with Some d => d | None => [] end in
  let completed := filter (is_completed assessments) all_dimensions in
  let remaining :=
    filter (fun dim => negb (existsb (String.eqb dim) completed))
           all_dimensions in
  mkProgress completed remaining.

Record Option_ : Type := mkOption { agent : string; title : string }.

(** [s.replace('_', ' ')]: every occurrence. *)
Fixpoint replace_underscores (s : string) : string :=
  match s with
  | EmptyString => EmptyString
  | String c r =>
      String (if Ascii.eqb c "_" then " "%char else c) (replace_underscores r)
  end.

Definition to_upper (c : ascii) : ascii :=
  if Js.is_lower c then ascii_of_nat (nat_of_ascii c - 32) else c.

Definition to_lower (c : ascii) : ascii :=
  if Js.is_upper c then ascii_of_nat (nat_of_ascii c + 32) else c.

(** [s.title()] on ASCII text: a letter that follows a letter is
    lower-cased, any other letter is upper-cased. *)
Fixpoint title_from (after_letter : bool) (s : string) : string :=
  match s with
  | EmptyString => EmptyString
  | String c r =>
      if Js.is_lower c || Js.is_upper c
      then String (if after_letter then to_lower c else to_upper c)
                  (title_from true r)
      else String c (title_from false r)
  end.

Definition title_case (s : string) : string := title_from false s.

Definition dimension_option (dimension : string) : Option_ :=
  mkOption dimension
    ("📋 " ++ title_case (replace_underscores dimension) ++ " Assessment")%string.

Definition action_plan_option : Option_ :=
  mkOption "action_plan" "🎯 Generate Career Action Plan".

Definition insights_option : Option_ :=
  mkOption "insights" "💡 Get Career Insights".

Definition get_next_options (user_profile : UserProfile) : list Option_ :=
  let progress := get_assessment_progress user_profile in
  if 8 <=? List.length (completed progress) then [action_plan_option]
  else
    let options := map dimension_option (remaining progress) in
    if 3 <=? List.length (completed progress)
    then options ++ [insights_option]
    else options.

(** An option of the given kind is offered. *)
Definition offers (kind : string) (options : list Option_) : bool :=
  existsb (fun o => String.eqb (agent o) kind) options.

(** The options that start the assessment of a dimension. *)
Definition dimension_options (options : list Option_) : list Option_ :=
  filter (fun o => existsb (String.eqb (agent o)) all_dimensions) options.

End MasterFlow.

(* ------------------------------------------------------------------ *)
(** ** Runs of the store *)

Module Run.
Import Js UserManager.

(** The textual shape of a UUID: 8-4-4-4-12 hexadecimal digits. *)
Inductive cls : Type := Hex | Dash.

Definition is_hex (c : ascii) : bool :=
  let n := nat_of_ascii c in
  is_digit c || ((97 <=? n) && (n <=? 102)).

Definition is_dash (c : ascii) : bool := Ascii.eqb c "-".

Fixpoint matches (p : list cls) (s : string) : bool :=
  match p, s with
  | [], EmptyString => true
  | Hex :: p', String c r => is_hex c && matches p' r
  | Dash :: p', String c r => is_dash c && matches p' r
  | _, _ => false
  end.

Definition uuid_pattern : list cls :=
  repeat Hex 8 ++ [Dash] ++ repeat Hex 4 ++ [Dash] ++ repeat Hex 4 ++ [Dash]
  ++ repeat Hex 4 ++ [Dash] ++ repeat Hex 12.

Definition uuid_shape (u : string) : bool := matches uuid_pattern u.

(** No stored profile carries the identifier yet. *)
Definition fresh (uuid : string) (st : Store) : bool :=
  forallb (fun e => negb (String.eqb (ud_id (profile_json (snd e))) uuid)) st.

(** A name that [path.join] leaves in the directory it is joined to. *)
Definition plain_name (s : string) : bool :=
  forall_chars
    (fun c => negb (Ascii.eqb c "/" || Ascii.eqb c "\" || Ascii.eqb c Ascii.zero)) s.

Inductive Op : Type :=
| CreateUser (uuid now name : string)
| UpdateUserProfile (userId dimension : string) (data : value) (now : string)
| SaveConversation (userId : string) (sessionId : option string)
                   (conversation : ConversationTurn).

(** [uuidv4()] returns a UUID that was not returned before, and the
    session id of a conversation is a plain name, so that its file is
    in the [sessions] directory. *)
Definition admissible (op : Op) (st : Store) : bool :=
  match op with
  | CreateUser uuid _ _ => uuid_shape uuid && fresh uuid st
  | UpdateUserProfile _ _ _ _ => true
  | SaveConversation _ sessionId _ => plain_name (orDefault sessionId)
  end.

Section Calls.
Context {installation : Installation}.

(** The store after a call; a call that throws has written no file. *)
Definition run (op : Op) (st : Store) : Store :=
  match op with
  | CreateUser uuid now name => snd (createUser uuid now name st)
  | UpdateUserProfile userId dimension data now =>
      match updateUserProfile userId dimension data now st with
      | Ok (_, st') => st'
      | Throw _ => st
      end
  | SaveConversation userId sessionId conversation =>
      match saveConversation userId sessionId conversation st with
      | Ok (_, st') => st'
      | Throw _ => st
      end
  end.

(** The stores reached from the empty directory by calls of the store
    whose session ids are plain names. *)
Inductive reachable : Store -> Prop :=
| reachable_empty : reachable []
| reachable_step (st : Store) (op : Op) :
    reachable st -> admissible op st = true -> reachable (run op st).

End Calls.

End Run.

(* ------------------------------------------------------------------ *)
(** ** Notions used by the statements *)

Module Facts.
Import Js UserManager Run.

(** [round(n / d)] on natural numbers, halves rounded up. *)
Definition round_div (n d : nat) : nat := (2 * n + d) / (2 * d).

(** A profile of the scenario of the specification: three dimensions
    assessed. *)
Definition three_assessed : object :=
  set "skills" (JData "{}")
    (set "interests" (JData "{}")
       (set "personality" (JData "{}") initialProfile)).

(** Position of the first dash of a string (its length when it has
    none), and the number of its dashes. *)
Fixpoint first_dash (s : string) : nat :=
  match s with
  | EmptyString => 0
  | String c r => if is_dash c then 0 else S (first_dash r)
  end.

Fixpoint count_dash (s : string) : nat :=
  match s with
  | EmptyString => 0
  | String c r => (if is_dash c then 1 else 0) + count_dash r
  end.

Fixpoint pattern_first_dash (p : list cls) : nat :=
  match p with
  | [] => 0
  | Dash :: _ => 0
  | Hex :: p' => S (pattern_first_dash p')
  end.

Fixpoint pattern_count_dash (p : list cls) : nat :=
  match p with
  | [] => 0
  | Dash :: p' => S (pattern_count_dash p')
  | Hex :: p' => pattern_count_dash p'
  end.

(** The session files of a user directory; none before the first
    [saveConversation]. *)
Definition sessionFiles (userDir : string) (st : Store)
  : list (string * list ConversationTurn) :=
  match entry userDir st with
  | Some d => match sessions_dir d with Some files => files | None => [] end
  | None => []
  end.

(** The turns of one session file; none when the file does not exist. *)
Definition sessionTurns (userDir file : string) (st : Store)
  : list ConversationTurn :=
  match entry file (sessionFiles userDir st) with
  | Some turns => turns
  | None => []
  end.

(** The record [updateUserProfile] builds from the one it read. *)
Definition updated (dimension : string) (data : value) (now : string)
    (p : UserData) : UserData :=
  mkUserData (ud_id p) (ud_name p) (ud_createdAt p) (Some now)
             (set dimension data (ud_profile p)) (ud_sessions p).

(** The session that [getUserData] reports for a session file. *)
Definition toSession (f : string * list ConversationTurn) : Session :=
  mkSession (replace ".json" "" (fst f)) (snd f).

Definition no_undefined (o : object) : bool :=
  forallb (fun kv => negb (value_eqb (snd kv) JUndefined)) o.

Definition nonempty_logs (files : list (string * list ConversationTurn)) : bool :=
  forallb (fun f => negb (Nat.eqb (List.length (snd f)) 0)) files.

(** What every directory written by the store satisfies: it is named
    after the sanitized name and the identifier of its profile, its
    profile is what JSON can hold, and none of its session logs is
    empty. *)
Definition entry_ok (e : string * UserDir) : bool :=
  let p := profile_json (snd e) in
  String.eqb (fst e) (ud_name p ++ "_" ++ ud_id p)
  && forall_chars is_name_char (ud_name p)
  && uuid_shape (ud_id p)
  && no_undefined (ud_profile p)
  && match sessions_dir (snd e) with
     | Some files => nonempty_logs files
     | None => true
     end.

Definition store_ok (st : Store) : bool := forallb entry_ok st.

(** The error kinds of the specification. *)
Definition taxonomy : list string :=
  [ "ValidationError"; "NotFoundError"; "StorageError";
    "AlreadyCompletedError" ].

Definition classified (e : error) : bool :=
  existsb (String.eqb (err_name e)) taxonomy.

(** Sample data: a backend installed under [/srv/remiro]. *)
#[global] Instance sample_installation : Installation :=
  {| usersDir := "/srv/remiro/src/backend/data/users" |}.

Definition uuid1 : string := "123e4567-e89b-42d3-a456-426614174000".
Definition uuid2 : string := "9b2f0c1e-7a4d-4c3b-8f6e-0d5a1b2c3d4e".

Definition afrin_store : Store :=
  run (CreateUser uuid1 "2025-08-29T10:00:00.000Z" "Afrin") [].

Definition two_users_store : Store :=
  run (CreateUser uuid2 "2025-08-30T09:00:00.000Z" "Ravi K.") afrin_store.

Definition chat_store : Store :=
  run (SaveConversation uuid1 None
         (mkTurn "2025-08-29T10:00:30.000Z" "hi" "Welcome back")) afrin_store.

Definition turnA : ConversationTurn :=
  mkTurn "2025-08-29T10:01:00.000Z" "hello" "A".

End Facts.

Module FlowFacts.
Import MasterFlow.

(** Profiles in which the given dimensions are completed. *)
Definition profile_with (dims : list string) : UserProfile :=
  mkUserProfile (Some (map (fun d => (d, mkAssessment (Some true))) dims)).

Definition eight_completed : UserProfile :=
  profile_with (firstn 8 all_dimensions).

Definition all_completed : UserProfile := profile_with all_dimensions.

Definition three_completed : UserProfile :=
  profile_with ["personality"; "interests"; "skills"].

End FlowFacts.

Module MoreFacts.
Import Js UserManager Run Facts.

(** The recommendation that [generateRecommendations] gives for a
    dimension whose slot is [null], and the one it gives when no slot
    is. *)
Definition recommendation (dimension : string) : string :=
  ("Complete " ++ dimension ++ " assessment for better career guidance")%string.

Definition profile_complete : string :=
  "Profile complete! Ready for comprehensive career recommendations".

Definition is_null (v : value) : bool := negb (not_null v).

(** The properties of a profile whose value is [null]. *)
Definition null_slots (profile : object) : object :=
  filter (fun kv => is_null (snd kv)) profile.

(** The identifiers of the stored profiles, in listing order. *)
Definition ids (st : Store) : list string :=
  map (fun e => ud_id (profile_json (snd e))) st.

(** The number of turns held by a list of session files. *)
Definition countTurns (files : list (string * list ConversationTurn)) : nat :=
  list_sum (map (fun f => List.length (snd f)) files).

(** [a <= b] on numbers. *)
Definition number_le (a b : float) : bool := (a <=? b)%float.

End MoreFacts.

(* ------------------------------------------------------------------ *)
(** ** backend/agents/MasterAgent: routing a message

    What the language model answers is an argument of the function that
    asks for it: [Answer a] when the call returns and its text is read by
    [JSON.parse] as [a], [Failure] when the call or the parsing throws. A
    parsed answer is given by the fields the code reads; [None] is the
    value [null], on which reading a field throws. *)

Module MasterAgent.
Import Js UserManager.

Inductive llm (A : Type) : Type :=
| Answer (a : A)
| Failure.
Arguments Answer {A} a.
Arguments Failure {A}.

Definition quote : ascii := ascii_of_nat 34.

(** The JSON text of a string that needs no escape. *)
Definition json_string (s : string) : string :=
  String quote (s ++ String quote EmptyString).

(** The texts that [JSON.stringify] writes for [false], [0], [null] and
    the empty string. *)
Definition falsy_text (t : string) : bool :=
  String.eqb t "false" || String.eqb t "0" || String.eqb t "null"
  || String.eqb t (json_string "").

(** A value as [JSON.parse] returns it. [Exact v] is a value that
    [JSON.stringify] writes back as it is. [Lossy w] is one that it does
    not: a number beyond the range of the doubles, such as [1e999], which
    is read as [Infinity] and written as [null] ([w = None]), or an array
    or object that holds such a number, written as the text [w]. *)
Inductive parsed : Type :=
| Exact (v : value)
| Lossy (w : option string).

Coercion Exact : value >-> parsed.

(** What [JSON.stringify] writes for a value. *)
Definition written (p : parsed) : value :=
  match p with
  | Exact v => v
  | Lossy None => JNull
  | Lossy (Some t) => JData t
  end.

(** [if (v)]: [undefined], [null], [false], [0] and the empty string are
    falsy, every other value is truthy, [Infinity] included. *)
Definition truthy (p : parsed) : bool :=
  match p with
  | Exact JUndefined => false
  | Exact JNull => false
  | Exact (JData t) => negb (falsy_text t)
  | Lossy _ => true
  end.

(** [v || d]. *)
Definition or_else (v d : parsed) : parsed := if truthy v then v else d.

(** [response.extractedName]: a string, or a value that is not one. *)
Inductive NameField : Type :=
| NameText (s : string)
| NotAString (v : parsed).

(** What the name extraction answers. *)
Record Extraction : Type := mkExtraction {
  requiresName : parsed;
  extractedName : NameField;
  extractionResponse : parsed
}.

(** What [handleInitialInteraction] returns: [{requiresRegistration:
    false, userId, response}] or [{requiresRegistration: true,
    response}]. *)
Inductive InitialReply : Type :=
| Registered (userId : string) (response : string)
| NeedsName (response : parsed).

Definition greeting : InitialReply :=
  NeedsName (JData (json_string
    "Hello! I'm Remiro AI, your career counsellor. To provide you with personalized career guidance, may I have your name please?")).

(** [handleInitialInteraction(message)]. A truthy [extractedName] that
    is not a string makes [createUser] throw on [name.replace], before
    anything is written; the [catch] answers with the greeting. *)
Definition handleInitialInteraction (uuid now : string)
    (extraction : llm (option Extraction)) (st : Store)
  : InitialReply * Store :=
  match extraction with
  | Failure => (greeting, st)
  | Answer None => (greeting, st)
  | Answer (Some response) =>
      let named :=
        match extractedName response with
        | NameText s => negb (String.eqb s "")
        | NotAString v => truthy v
        end in
      if negb (truthy (requiresName response)) && named then
        match extractedName response with
        | NameText s =>
            let (user, st') := createUser uuid now s st in
            (Registered (UserManager.userId user)
               (UserManager.message user ++
                " To provide you with the most personalized career guidance, I'll be conducting a comprehensive 12-dimensional assessment. Are you ready to begin?"),
             st')
        | NotAString _ => (greeting, st)
        end
      else (NeedsName (extractionResponse response), st)
  end.

(** [agentDecision.agent]: the string ['master'], or any other value,
    given by the property key it denotes in [this.agents[agent]] and in
    [profile.profile[agent]]. *)
Inductive AgentField : Type :=
| TheMaster
| Key (k : string).

Record Decision : Type := mkDecision {
  agent : AgentField;
  nextSteps : parsed
}.

(** What a specialized agent's [processInteraction] returns, its own
    fallback included. *)
Record AgentResponse : Type := mkAgentResponse {
  message : parsed;
  assessmentData : parsed;
  assessmentComplete : parsed;
  nextDimension : parsed
}.

(** What [processMessage] returns: the master's answer [{response, agent:
    "master", nextSteps, profileStatus}], a specialized agent's answer
    [{response, agent, assessmentComplete, nextDimension, profileStatus}],
    or an apology [{response, agent: "master", error: true}]. *)
Inductive Reply : Type :=
| MasterReply (response : string) (nextSteps : parsed) (profileStatus : float)
| AgentReply (response : parsed) (agent : string)
             (assessmentComplete nextDimension : parsed) (profileStatus : float)
| ErrorReply (response : string).

(** [determineAgent]: what the model answers, or the master on failure. *)
Definition determineAgent (answer : llm (option Decision)) : option Decision :=
  match answer with
  | Answer decision => decision
  | Failure =>
      Some (mkDecision TheMaster
              (JData (json_string "Continue general conversation")))
  end.

Definition handleMasterResponse (userContext : UserData)
    (agentDecision : Decision) (text : llm string) : Reply :=
  match text with
  | Answer response =>
      MasterReply response (nextSteps agentDecision)
        (calculateProfileCompleteness (ud_profile userContext))
  | Failure =>
      ErrorReply
        "I understand you're here to explore your career path. Let's continue our conversation. What aspect of your career journey would you like to discuss?"
  end.

Definition technical_difficulty : Reply :=
  ErrorReply
    "I apologize for the technical difficulty. Let's continue with a different aspect of your career assessment. What would you like to explore?".

(** [routeToSpecializedAgent]. [this.agents] has the twelve dimensions as
    its own keys; any other key gives [undefined] or a property inherited
    from [Object.prototype] that has no [processInteraction], and either
    way the [catch] answers. [now] is the time of the profile update.
    [updateUserProfile] is given the assessment data as [profile.json]
    will hold it: the record it returns, where the data is as it is in
    memory, is not used. *)
Definition routeToSpecializedAgent (userId : string) (userContext : UserData)
    (key : string) (response : option AgentResponse) (now : string)
    (st : Store) : Reply * Store :=
  if existsb (String.eqb key) dimensions then
    match response with
    | None => (technical_difficulty, st)
    | Some response =>
        let reply :=
          AgentReply (message response) key
            (or_else (assessmentComplete response) (JData "false"))
            (or_else (nextDimension response) JNull)
            (calculateProfileCompleteness (ud_profile userContext)) in
        if truthy (assessmentData response) then
          match updateUserProfile userId key (written (assessmentData response))
                  now st with
          | Ok (_, st') => (reply, st')
          | Throw _ => (technical_difficulty, st)
          end
        else (reply, st)
    end
  else (technical_difficulty, st).

(** The answers of the model during one [processMessage]. *)
Record Model : Type := mkModel {
  decision : llm (option Decision);
  masterText : llm string;
  agentResponse : option AgentResponse;
  updateTime : string
}.

Definition processMessage (userId : string) (userContext : UserData)
    (model : Model) (st : Store) : Reply * Store :=
  match determineAgent (decision model) with
  | None =>
      (ErrorReply
         "I apologize, but I encountered an issue processing your message. Could you please try again?",
       st)
  | Some agentDecision =>
      match agent agentDecision with
      | TheMaster =>
          (handleMasterResponse userContext agentDecision (masterText model), st)
      | Key key =>
          routeToSpecializedAgent userId userContext key
            (agentResponse model) (updateTime model) st
      end
  end.

End MasterAgent.

(* ------------------------------------------------------------------ *)
(** ** backend/server.js: the chat and the summary routes *)

Module ServerChat.
Import Js UserManager Server MasterAgent.

(** [GET /api/user/:userId/summary]. *)
Definition get_user_summary `{Installation} (userId : string) (st : Store)
  : response Summary :=
  match getUserSummary userId st with
  | Ok summary => Json summary
  | Throw _ => Status 500 "Failed to generate summary"
  end.

(** [!x] for a field of the request body: missing or empty. *)
Definition missing (x : option string) : bool :=
  match x with
  | Some s => String.eqb s ""
  | None => true
  end.

Definition given (x : option string) : string :=
  match x with Some s => s | None => "" end.

Inductive ChatBody : Type :=
| Initial (reply : InitialReply)
| Replied (reply : Reply).

(** What the environment supplies during one request. *)
Record World : Type := mkWorld {
  uuid : string;
  createdTime : string;
  extraction : llm (option Extraction);
  model : Model;
  turnTime : string
}.

Section Chat.
Context {installation : Installation}.

(** The JSON text under which a reply is kept in a conversation turn. *)
Variable stringify : Reply -> string.

(** [POST /api/chat]. *)
Definition chat (message userId sessionId : option string) (w : World)
    (st : Store) : response ChatBody * Store :=
  if missing message then (Status 400 "Message is required", st)
  else if missing userId then
    let (reply, st') :=
      handleInitialInteraction (uuid w) (createdTime w) (extraction w) st in
    (Json (Initial reply), st')
  else
    match getUserContext (given userId) st with
    | Throw _ => (Status 500 "Internal server error", st)
    | Ok userContext =>
        let (reply, st1) :=
          processMessage (given userId) userContext (model w) st in
        match saveConversation (given userId) sessionId
                (mkTurn (turnTime w) (given message) (stringify reply)) st1 with
        | Ok (_, st2) => (Json (Replied reply), st2)
        | Throw _ => (Status 500 "Internal server error", st1)
        end
    end.

(** The requests that change the store. *)
Inductive Request : Type :=
| PostRegister (name : option string) (uuid now : string)
| PostChat (message userId sessionId : option string) (w : World).

Definition serve (request : Request) (st : Store) : Store :=
  match request with
  | PostRegister name uuid now => snd (register_user uuid now name st)
  | PostChat message userId sessionId w =>
      snd (chat message userId sessionId w st)
  end.

(** [uuidv4()] returns a UUID that was not returned before, and the
    session id of the request body is a plain name, so that its file is
    in the [sessions] directory. *)
Definition acceptable (request : Request) (st : Store) : bool :=
  match request with
  | PostRegister _ uuid _ => Run.uuid_shape uuid && Run.fresh uuid st
  | PostChat _ _ sessionId w =>
      Run.uuid_shape (uuid w) && Run.fresh (uuid w) st
      && Run.plain_name (orDefault sessionId)
  end.

(** The stores that the server reaches from the empty directory by
    requests whose session ids are plain names. *)
Inductive served : Store -> Prop :=
| served_empty : served []
| served_step (st : Store) (request : Request) :
    served st -> acceptable request st = true -> served (serve request st).

End Chat.

End ServerChat.

Module Invariants.
Import Js UserManager Run MasterAgent.

(** The calls of the store that a request of the server makes: a
    registration under a new UUID, a profile update for one of the twelve
    agents with data that JSON writes, a conversation turn in a session
    file. *)
Definition gated (op : Op) (st : Store) : bool :=
  match op with
  | CreateUser uuid _ _ => uuid_shape uuid && fresh uuid st
  | UpdateUserProfile _ dimension data _ =>
      existsb (String.eqb dimension) dimensions
      && negb (value_eqb data JUndefined)
  | SaveConversation _ sessionId _ => plain_name (orDefault sessionId)
  end.

(** A call that erases no assessed dimension: a profile update writes
    data other than [null]. *)
Definition keeping (op : Op) : bool :=
  match op with
  | UpdateUserProfile _ _ data _ => not_null data
  | _ => true
  end.

(** The assessment data that the agent returns is a number beyond the
    range of the doubles, which [profile.json] holds as [null]. *)
Definition overflow (model : Model) : bool :=
  match agentResponse model with
  | Some response =>
      match assessmentData response with
      | Lossy None => true
      | _ => false
      end
  | None => false
  end.

Definition overflowing (request : ServerChat.Request) : bool :=
  match request with
  | ServerChat.PostChat _ _ _ w => overflow (ServerChat.model w)
  | ServerChat.PostRegister _ _ _ => false
  end.

Section Calls.
Context {installation : Installation}.

Fixpoint run_all (ops : list Op) (st : Store) : Store :=
  match ops with
  | [] => st
  | op :: ops => run_all ops (run op st)
  end.

Fixpoint gated_all (ops : list Op) (st : Store) : bool :=
  match ops with
  | [] => true
  | op :: ops => gated op st && gated_all ops (run op st)
  end.

End Calls.

(** Every stored profile is an object: no key twice. *)
Definition objects (st : Store) : Prop :=
  forall userDir d,
    In (userDir, d) st -> NoDup (keys (ud_profile (profile_json d))).

(** Every stored profile has the twelve dimensions as its keys. *)
Definition twelve_keys (st : Store) : Prop :=
  forall userDir d,
    In (userDir, d) st -> keys (ud_profile (profile_json d)) = dimensions.

(** What a later state of a user directory keeps of an earlier one: the
    identity of the user and every assessed dimension. *)
Definition keeps_progress (d d' : UserDir) : Prop :=
  ud_id (profile_json d') = ud_id (profile_json d)
  /\ ud_name (profile_json d') = ud_name (profile_json d)
  /\ ud_createdAt (profile_json d') = ud_createdAt (profile_json d)
  /\ incl (getAssessedDimensions (ud_profile (profile_json d)))
          (getAssessedDimensions (ud_profile (profile_json d')))
  /\ List.length (getAssessedDimensions (ud_profile (profile_json d)))
     <= List.length (getAssessedDimensions (ud_profile (profile_json d'))).

(** [a < b] on numbers. *)
Definition number_lt (a b : float) : bool := (a <? b)%float.

(** Sample requests: Afrin registers, then a chat message is routed to
    the personality agent, which returns an assessment. *)
Definition sample_stringify (reply : Reply) : string :=
  match reply with
  | MasterReply text _ _ => text
  | AgentReply _ agent _ _ _ => agent
  | ErrorReply text => text
  end.

Definition sample_world : ServerChat.World :=
  ServerChat.mkWorld Facts.uuid2 "2025-08-29T10:05:00.000Z" Failure
    (mkModel (Answer (Some (mkDecision (Key "personality") JUndefined)))
             Failure
             (Some (mkAgentResponse (JData "[1]") (JData "[2]")
                                    (JData "true") JNull))
             "2025-08-29T10:05:01.000Z")
    "2025-08-29T10:05:02.000Z".

Definition sample_requests : list ServerChat.Request :=
  [ ServerChat.PostRegister (Some "Afrin") Facts.uuid1
      "2025-08-29T10:00:00.000Z";
    ServerChat.PostChat (Some "I enjoy puzzles") (Some Facts.uuid1) None
      sample_world ].

Definition sample_served : Store :=
  fold_left (fun st request => ServerChat.serve sample_stringify request st)
            sample_requests [].

End Invariants.

(* ================================================================== *)
(** * Properties *)

Import Js UserManager Run Facts.

(** ** Progress *)

Lemma assessed_count (profile : object) :
  List.length (getAssessedDimensions profile)
  = List.length (filter not_null (values profile)).
Proof.
  unfold getAssessedDimensions, values.
  rewrite length_map.
  induction profile as [|[k v] rest IH]; simpl; [reflexivity|].
  destruct (not_null v); simpl; rewrite IH; reflexivity.
Qed.

Lemma assessed_count_le (profile : object) :
  List.length (getAssessedDimensions profile) <= List.length (keys profile).
Proof.
  unfold getAssessedDimensions, keys.
  rewrite !length_map.
  apply filter_length_le.
Qed.

Lemma completeness_of_twelve (k : nat) :
  k <= 12 ->
  Math_round ((of_nat k / of_nat 12) * 100)%float
  = of_nat (round_div (100 * k) 12).
Proof.
  intros Hk.
  do 13 (destruct k as [|k]; [vm_compute; reflexivity|]).
  lia.
Qed.

(** C4. For a profile whose keys are the twelve dimensions,
    [calculateProfileCompleteness] is [round(100 * k / 12)] where [k] is the
    number of assessed (non-null) dimensions; it is 0 when none is assessed,
    100 when all twelve are, 25 when exactly three are, and it is never
    NaN. *)
Theorem completeness_is_rounded_ratio (profile : object) :
  Permutation (keys profile) dimensions ->
  let k := List.length (getAssessedDimensions profile) in
  calculateProfileCompleteness profile = of_nat (round_div (100 * k) 12)
  /\ is_nan (calculateProfileCompleteness profile) = false
  /\ (k = 0 -> calculateProfileCompleteness profile = 0%float)
  /\ (k = 12 -> calculateProfileCompleteness profile = 100%float)
  /\ (k = 3 -> calculateProfileCompleteness profile = 25%float).
Proof.
  intros Hkeys k.
  assert (Hlen : List.length (keys profile) = 12)
    by (rewrite (Permutation_length Hkeys); reflexivity).
  assert (Hk : k <= 12)
    by (unfold k; rewrite <- Hlen; apply assessed_count_le).
  assert (Heq : calculateProfileCompleteness profile
                = of_nat (round_div (100 * k) 12)).
  { unfold calculateProfileCompleteness.
    rewrite <- assessed_count, Hlen.
    apply completeness_of_twelve, Hk. }
  rewrite Heq.
  repeat split.
  - clear Heq. revert Hk. generalize k. intros n Hn.
    do 13 (destruct n as [|n]; [vm_compute; reflexivity|]). lia.
  - intros ->. vm_compute. reflexivity.
  - intros ->. vm_compute. reflexivity.
  - intros ->. vm_compute. reflexivity.
Qed.

Lemma completeness_is_rounded_ratio_witness :
  calculateProfileCompleteness three_assessed = 25%float.
Proof.
  apply (completeness_is_rounded_ratio three_assessed).
  - vm_compute. apply Permutation_refl.
  - reflexivity.
Defined.

(** ** Strings *)

Section Strings.

Lemma string_app_nil_r (s : string) : (s ++ "")%string = s.
Proof. induction s as [|c s IH]; simpl; [|rewrite IH]; reflexivity. Qed.

Lemma string_app_assoc (a b c : string) :
  ((a ++ b) ++ c)%string = (a ++ b ++ c)%string.
Proof. induction a as [|x a IH]; simpl; [|rewrite IH]; reflexivity. Qed.

Lemma string_app_length (a b : string) :
  String.length (a ++ b) = String.length a + String.length b.
Proof. induction a as [|x a IH]; simpl; [|rewrite IH]; reflexivity. Qed.

Lemma string_app_inv (a c b d : string) :
  (a ++ b)%string = (c ++ d)%string ->
  String.length a = String.length c ->
  a = c /\ b = d.
Proof.
  revert c. induction a as [|x a IH]; intros [|y c] Heq Hlen;
    simpl in *; try discriminate.
  - split; [reflexivity | assumption].
  - injection Heq as -> Heq. injection Hlen as Hlen.
    destruct (IH c Heq Hlen) as [-> ->]. split; reflexivity.
Qed.

Lemma prefix_refl (s : string) : prefix s s = true.
Proof.
  induction s as [|c s IH]; simpl; [reflexivity|].
  destruct (ascii_dec c c); [assumption | congruence].
Qed.

Lemma prefix_split (a s : string) :
  prefix a s = true -> exists t, s = (a ++ t)%string.
Proof.
  revert s. induction a as [|c a IH]; intros s H; simpl in *.
  - exists s. reflexivity.
  - destruct s as [|d s]; simpl in H; [discriminate|].
    destruct (ascii_dec c d) as [->|]; [|discriminate].
    destruct (IH s H) as [t ->]. exists t. reflexivity.
Qed.

Lemma includes_empty (s : string) : includes s "" = true.
Proof. destruct s; reflexivity. Qed.

Lemma includes_self (s : string) : includes s s = true.
Proof.
  destruct s as [|c s]; [reflexivity|].
  change (prefix (String c s) (String c s) || includes s (String c s) = true).
  rewrite prefix_refl. reflexivity.
Qed.

Lemma includes_suffix (a b : string) : includes (a ++ b) b = true.
Proof.
  induction a as [|c a IH]; [apply includes_self|].
  change (prefix b (String c (a ++ b)) || includes (a ++ b) b = true).
  rewrite IH. apply orb_true_r.
Qed.

Lemma includes_split (s sub : string) :
  includes s sub = true ->
  exists pre post, s = (pre ++ sub ++ post)%string.
Proof.
  induction s as [|c s IH]; intros H.
  - change (prefix sub "" || false = true) in H.
    rewrite orb_false_r in H. destruct (prefix_split _ _ H) as [t Ht].
    exists EmptyString, t. exact Ht.
  - change (prefix sub (String c s) || includes s sub = true) in H.
    apply orb_true_iff in H. destruct H as [H|H].
    + destruct (prefix_split _ _ H) as [t Ht].
      exists EmptyString, t. exact Ht.
    + destruct (IH H) as (pre & post & ->).
      exists (String c pre), post. reflexivity.
Qed.

Lemma forall_chars_app (p : ascii -> bool) (a b : string) :
  forall_chars p (a ++ b) = forall_chars p a && forall_chars p b.
Proof.
  induction a as [|c a IH]; simpl; [reflexivity|].
  rewrite IH. apply andb_assoc.
Qed.

Lemma forall_chars_filter (p : ascii -> bool) (s : string) :
  forall_chars p (filter_chars p s) = true.
Proof.
  induction s as [|c s IH]; simpl; [reflexivity|].
  destruct (p c) eqn:Hc; simpl; [rewrite Hc|]; exact IH.
Qed.

Lemma forall_chars_trimStart (p : ascii -> bool) (s : string) :
  forall_chars p s = true -> forall_chars p (trimStart s) = true.
Proof.
  induction s as [|c s IH]; simpl; [reflexivity|].
  intros H. apply andb_true_iff in H. destruct H as [Hc Hs].
  destruct (is_space c); [auto|]. simpl. rewrite Hc. exact Hs.
Qed.

Lemma forall_chars_trimEnd (p : ascii -> bool) (s : string) :
  forall_chars p s = true -> forall_chars p (trimEnd s) = true.
Proof.
  induction s as [|c s IH]; simpl; [reflexivity|].
  intros H. apply andb_true_iff in H. destruct H as [Hc Hs].
  specialize (IH Hs).
  destruct (trimEnd s) as [|d r].
  - destruct (is_space c); simpl; [reflexivity|]. rewrite Hc. reflexivity.
  - change (p c && forall_chars p (String d r) = true). rewrite Hc. exact IH.
Qed.

Lemma sanitize_chars (name : string) :
  forall_chars is_name_char (sanitize name) = true.
Proof.
  unfold sanitize, trim.
  apply forall_chars_trimEnd, forall_chars_trimStart, forall_chars_filter.
Qed.

Lemma filter_chars_id (p : ascii -> bool) (s : string) :
  forall_chars p s = true -> filter_chars p s = s.
Proof.
  induction s as [|c s IH]; simpl; [reflexivity|].
  intros H. apply andb_true_iff in H. destruct H as [Hc Hs].
  rewrite Hc, (IH Hs). reflexivity.
Qed.

(** The first and the last character of a string, when it has one. *)
Lemma trimStart_head (s : string) :
  match trimStart s with
  | EmptyString => True
  | String c _ => is_space c = false
  end.
Proof.
  induction s as [|c s IH]; simpl; [exact I|].
  destruct (is_space c) eqn:Hc; [exact IH | simpl; exact Hc].
Qed.

Lemma trimStart_fixed (s : string) :
  match s with EmptyString => True | String c _ => is_space c = false end ->
  trimStart s = s.
Proof. destruct s as [|c s]; simpl; [reflexivity|]. intros ->. reflexivity. Qed.

Lemma trimEnd_idempotent (s : string) : trimEnd (trimEnd s) = trimEnd s.
Proof.
  induction s as [|c s IH]; simpl; [reflexivity|].
  destruct (trimEnd s) as [|d r] eqn:Hs.
  - destruct (is_space c) eqn:Hc; simpl; [reflexivity|]. rewrite Hc. reflexivity.
  - change (trimEnd (String c (String d r)) = String c (String d r)).
    change (match trimEnd (String d r) with
            | EmptyString =>
                if is_space c then EmptyString else String c EmptyString
            | r' => String c r'
            end = String c (String d r)).
    rewrite IH. reflexivity.
Qed.

Lemma trimEnd_head (s : string) :
  match s with EmptyString => True | String c _ => is_space c = false end ->
  match trimEnd s with EmptyString => True | String c _ => is_space c = false end.
Proof.
  destruct s as [|c s]; simpl; [auto|]. intros Hc.
  destruct (trimEnd s); [rewrite Hc|]; exact Hc.
Qed.

Lemma trim_idempotent (s : string) : trim (trim s) = trim s.
Proof.
  unfold trim.
  rewrite (trimStart_fixed (trimEnd (trimStart s))).
  - apply trimEnd_idempotent.
  - apply trimEnd_head, trimStart_head.
Qed.

End Strings.

(** ** Identifiers inside directory names *)

Section Identifiers.

Lemma name_char_not_dash (c : ascii) :
  is_name_char c = true -> is_dash c = false.
Proof.
  destruct c as [[] [] [] [] [] [] [] []]; vm_compute; congruence.
Qed.

Lemma hex_not_dash (c : ascii) : is_hex c = true -> is_dash c = false.
Proof.
  destruct c as [[] [] [] [] [] [] [] []]; vm_compute; congruence.
Qed.

Lemma count_dash_app (a b : string) :
  count_dash (a ++ b) = count_dash a + count_dash b.
Proof.
  induction a as [|c a IH]; simpl; [reflexivity|]. rewrite IH. lia.
Qed.

Lemma first_dash_app_free (a b : string) :
  count_dash a = 0 ->
  first_dash (a ++ b) = String.length a + first_dash b.
Proof.
  induction a as [|c a IH]; simpl; [reflexivity|].
  destruct (is_dash c); [discriminate|].
  simpl. intros H. rewrite (IH H). reflexivity.
Qed.

Lemma first_dash_app_has (a b : string) :
  0 < count_dash a -> first_dash (a ++ b) = first_dash a.
Proof.
  induction a as [|c a IH]; simpl; [lia|].
  destruct (is_dash c); [reflexivity|].
  simpl. intros H. rewrite (IH H). reflexivity.
Qed.

Lemma count_dash_name (n : string) :
  forall_chars is_name_char n = true -> count_dash n = 0.
Proof.
  induction n as [|c n IH]; simpl; [reflexivity|].
  intros H. apply andb_true_iff in H. destruct H as [Hc Hn].
  rewrite (name_char_not_dash c Hc), (IH Hn). reflexivity.
Qed.

Lemma matches_count (p : list cls) :
  forall s, matches p s = true -> count_dash s = pattern_count_dash p.
Proof.
  induction p as [|k p IH]; intros [|c s] H; simpl in *;
    try discriminate; try reflexivity.
  - destruct k; discriminate.
  - destruct k; apply andb_true_iff in H; destruct H as [Hc Hs].
    + rewrite (hex_not_dash c Hc). simpl. exact (IH s Hs).
    + rewrite Hc. simpl. f_equal. exact (IH s Hs).
Qed.

Lemma matches_first (p : list cls) :
  forall s, matches p s = true -> first_dash s = pattern_first_dash p.
Proof.
  induction p as [|k p IH]; intros [|c s] H; simpl in *;
    try discriminate; try reflexivity.
  - destruct k; discriminate.
  - destruct k; apply andb_true_iff in H; destruct H as [Hc Hs].
    + rewrite (hex_not_dash c Hc). f_equal. exact (IH s Hs).
    + rewrite Hc. reflexivity.
Qed.

Lemma matches_app_nil (p : list cls) :
  forall u t, matches p u = true -> matches p (u ++ t) = true ->
              t = EmptyString.
Proof.
  induction p as [|k p IH]; intros [|c u] t Hu Ht; simpl in *;
    try discriminate.
  - destruct t; [reflexivity | discriminate].
  - destruct k; discriminate.
  - destruct k; apply andb_true_iff in Hu; apply andb_true_iff in Ht;
      destruct Hu as [_ Hu]; destruct Ht as [_ Ht]; exact (IH u t Hu Ht).
Qed.

(** A UUID occurs in [name_uuid'] only as [uuid'] itself, when the name is
    a sanitized one. *)
Lemma uuid_in_dir_name (n u v : string) :
  forall_chars is_name_char n = true ->
  uuid_shape u = true ->
  uuid_shape v = true ->
  includes (n ++ "_" ++ v) u = true ->
  u = v.
Proof.
  unfold uuid_shape. intros Hn Hu Hv Hin.
  destruct (includes_split _ _ Hin) as (pre & post & Heq).
  pose proof (count_dash_name n Hn) as Hn0.
  pose proof (matches_count _ _ Hu) as Hcu.
  pose proof (matches_count _ _ Hv) as Hcv.
  pose proof (matches_first _ _ Hu) as Hfu.
  pose proof (matches_first _ _ Hv) as Hfv.
  change (pattern_count_dash uuid_pattern) with 4 in Hcu, Hcv.
  change (pattern_first_dash uuid_pattern) with 8 in Hfu, Hfv.
  assert (Hcount : count_dash pre = 0).
  { pose proof (f_equal count_dash Heq) as H.
    rewrite !count_dash_app in H. simpl in H. lia. }
  assert (Hlen : String.length (n ++ "_") = String.length pre).
  { pose proof (f_equal first_dash Heq) as H.
    rewrite (first_dash_app_free n _ Hn0) in H.
    rewrite (first_dash_app_free pre _ Hcount) in H.
    rewrite (first_dash_app_has u post) in H by lia.
    change (first_dash ("_" ++ v)) with (S (first_dash v)) in H.
    rewrite string_app_length. simpl. lia. }
  rewrite <- (string_app_assoc n "_" v) in Heq.
  destruct (string_app_inv _ _ _ _ Heq Hlen) as [_ Hv'].
  subst v.
  rewrite (matches_app_nil _ u post Hu Hv).
  symmetry. apply string_app_nil_r.
Qed.

End Identifiers.

(** ** Directories *)

Section Directories.
Context {A : Type}.
Implicit Types (d : list (string * A)) (n m : string) (a b : A).

Lemma entry_rewrite_same n a b d :
  entry n d = Some b -> entry n (rewrite_entry n a d) = Some a.
Proof.
  induction d as [|[k x] d IH]; simpl; [discriminate|].
  destruct (String.eqb k n) eqn:E; simpl; rewrite E; [reflexivity | exact IH].
Qed.

Lemma entry_insert_same n a d :
  entry n d = None -> entry n (insert_entry n a d) = Some a.
Proof.
  induction d as [|[k x] d IH]; simpl.
  - rewrite String.eqb_refl. reflexivity.
  - destruct (String.eqb k n) eqn:E; [discriminate|]. intros H.
    destruct (String.ltb n k); simpl.
    + rewrite String.eqb_refl. reflexivity.
    + rewrite E. exact (IH H).
Qed.

Lemma entry_put_same n a d : entry n (put n a d) = Some a.
Proof.
  unfold put. destruct (entry n d) as [b|] eqn:E.
  - exact (entry_rewrite_same n a b d E).
  - exact (entry_insert_same n a d E).
Qed.

Lemma entry_rewrite_other n m a d :
  n <> m -> entry m (rewrite_entry n a d) = entry m d.
Proof.
  intros Hnm. induction d as [|[k x] d IH]; simpl; [reflexivity|].
  destruct (String.eqb k n) eqn:E; simpl.
  - apply String.eqb_eq in E. subst k.
    apply String.eqb_neq in Hnm. rewrite Hnm. reflexivity.
  - rewrite IH. reflexivity.
Qed.

Lemma entry_insert_other n m a d :
  n <> m -> entry m (insert_entry n a d) = entry m d.
Proof.
  intros Hnm. apply String.eqb_neq in Hnm.
  induction d as [|[k x] d IH]; simpl.
  - rewrite Hnm. reflexivity.
  - destruct (String.ltb n k); simpl.
    + rewrite Hnm. reflexivity.
    + rewrite IH. reflexivity.
Qed.

Lemma entry_put_other n m a d :
  n <> m -> entry m (put n a d) = entry m d.
Proof.
  intros Hnm. unfold put. destruct (entry n d).
  - exact (entry_rewrite_other n m a d Hnm).
  - exact (entry_insert_other n m a d Hnm).
Qed.

Lemma readdir_rewrite n a d : readdir (rewrite_entry n a d) = readdir d.
Proof.
  unfold readdir.
  induction d as [|[k x] d IH]; simpl; [reflexivity|].
  destruct (String.eqb k n) eqn:E; simpl; [reflexivity|].
  f_equal. exact IH.
Qed.

Lemma readdir_put_present n a b d :
  entry n d = Some b -> readdir (put n a d) = readdir d.
Proof. intros H. unfold put. rewrite H. apply readdir_rewrite. Qed.

Lemma insert_entry_permutation n a d :
  Permutation (insert_entry n a d) ((n, a) :: d).
Proof.
  induction d as [|[k x] d IH]; simpl; [apply Permutation_refl|].
  destruct (String.ltb n k); [apply Permutation_refl|].
  eapply perm_trans; [apply perm_skip, IH | apply perm_swap].
Qed.

(** A name that is written for the first time is added to the listing. *)
Lemma put_absent n a d :
  entry n d = None -> Permutation (put n a d) ((n, a) :: d).
Proof. intros H. unfold put. rewrite H. apply insert_entry_permutation. Qed.




Lemma entry_In n a d : entry n d = Some a -> In (n, a) d.
Proof.
  induction d as [|[k x] d IH]; simpl; [discriminate|].
  destruct (String.eqb k n) eqn:E.
  - apply String.eqb_eq in E. intros [= ->]. left. subst. reflexivity.
  - intros H. right. exact (IH H).
Qed.

Lemma entry_of_listed n d : In n (readdir d) -> exists a, entry n d = Some a.
Proof.
  induction d as [|[k x] d IH]; simpl; [contradiction|].
  intros [->|H].
  - rewrite String.eqb_refl. eauto.
  - destruct (String.eqb k n); eauto.
Qed.

Lemma entry_absent n d : ~ In n (readdir d) -> entry n d = None.
Proof.
  intros H. destruct (entry n d) as [a|] eqn:E; [|reflexivity].
  exfalso. apply H. apply entry_In in E.
  unfold readdir. change n with (fst (n, a)). apply in_map, E.
Qed.

Lemma In_put n a d (e : string * A) :
  In e (put n a d) -> e = (n, a) \/ In e d.
Proof.
  unfold put. destruct (entry n d) as [b|].
  - induction d as [|[k x] d IH]; simpl; [contradiction|].
    destruct (String.eqb k n) eqn:E; simpl.
    + apply String.eqb_eq in E. subst k. intros [<-|H]; auto.
    + intros [<-|H]; [auto|]. destruct (IH H); auto.
  - intros H.
    apply (Permutation_in _ (insert_entry_permutation n a d)) in H.
    destruct H as [<-|H]; auto.
Qed.

Lemma forallb_put (P : string * A -> bool) n a d :
  forallb P d = true -> P (n, a) = true -> forallb P (put n a d) = true.
Proof.
  intros Hd Ha. rewrite forallb_forall in *. intros e He.
  destruct (In_put _ _ _ _ He) as [->|H]; [exact Ha | exact (Hd e H)].
Qed.

Lemma forallb_entry (P : string * A -> bool) n a d :
  forallb P d = true -> entry n d = Some a -> P (n, a) = true.
Proof.
  intros Hd He. apply entry_In in He.
  rewrite forallb_forall in Hd. exact (Hd _ He).
Qed.

End Directories.

(** ** Paths of session files *)

Section Paths.

Lemma components_plain (current s : string) :
  forall_chars (fun c => negb (Ascii.eqb c "/")) s = true ->
  components current s = [(current ++ s)%string].
Proof.
  revert current. induction s as [|c s IH]; intros current H; simpl in *.
  - rewrite string_app_nil_r. reflexivity.
  - apply andb_true_iff in H. destruct H as [Hc Hs].
    apply negb_true_iff in Hc. rewrite Hc, (IH _ Hs), string_app_assoc.
    reflexivity.
Qed.

Lemma plain_name_no_separator (s : string) :
  plain_name s = true ->
  forall_chars (fun c => negb (Ascii.eqb c "/")) s = true.
Proof.
  unfold plain_name. induction s as [|c s IH]; simpl; [reflexivity|].
  intros H. apply andb_true_iff in H. destruct H as [Hc Hs].
  rewrite (IH Hs), andb_true_r.
  destruct (Ascii.eqb c "/"); [discriminate | reflexivity].
Qed.

Lemma descend_json (dir : list string) (s : string) :
  descend dir (s ++ ".json") = (s ++ ".json")%string :: dir.
Proof.
  unfold descend.
  assert (Hlen : forall t, (s ++ ".json")%string = t -> 5 <= String.length t).
  { intros t <-. rewrite string_app_length. simpl. lia. }
  destruct (String.eqb (s ++ ".json") "") eqn:E1.
  { apply String.eqb_eq, Hlen in E1. simpl in E1. lia. }
  destruct (String.eqb (s ++ ".json") ".") eqn:E2.
  { apply String.eqb_eq, Hlen in E2. simpl in E2. lia. }
  destruct (String.eqb (s ++ ".json") "..") eqn:E3.
  { apply String.eqb_eq, Hlen in E3. simpl in E3. lia. }
  reflexivity.
Qed.

Lemma below_child (dir : list string) (part : string) :
  below dir (part :: dir) = Some [part].
Proof.
  unfold below.
  replace (List.length (part :: dir) - List.length dir) with 1
    by (cbn [List.length]; lia).
  simpl. destruct (list_eq_dec string_dec dir dir); [reflexivity | congruence].
Qed.

(** The file of a session whose id is a plain name is in the [sessions]
    directory, under the name [<id>.json]. *)
Lemma session_file_in_sessions (dir : list string) (sid : option string) :
  plain_name (orDefault sid) = true ->
  below dir (join_normalized dir (sessionFileName sid))
  = Some [sessionFileName sid].
Proof.
  intros Hplain. unfold join_normalized, sessionFileName.
  rewrite components_plain.
  - simpl. rewrite descend_json. apply below_child.
  - rewrite forall_chars_app, (plain_name_no_separator _ Hplain). reflexivity.
Qed.

End Paths.

(** ** The operations, by cases on the lookup *)

Section Lookup.
Context {installation : Installation}.
Implicit Types (st : Store) (userId userDir : string).

Lemma findUserDir_found userId st userDir :
  findUserDir userId st = Some userDir ->
  includes userDir userId = true /\ exists d, entry userDir st = Some d.
Proof.
  unfold findUserDir. intros H. apply find_some in H. destruct H as [Hin Hinc].
  split; [exact Hinc | exact (entry_of_listed _ _ Hin)].
Qed.

Lemma findUserDir_none userId st :
  findUserDir userId st = None <->
  forall dir, In dir (readdir st) -> includes dir userId = false.
Proof.
  unfold findUserDir. split.
  - intros H dir Hin. exact (find_none _ _ H dir Hin).
  - intros H. destruct (find _ _) as [dir|] eqn:E; [|reflexivity].
    apply find_some in E. destruct E as [Hin Hinc].
    rewrite (H dir Hin) in Hinc. discriminate.
Qed.

Lemma findUserDir_put userId st userDir d d' :
  entry userDir st = Some d ->
  findUserDir userId (put userDir d' st) = findUserDir userId st.
Proof.
  intros H. unfold findUserDir. rewrite (readdir_put_present _ _ _ _ H).
  reflexivity.
Qed.

Lemma getUserContext_found userId st userDir d :
  findUserDir userId st = Some userDir ->
  entry userDir st = Some d ->
  getUserContext userId st = Ok (profile_json d).
Proof.
  intros Hf He. unfold getUserContext, readProfile. rewrite Hf, He. reflexivity.
Qed.

Lemma getUserContext_missing userId st :
  findUserDir userId st = None ->
  getUserContext userId st
  = Throw (Error "Failed to get user context: User not found").
Proof. intros Hf. unfold getUserContext. rewrite Hf. reflexivity. Qed.

Lemma updateUserProfile_found userId dimension data now st userDir d :
  findUserDir userId st = Some userDir ->
  entry userDir st = Some d ->
  updateUserProfile userId dimension data now st
  = Ok (updated dimension data now (profile_json d),
        put userDir
            (mkUserDir (stored (updated dimension data now (profile_json d)))
                       (sessions_dir d)) st).
Proof.
  intros Hf He. unfold updateUserProfile, readProfile, writeProfile.
  rewrite Hf, He. reflexivity.
Qed.

Lemma updateUserProfile_missing userId dimension data now st :
  findUserDir userId st = None ->
  updateUserProfile userId dimension data now st
  = Throw (Error "Failed to update user profile: User not found").
Proof. intros Hf. unfold updateUserProfile. rewrite Hf. reflexivity. Qed.

Lemma saveConversation_found userId sid turn st userDir d :
  plain_name (orDefault sid) = true ->
  findUserDir userId st = Some userDir ->
  entry userDir st = Some d ->
  let file := sessionFileName sid in
  let turns := sessionTurns userDir file st ++ [turn] in
  saveConversation userId sid turn st
  = Ok (turns,
        put userDir
            (mkUserDir (profile_json d)
                       (Some (put file turns (sessionFiles userDir st)))) st).
Proof.
  intros Hplain Hf He. unfold saveConversation, sessionTurns, sessionFiles.
  rewrite Hf, He. cbv zeta. rewrite (session_file_in_sessions _ _ Hplain).
  reflexivity.
Qed.

(** Whatever the session id, a call that returns has extended or created
    one session file of the directory, or has left every directory as it
    was. *)
Lemma saveConversation_returns userId sid turn st userDir d turns st' :
  findUserDir userId st = Some userDir ->
  entry userDir st = Some d ->
  saveConversation userId sid turn st = Ok (turns, st') ->
  st' = st
  \/ exists file,
       st' = put userDir
               (mkUserDir (profile_json d)
                  (Some (put file (sessionTurns userDir file st ++ [turn])
                             (sessionFiles userDir st)))) st.
Proof.
  intros Hf He. unfold saveConversation, sessionTurns, sessionFiles.
  rewrite Hf, He. cbv zeta.
  destruct (below _ _) as [[|file [|next rest]]|]; simpl.
  - intros [= _ <-]. left. reflexivity.
  - intros [= _ <-]. right. exists file. reflexivity.
  - destruct (entry file _); discriminate.
  - intros [= _ <-]. left. reflexivity.
Qed.


Lemma saveConversation_missing userId sid turn st :
  findUserDir userId st = None ->
  saveConversation userId sid turn st
  = Throw (Error "Failed to save conversation: User not found").
Proof. intros Hf. unfold saveConversation. rewrite Hf. reflexivity. Qed.

Lemma getUserData_found userId st userDir d :
  findUserDir userId st = Some userDir ->
  entry userDir st = Some d ->
  getUserData userId st
  = Ok (mkBundle (profile_json d)
                 (map toSession (sessionFiles userDir st))
                 (path_join usersDir userDir)).
Proof.
  intros Hf He. unfold getUserData, sessionFiles.
  rewrite Hf, He. destruct (sessions_dir d); reflexivity.
Qed.

Lemma getUserData_missing userId st :
  findUserDir userId st = None ->
  getUserData userId st
  = Throw (Error "Failed to get user data: User not found").
Proof. intros Hf. unfold getUserData. rewrite Hf. reflexivity. Qed.

End Lookup.

(** ** What every reachable store satisfies *)

Section Invariant.
Context {installation : Installation}.
Implicit Types (st : Store) (o : object).

Lemma no_undefined_json_object o : no_undefined (json_object o) = true.
Proof.
  unfold no_undefined, json_object. apply forallb_forall.
  intros kv H. apply filter_In in H. exact (proj2 H).
Qed.

Lemma json_object_id o : no_undefined o = true -> json_object o = o.
Proof.
  unfold no_undefined, json_object.
  induction o as [|kv o IH]; simpl; [reflexivity|].
  intros H. apply andb_true_iff in H. destruct H as [Hkv Ho].
  rewrite Hkv, (IH Ho). reflexivity.
Qed.

Lemma nonempty_logs_put file turns turn files :
  nonempty_logs files = true ->
  nonempty_logs (put file (turns ++ [turn]) files) = true.
Proof.
  intros H. unfold nonempty_logs. apply forallb_put; [exact H|].
  simpl. rewrite length_app. simpl.
  replace (List.length turns + 1) with (S (List.length turns)) by lia.
  reflexivity.
Qed.

Lemma entry_ok_parts (e : string * UserDir) :
  entry_ok e = true ->
  fst e = (ud_name (profile_json (snd e)) ++ "_"
           ++ ud_id (profile_json (snd e)))%string
  /\ forall_chars is_name_char (ud_name (profile_json (snd e))) = true
  /\ uuid_shape (ud_id (profile_json (snd e))) = true
  /\ no_undefined (ud_profile (profile_json (snd e))) = true
  /\ match sessions_dir (snd e) with
     | Some files => nonempty_logs files
     | None => true
     end = true.
Proof.
  unfold entry_ok. intros H.
  repeat (apply andb_true_iff in H; destruct H as [H ?]).
  apply String.eqb_eq in H. auto.
Qed.

Lemma entry_ok_intro (n : string) (d : UserDir) :
  n = (ud_name (profile_json d) ++ "_" ++ ud_id (profile_json d))%string ->
  forall_chars is_name_char (ud_name (profile_json d)) = true ->
  uuid_shape (ud_id (profile_json d)) = true ->
  no_undefined (ud_profile (profile_json d)) = true ->
  match sessions_dir d with
  | Some files => nonempty_logs files
  | None => true
  end = true ->
  entry_ok (n, d) = true.
Proof.
  intros Hn H1 H2 H3 H4. unfold entry_ok. cbn [fst snd].
  rewrite <- Hn, String.eqb_refl, H1, H2, H3, H4. reflexivity.
Qed.

Lemma store_ok_entry st n d :
  store_ok st = true -> entry n st = Some d -> entry_ok (n, d) = true.
Proof. intros Hst He. exact (forallb_entry entry_ok n d st Hst He). Qed.

Lemma createUser_ok uuid now name st :
  store_ok st = true -> uuid_shape uuid = true ->
  store_ok (snd (createUser uuid now name st)) = true.
Proof.
  intros Hst Hu. unfold createUser, writeProfile. cbn [snd].
  apply forallb_put; [exact Hst|].
  apply entry_ok_intro;
    cbn [profile_json sessions_dir stored ud_name ud_id ud_profile].
  - reflexivity.
  - apply sanitize_chars.
  - exact Hu.
  - apply no_undefined_json_object.
  - destruct (entry _ st) as [d|] eqn:E; [|reflexivity].
    exact (proj2 (proj2 (proj2 (proj2
             (entry_ok_parts _ (store_ok_entry _ _ _ Hst E)))))).
Qed.

Lemma updateUserProfile_ok userId dimension data now st p st' :
  store_ok st = true ->
  updateUserProfile userId dimension data now st = Ok (p, st') ->
  store_ok st' = true.
Proof.
  intros Hst H.
  destruct (findUserDir userId st) as [userDir|] eqn:Hf.
  - destruct (findUserDir_found _ _ _ Hf) as [_ [d He]].
    rewrite (updateUserProfile_found _ _ _ _ _ _ _ Hf He) in H.
    injection H as _ <-.
    destruct (entry_ok_parts _ (store_ok_entry _ _ _ Hst He))
      as (Hn & H1 & H2 & _ & H4). simpl in *.
    apply forallb_put; [exact Hst|].
    apply entry_ok_intro; simpl; auto using no_undefined_json_object.
  - rewrite (updateUserProfile_missing _ _ _ _ _ Hf) in H. discriminate.
Qed.

Lemma saveConversation_ok userId sid turn st turns st' :
  store_ok st = true ->
  saveConversation userId sid turn st = Ok (turns, st') ->
  store_ok st' = true.
Proof.
  intros Hst H.
  destruct (findUserDir userId st) as [userDir|] eqn:Hf.
  - destruct (findUserDir_found _ _ _ Hf) as [_ [d He]].
    destruct (saveConversation_returns _ _ _ _ _ _ _ _ Hf He H)
      as [->|[file ->]]; [exact Hst|].
    destruct (entry_ok_parts _ (store_ok_entry _ _ _ Hst He))
      as (Hn & H1 & H2 & H3 & H4). simpl in *.
    apply forallb_put; [exact Hst|].
    apply entry_ok_intro; simpl; auto.
    apply nonempty_logs_put.
    unfold sessionFiles. rewrite He.
    destruct (sessions_dir d); [exact H4 | reflexivity].
  - rewrite (saveConversation_missing _ _ _ _ Hf) in H. discriminate.
Qed.

Lemma run_ok op st :
  store_ok st = true -> admissible op st = true -> store_ok (run op st) = true.
Proof.
  intros Hst Hop. destruct op as [uuid now name | userId dim data now
                                 | userId sid turn]; simpl in *.
  - apply andb_true_iff in Hop. destruct Hop as [Hu _].
    apply createUser_ok; assumption.
  - destruct (updateUserProfile _ _ _ _ st) as [[p st']|e] eqn:E;
      [exact (updateUserProfile_ok _ _ _ _ _ _ _ Hst E) | exact Hst].
  - destruct (saveConversation _ _ _ st) as [[l st']|e] eqn:E;
      [exact (saveConversation_ok _ _ _ _ _ _ Hst E) | exact Hst].
Qed.

Lemma reachable_ok st : reachable st -> store_ok st = true.
Proof.
  induction 1 as [|st op _ IH Hop]; [reflexivity|].
  exact (run_ok op st IH Hop).
Qed.

(** In a store that satisfies the invariant, an identifier of the shape
    of a UUID is contained in the name of the directory of its own profile
    only. *)
Lemma uuid_names_its_directory st uuid userDir d :
  store_ok st = true -> uuid_shape uuid = true ->
  entry userDir st = Some d ->
  includes userDir uuid = true ->
  ud_id (profile_json d) = uuid.
Proof.
  intros Hst Hu He Hinc.
  destruct (entry_ok_parts _ (store_ok_entry _ _ _ Hst He))
    as (Hn & H1 & H2 & _). simpl in *.
  rewrite Hn in Hinc. symmetry.
  exact (uuid_in_dir_name _ _ _ H1 Hu H2 Hinc).
Qed.

Lemma fresh_not_found st uuid :
  store_ok st = true -> uuid_shape uuid = true -> fresh uuid st = true ->
  findUserDir uuid st = None.
Proof.
  intros Hst Hu Hfresh. apply findUserDir_none. intros dir Hin.
  destruct (includes dir uuid) eqn:Hinc; [exfalso | reflexivity].
  destruct (entry_of_listed _ _ Hin) as [d He].
  pose proof (uuid_names_its_directory _ _ _ _ Hst Hu He Hinc) as Hid.
  unfold fresh in Hfresh. rewrite forallb_forall in Hfresh.
  specialize (Hfresh _ (entry_In _ _ _ He)). simpl in Hfresh.
  rewrite Hid, String.eqb_refl in Hfresh. discriminate.
Qed.

End Invariant.

(** ** Registration *)

Section Registration.
Context {installation : Installation}.

Lemma find_only {X : Type} (f : X -> bool) (l l' : list X) (x : X) :
  Permutation l' (x :: l) -> find f l = None -> f x = true ->
  find f l' = Some x.
Proof.
  intros Hperm Hl Hx. destruct (find f l') as [y|] eqn:E.
  - apply find_some in E. destruct E as [Hin Hy].
    apply (Permutation_in _ Hperm) in Hin. destruct Hin as [->|Hin];
      [reflexivity|].
    rewrite (find_none _ _ Hl y Hin) in Hy. discriminate.
  - assert (Hin : In x l')
      by (apply (Permutation_in _ (Permutation_sym Hperm)); left; reflexivity).
    rewrite (find_none _ _ E x Hin) in Hx. discriminate.
Qed.

Lemma not_found_not_listed userId st dir :
  findUserDir userId st = None -> includes dir userId = true ->
  entry dir st = None.
Proof.
  intros Hf Hinc. apply entry_absent. intros Hin.
  rewrite (proj1 (findUserDir_none _ _) Hf dir Hin) in Hinc. discriminate.
Qed.

(** The directory of a user that no stored directory name contains yet is
    added to the listing, and the identifier resolves to it. *)
Lemma createUser_unlisted uuid now name st :
  findUserDir uuid st = None ->
  let userDir := (sanitize name ++ "_" ++ uuid)%string in
  let record :=
    mkUserData uuid (sanitize name) now None initialProfile [] in
  (snd (createUser uuid now name st)
   = put userDir (mkUserDir record None) st
   /\ entry userDir st = None)
  /\ findUserDir uuid (snd (createUser uuid now name st)) = Some userDir
  /\ getUserContext uuid (snd (createUser uuid now name st)) = Ok record.
Proof.
  intros Hf userDir record.
  assert (Hinc : includes userDir uuid = true).
  { unfold userDir. rewrite <- string_app_assoc. apply includes_suffix. }
  pose proof (not_found_not_listed _ _ _ Hf Hinc) as Habsent.
  assert (Hst : snd (createUser uuid now name st)
                = put userDir (mkUserDir record None) st).
  { unfold createUser, writeProfile. cbn [snd]. fold userDir.
    rewrite Habsent. reflexivity. }
  assert (Hfind : findUserDir uuid (snd (createUser uuid now name st))
                  = Some userDir).
  { rewrite Hst. unfold findUserDir, readdir.
    apply (find_only _ (map fst st)); [|exact Hf | exact Hinc].
    change (userDir :: map fst st)
      with (map fst ((userDir, mkUserDir record None) :: st)).
    apply Permutation_map, put_absent, Habsent. }
  repeat split; [exact Hst | exact Habsent | exact Hfind |].
  apply (getUserContext_found _ _ userDir (mkUserDir record None) Hfind).
  rewrite Hst. apply entry_put_same.
Qed.

(** C1. In every reachable store, [createUser], given a fresh UUID, returns
    the identifier of a record that [getUserContext] resolves: the record
    carries that identifier and the sanitized name, and its profile has
    exactly the twelve dimension keys, every one bound to [null]. It holds
    of every name, valid or not. *)
Theorem createUser_record_resolves (st : Store) (uuid now name : string) :
  reachable st -> uuid_shape uuid = true -> fresh uuid st = true ->
  let registration := fst (createUser uuid now name st) in
  let st' := snd (createUser uuid now name st) in
  userId registration = uuid
  /\ exists record,
       getUserContext (userId registration) st' = Ok record
       /\ ud_id record = userId registration
       /\ ud_name record = sanitize name
       /\ keys (ud_profile record) = dimensions
       /\ List.length (keys (ud_profile record)) = 12
       /\ Forall (fun v => v = JNull) (values (ud_profile record)).
Proof.
  intros Hreach Hu Hfresh registration st'.
  pose proof (fresh_not_found st uuid (reachable_ok st Hreach) Hu Hfresh) as Hf.
  destruct (createUser_unlisted uuid now name st Hf) as (_ & _ & Hget).
  split; [reflexivity|].
  eexists. split; [exact Hget|].
  cbn [ud_id ud_name ud_profile]. repeat split.
  repeat constructor.
Qed.

End Registration.

Lemma createUser_record_resolves_witness :
  exists record,
    getUserContext uuid2
      (snd (createUser uuid2 "2025-08-30T09:00:00.000Z" "Ravi K." afrin_store))
    = Ok record
    /\ ud_id record = uuid2
    /\ ud_name record = "Ravi K"
    /\ keys (ud_profile record) = dimensions
    /\ List.length (keys (ud_profile record)) = 12
    /\ Forall (fun v => v = JNull) (values (ud_profile record)).
Proof.
  refine (proj2 (createUser_record_resolves afrin_store uuid2
                   "2025-08-30T09:00:00.000Z" "Ravi K." _ _ _)).
  - apply (reachable_step [] (CreateUser uuid1 "2025-08-29T10:00:00.000Z" "Afrin"));
      [apply reachable_empty | reflexivity].
  - reflexivity.
  - reflexivity.
Defined.

(** ** Session logs *)

Section SessionLogs.
Context {installation : Installation}.

Lemma last_of_somes {X : Type} (l : list X) :
  match last (map Some l) None with
  | Some x => In x l
  | None => l = []
  end.
Proof.
  induction l as [|x l IH]; [reflexivity|].
  destruct l as [|y l]; [left; reflexivity|].
  change (last (map Some (x :: y :: l)) None)
    with (last (map Some (y :: l)) None).
  destruct (last (map Some (y :: l)) None); [right; exact IH | discriminate].
Qed.

Lemma nonempty_logs_In files file (turns : list ConversationTurn) :
  nonempty_logs files = true -> In (file, turns) files -> turns <> [].
Proof.
  unfold nonempty_logs. rewrite forallb_forall. intros H Hin ->.
  specialize (H _ Hin). discriminate.
Qed.

Lemma summary_of_nonempty_logs files :
  nonempty_logs files = true ->
  exists summary,
    generateConversationSummary (map toSession files) = Ok summary.
Proof.
  intros Hfiles. unfold generateConversationSummary.
  pose proof (last_of_somes (map toSession files)) as Hlast.
  destruct (last (map Some (map toSession files)) None) as [s|];
    [|eexists; reflexivity].
  apply in_map_iff in Hlast. destruct Hlast as ([file turns] & <- & Hin).
  cbn [toSession data fst snd].
  pose proof (last_of_somes turns) as Hturn.
  destruct (last (map Some turns) None) as [turn|]; [eexists; reflexivity|].
  destruct (nonempty_logs_In _ _ _ Hfiles Hin Hturn).
Qed.

Lemma store_ok_sessionFiles st userDir :
  store_ok st = true -> nonempty_logs (sessionFiles userDir st) = true.
Proof.
  intros Hst. unfold sessionFiles.
  destruct (entry userDir st) as [d|] eqn:He; [|reflexivity].
  destruct (entry_ok_parts _ (store_ok_entry _ _ _ Hst He)) as (_ & _ & _ & _ & H).
  cbn [snd] in H. destruct (sessions_dir d); [exact H | reflexivity].
Qed.

Lemma getUserData_ok_inv userId st bundle :
  getUserData userId st = Ok bundle ->
  exists userDir d,
    findUserDir userId st = Some userDir /\ entry userDir st = Some d
    /\ bundle = mkBundle (profile_json d)
                         (map toSession (sessionFiles userDir st))
                         (path_join usersDir userDir).
Proof.
  intros H. destruct (findUserDir userId st) as [userDir|] eqn:Hf.
  - destruct (findUserDir_found _ _ _ Hf) as [_ [d He]].
    rewrite (getUserData_found _ _ _ _ Hf He) in H. injection H as <-.
    exists userDir, d. auto.
  - rewrite (getUserData_missing _ _ Hf) in H. discriminate.
Qed.

(** C10. In every reachable store no session log is empty, so
    [generateConversationSummary] finds a last turn in the last session
    and [getUserSummary] returns a summary for every user that
    [getUserData] resolves. *)
Theorem session_logs_hold_a_turn (st : Store) :
  reachable st ->
  (forall userDir d files file turns,
      In (userDir, d) st -> sessions_dir d = Some files ->
      In (file, turns) files -> turns <> [])
  /\ (forall userId bundle,
        getUserData userId st = Ok bundle ->
        (forall s, In s (sessions bundle) -> data s <> [])
        /\ (exists summary,
              generateConversationSummary (sessions bundle) = Ok summary)
        /\ (exists summary, getUserSummary userId st = Ok summary)).
Proof.
  intros Hreach. pose proof (reachable_ok st Hreach) as Hst. split.
  - intros userDir d files file turns Hin Hfiles Hfile.
    unfold store_ok in Hst. rewrite forallb_forall in Hst.
    destruct (entry_ok_parts _ (Hst _ Hin)) as (_ & _ & _ & _ & H).
    cbn [snd] in H. rewrite Hfiles in H.
    exact (nonempty_logs_In _ _ _ H Hfile).
  - intros userId bundle Hdata.
    destruct (getUserData_ok_inv _ _ _ Hdata) as (userDir & d & Hf & He & ->).
    pose proof (store_ok_sessionFiles st userDir Hst) as Hlogs.
    cbn [sessions]. split; [|split].
    + intros s Hs. apply in_map_iff in Hs.
      destruct Hs as ([file turns] & <- & Hin).
      exact (nonempty_logs_In _ _ _ Hlogs Hin).
    + exact (summary_of_nonempty_logs _ Hlogs).
    + destruct (summary_of_nonempty_logs _ Hlogs) as [summary Hsum].
      unfold getUserSummary. rewrite Hdata.
      cbn [bind sessions]. rewrite Hsum. eexists. reflexivity.
Qed.

End SessionLogs.

Section SampleStores.
Context {installation : Installation}.

Lemma reachable_afrin_store : reachable afrin_store.
Proof.
  apply (reachable_step [] (CreateUser uuid1 "2025-08-29T10:00:00.000Z" "Afrin"));
    [apply reachable_empty | reflexivity].
Qed.

Lemma reachable_two_users_store : reachable two_users_store.
Proof.
  apply (reachable_step afrin_store
           (CreateUser uuid2 "2025-08-30T09:00:00.000Z" "Ravi K."));
    [apply reachable_afrin_store | reflexivity].
Qed.

End SampleStores.

Lemma reachable_chat_store : reachable chat_store.
Proof.
  apply (reachable_step afrin_store
           (SaveConversation uuid1 None
              (mkTurn "2025-08-29T10:00:30.000Z" "hi" "Welcome back")));
    [apply reachable_afrin_store | reflexivity].
Qed.

Lemma session_logs_hold_a_turn_witness :
  exists summary, getUserSummary uuid1 chat_store = Ok summary.
Proof.
  refine (proj2 (proj2 (proj2 (session_logs_hold_a_turn chat_store
                                 reachable_chat_store) uuid1 _ eq_refl))).
Defined.

(** ** Appending turns *)

Section Appending.
Context {installation : Installation}.

Lemma saveConversation_step userId sid turn st userDir :
  plain_name (orDefault sid) = true ->
  findUserDir userId st = Some userDir ->
  let file := sessionFileName sid in
  exists st1,
    saveConversation userId sid turn st
    = Ok (sessionTurns userDir file st ++ [turn], st1)
    /\ findUserDir userId st1 = Some userDir
    /\ sessionFiles userDir st1
       = put file (sessionTurns userDir file st ++ [turn])
             (sessionFiles userDir st)
    /\ (forall otherDir, otherDir <> userDir ->
                         entry otherDir st1 = entry otherDir st)
    /\ readProfile userDir st1 = readProfile userDir st.
Proof.
  intros Hplain Hf file. destruct (findUserDir_found _ _ _ Hf) as [_ [d He]].
  eexists. split; [exact (saveConversation_found _ _ _ _ _ _ Hplain Hf He)|].
  split; [rewrite (findUserDir_put _ _ _ _ _ He); exact Hf|].
  split; [|split].
  - unfold sessionFiles at 1. rewrite entry_put_same. reflexivity.
  - intros otherDir Hother. apply entry_put_other. congruence.
  - unfold readProfile. rewrite entry_put_same, He. reflexivity.
Qed.

Lemma sessionTurns_put userDir file turns st st1 :
  sessionFiles userDir st1 = put file turns (sessionFiles userDir st) ->
  sessionTurns userDir file st1 = turns
  /\ forall other, other <> file ->
       sessionTurns userDir other st1 = sessionTurns userDir other st.
Proof.
  intros H. unfold sessionTurns. rewrite H. split.
  - rewrite entry_put_same. reflexivity.
  - intros other Hother. rewrite entry_put_other by congruence. reflexivity.
Qed.


End Appending.



(** ** Lookup by substring *)

Section SubstringLookup.
Context {installation : Installation}.



End SubstringLookup.


(** ** Failures *)

Section Failures.
Context {installation : Installation}.

Lemma rethrow_generic {X : Type} (prefix : string) (r : result X) (e : error) :
  rethrow prefix r = Throw e -> err_name e = "Error".
Proof. destruct r; simpl; [discriminate|]. intros [= <-]. reflexivity. Qed.

Lemma generic_unclassified (e : error) :
  err_name e = "Error" -> classified e = false.
Proof. unfold classified. intros ->. reflexivity. Qed.

(** C5, as the code has it. An id that no stored directory name contains
    makes every operation throw, never return a default profile; what is
    thrown is a plain [Error] whose message is the operation's prefix
    followed by [User not found], and the route [GET /api/user/:userId]
    answers 500 with the error [User not found]. Every exception of a
    store operation is such a plain [Error]: none carries one of the kinds
    of the taxonomy. *)
Theorem unknown_id_throws_plain_error :
  (forall userId st,
      findUserDir userId st = None ->
      getUserContext userId st
      = Throw (Error "Failed to get user context: User not found")
      /\ (forall dimension data now,
            updateUserProfile userId dimension data now st
            = Throw (Error "Failed to update user profile: User not found"))
      /\ (forall sid turn,
            saveConversation userId sid turn st
            = Throw (Error "Failed to save conversation: User not found"))
      /\ getUserData userId st
         = Throw (Error "Failed to get user data: User not found")
      /\ getUserSummary userId st
         = Throw (Error
             "Failed to generate user summary: Failed to get user data: User not found")
      /\ Server.get_user userId st = Server.Status 500 "User not found")
  /\ (forall userId st e,
        getUserContext userId st = Throw e
        \/ (exists dimension data now,
              updateUserProfile userId dimension data now st = Throw e)
        \/ (exists sid turn, saveConversation userId sid turn st = Throw e)
        \/ getUserData userId st = Throw e
        \/ getUserSummary userId st = Throw e ->
        err_name e = "Error" /\ classified e = false).
Proof.
  split.
  - intros userId st Hf.
    pose proof (getUserData_missing _ _ Hf) as Hdata.
    split; [exact (getUserContext_missing _ _ Hf)|].
    split; [intros; exact (updateUserProfile_missing _ _ _ _ _ Hf)|].
    split; [intros; exact (saveConversation_missing _ _ _ _ Hf)|].
    split; [exact Hdata|].
    split.
    + unfold getUserSummary. rewrite Hdata. reflexivity.
    + unfold Server.get_user. rewrite Hdata. reflexivity.
  - intros userId st e H.
    assert (Hname : err_name e = "Error").
    { destruct H as [H|[(dimension & data & now & H)|[(sid & turn & H)|[H|H]]]];
        exact (rethrow_generic _ _ _ H). }
    split; [exact Hname | exact (generic_unclassified e Hname)].
Qed.

End Failures.

Lemma unknown_id_throws_plain_error_witness :
  getUserContext "does-not-exist" afrin_store
  = Throw (Error "Failed to get user context: User not found").
Proof.
  exact (proj1 (proj1 unknown_id_throws_plain_error
                  "does-not-exist" afrin_store eq_refl)).
Defined.

(** C5 as stated fails: the failure for an unknown id is not a
    [NotFoundError], nor of any kind of the taxonomy. *)
Lemma unknown_id_error_is_unclassified :
  exists e,
    getUserContext "does-not-exist" afrin_store = Throw e
    /\ err_name e <> "NotFoundError"
    /\ classified e = false.
Proof.
  eexists. split; [reflexivity|]. split; [discriminate | reflexivity].
Qed.


(** ** Sanitized names *)

Section Sanitization.
Context {installation : Installation}.

Lemma space_not_alnum (c : ascii) : is_space c = true -> is_alnum c = false.
Proof.
  destruct c as [[] [] [] [] [] [] [] []]; vm_compute; congruence.
Qed.

Lemma filter_alnum_trimStart (s : string) :
  filter_chars is_alnum (trimStart s) = filter_chars is_alnum s.
Proof.
  induction s as [|c s IH]; simpl; [reflexivity|].
  destruct (is_space c) eqn:Hc; [|reflexivity].
  rewrite (space_not_alnum c Hc). exact IH.
Qed.

Lemma filter_alnum_trimEnd (s : string) :
  filter_chars is_alnum (trimEnd s) = filter_chars is_alnum s.
Proof.
  induction s as [|c s IH]; simpl; [reflexivity|].
  destruct (trimEnd s) as [|d r].
  - simpl in IH. rewrite <- IH.
    destruct (is_space c) eqn:Hc.
    + rewrite (space_not_alnum c Hc). reflexivity.
    + simpl. destruct (is_alnum c); reflexivity.
  - change (filter_chars is_alnum (String c (String d r)))
      with (if is_alnum c
            then String c (filter_chars is_alnum (String d r))
            else filter_chars is_alnum (String d r)).
    rewrite IH. reflexivity.
Qed.

Lemma filter_alnum_name_chars (s : string) :
  filter_chars is_alnum (filter_chars is_name_char s) = filter_chars is_alnum s.
Proof.
  induction s as [|c s IH]; simpl; [reflexivity|].
  unfold is_name_char at 1.
  destruct (is_alnum c) eqn:Ha; simpl.
  - rewrite Ha, IH. reflexivity.
  - destruct (is_space c); simpl; [rewrite Ha|]; exact IH.
Qed.

Lemma sanitize_keeps_alnum (name : string) :
  filter_chars is_alnum (sanitize name) = filter_chars is_alnum name.
Proof.
  unfold sanitize, trim.
  rewrite filter_alnum_trimEnd, filter_alnum_trimStart.
  apply filter_alnum_name_chars.
Qed.

Lemma sanitize_trimmed (name : string) : trim (sanitize name) = sanitize name.
Proof. unfold sanitize. apply trim_idempotent. Qed.

(** C6, as the code has it. [createUser] keeps, in order, the letters and
    digits of the name together with the white space between them: the
    sanitized name holds only letters, digits and white space, is
    trimmed, and a name made of such characters only is just trimmed. No
    name is rejected: whatever the sanitized name is, the empty one
    included, the profile is written under [<sanitized name>_<uuid>]. The
    route [POST /api/register-user] answers 400 for a missing or empty
    name only, before any sanitization. *)
Theorem createUser_sanitizes_and_registers
    (uuid now name : string) (st : Store) :
  let registration := fst (createUser uuid now name st) in
  let st' := snd (createUser uuid now name st) in
  UserManager.name registration = sanitize name
  /\ forall_chars is_name_char (sanitize name) = true
  /\ trim (sanitize name) = sanitize name
  /\ filter_chars is_alnum (sanitize name) = filter_chars is_alnum name
  /\ (forall_chars is_name_char name = true -> sanitize name = trim name)
  /\ (exists d,
        entry (sanitize name ++ "_" ++ uuid) st' = Some d
        /\ ud_name (profile_json d) = sanitize name
        /\ ud_id (profile_json d) = uuid
        /\ ud_profile (profile_json d) = initialProfile)
  /\ Server.register_user uuid now None st
     = (Server.Status 400 "Name is required", st)
  /\ Server.register_user uuid now (Some "") st
     = (Server.Status 400 "Name is required", st)
  /\ (name <> "" ->
      Server.register_user uuid now (Some name) st
      = (Server.Json registration, st')).
Proof.
  intros registration st'.
  split; [reflexivity|].
  split; [apply sanitize_chars|].
  split; [apply sanitize_trimmed|].
  split; [apply sanitize_keeps_alnum|].
  split; [|split; [|split; [|split]]].
  - intros H. unfold sanitize. rewrite (filter_chars_id _ _ H). reflexivity.
  - eexists. split.
    + unfold st', createUser, writeProfile. cbn [snd]. apply entry_put_same.
    + repeat split.
  - reflexivity.
  - reflexivity.
  - intros Hname. unfold Server.register_user.
    destruct (String.eqb_spec name ""); [contradiction|].
    unfold registration, st'. destruct (createUser uuid now name st).
    reflexivity.
Qed.

End Sanitization.

Lemma createUser_sanitizes_and_registers_witness :
  Server.register_user uuid1 "2025-08-29T10:00:00.000Z" (Some " Af-rin! ") []
  = (Server.Json (mkRegistration uuid1 "Afrin" (welcome "Afrin")),
     afrin_store).
Proof.
  refine (proj2 (proj2 (proj2 (proj2 (proj2 (proj2 (proj2 (proj2
    (createUser_sanitizes_and_registers uuid1 "2025-08-29T10:00:00.000Z"
       " Af-rin! " [])))))))) _).
  discriminate.
Defined.

(** C6 as stated fails: a name that is empty after sanitization is not
    rejected, a record with the empty name is written. *)
Lemma empty_sanitized_name_is_registered :
  sanitize "!!!" = ""
  /\ Server.register_user uuid1 "2025-08-29T10:00:00.000Z" (Some "!!!") []
     = (Server.Json (mkRegistration uuid1 "" (welcome "")),
        [("_123e4567-e89b-42d3-a456-426614174000",
          mkUserDir
            (mkUserData uuid1 "" "2025-08-29T10:00:00.000Z" None
                        initialProfile [])
            None)])
  /\ exists record,
       getUserContext uuid1
         (snd (createUser uuid1 "2025-08-29T10:00:00.000Z" "!!!" []))
       = Ok record
       /\ ud_name record = "".
Proof.
  split; [reflexivity|]. split; [reflexivity|].
  eexists. split; reflexivity.
Qed.


(** ** Property assignment *)

Section Assignment.
Implicit Types (o : object) (k : string) (v : value).

Lemma get_replace_same k v o :
  has_key k o = true -> get k (replace_value k v o) = Some v.
Proof.
  unfold has_key. induction o as [|[k' v'] o IH]; simpl; [discriminate|].
  destruct (String.eqb k' k) eqn:E; simpl; rewrite E; [reflexivity | exact IH].
Qed.

Lemma get_replace_other k k' v o :
  k' <> k -> get k' (replace_value k v o) = get k' o.
Proof.
  intros Hk. induction o as [|[k0 v0] o IH]; simpl; [reflexivity|].
  destruct (String.eqb k0 k) eqn:E; simpl.
  - apply String.eqb_eq in E. subst k0.
    destruct (String.eqb_spec k k'); [congruence | reflexivity].
  - rewrite IH. reflexivity.
Qed.

Lemma get_insert_same n k v o :
  get k o = None -> get k (insert_index n k v o) = Some v.
Proof.
  induction o as [|[k' v'] o IH]; simpl.
  - rewrite String.eqb_refl. reflexivity.
  - destruct (String.eqb k' k) eqn:E; [discriminate|]. intros H.
    destruct (array_index k') as [m|]; [destruct (m <? n)%N|];
      simpl; rewrite ?E, ?String.eqb_refl; auto.
Qed.

Lemma get_insert_other n k k' v o :
  k' <> k -> get k' (insert_index n k v o) = get k' o.
Proof.
  intros Hk. apply not_eq_sym in Hk. apply String.eqb_neq in Hk.
  induction o as [|[k0 v0] o IH]; simpl.
  - rewrite Hk. reflexivity.
  - destruct (array_index k0) as [m|]; [destruct (m <? n)%N|];
      simpl; rewrite ?Hk, ?IH; reflexivity.
Qed.

Lemma get_app_same k v o :
  get k o = None -> get k (o ++ [(k, v)]) = Some v.
Proof.
  induction o as [|[k' v'] o IH]; simpl.
  - rewrite String.eqb_refl. reflexivity.
  - destruct (String.eqb k' k); [discriminate | exact IH].
Qed.

Lemma get_app_other k k' v o :
  k' <> k -> get k' (o ++ [(k, v)]) = get k' o.
Proof.
  intros Hk. apply not_eq_sym in Hk. apply String.eqb_neq in Hk.
  induction o as [|[k0 v0] o IH]; simpl.
  - rewrite Hk. reflexivity.
  - rewrite IH. reflexivity.
Qed.

Lemma has_key_false k o : has_key k o = false -> get k o = None.
Proof. unfold has_key. destruct (get k o); [discriminate | reflexivity]. Qed.

Lemma get_set_same k v o :
  k <> "__proto__" -> get k (set k v o) = Some v.
Proof.
  intros Hk. unfold set. apply String.eqb_neq in Hk. rewrite Hk.
  destruct (has_key k o) eqn:Hhas.
  - exact (get_replace_same k v o Hhas).
  - apply has_key_false in Hhas.
    destruct (array_index k);
      [exact (get_insert_same _ k v o Hhas) | exact (get_app_same k v o Hhas)].
Qed.

Lemma get_set_other k k' v o : k' <> k -> get k' (set k v o) = get k' o.
Proof.
  intros Hk. unfold set.
  destruct (String.eqb k "__proto__"); [reflexivity|].
  destruct (has_key k o); [exact (get_replace_other k k' v o Hk)|].
  destruct (array_index k);
    [exact (get_insert_other _ k k' v o Hk) | exact (get_app_other k k' v o Hk)].
Qed.

Lemma get_set_proto v o : set "__proto__" v o = o.
Proof. reflexivity. Qed.

Lemma has_key_set k k' v o :
  has_key k' (set k v o)
  = has_key k' o || (String.eqb k' k && negb (String.eqb k "__proto__")).
Proof.
  destruct (String.eqb_spec k' k) as [->|Hne].
  - destruct (String.eqb_spec k "__proto__") as [->|Hproto].
    + rewrite get_set_proto, orb_false_r. reflexivity.
    + unfold has_key at 1. rewrite (get_set_same k v o Hproto).
      rewrite orb_true_r. reflexivity.
  - unfold has_key. rewrite (get_set_other k k' v o Hne), orb_false_r.
    reflexivity.
Qed.

Lemma no_undefined_replace k v o :
  no_undefined o = true -> v <> JUndefined ->
  no_undefined (replace_value k v o) = true.
Proof.
  intros Ho Hv. unfold no_undefined in *.
  induction o as [|[k' v'] o IH]; simpl in *; [reflexivity|].
  apply andb_true_iff in Ho. destruct Ho as [Hv' Ho].
  destruct (String.eqb k' k); simpl.
  - rewrite Ho. destruct v; [congruence | reflexivity | reflexivity].
  - rewrite Hv'. exact (IH Ho).
Qed.

Lemma no_undefined_insert n k v o :
  no_undefined o = true -> v <> JUndefined ->
  no_undefined (insert_index n k v o) = true.
Proof.
  intros Ho Hv. unfold no_undefined in *.
  assert (Hnew : negb (value_eqb v JUndefined) = true)
    by (destruct v; [congruence | reflexivity | reflexivity]).
  induction o as [|[k' v'] o IH]; simpl in *; [rewrite Hnew; reflexivity|].
  apply andb_true_iff in Ho. destruct Ho as [Hv' Ho].
  destruct (array_index k') as [m|]; [destruct (m <? n)%N|];
    simpl; rewrite ?Hnew, ?Hv', ?Ho; auto.
Qed.

Lemma no_undefined_set k v o :
  no_undefined o = true -> v <> JUndefined -> no_undefined (set k v o) = true.
Proof.
  intros Ho Hv. unfold set.
  destruct (String.eqb k "__proto__"); [exact Ho|].
  destruct (has_key k o); [exact (no_undefined_replace k v o Ho Hv)|].
  destruct (array_index k); [exact (no_undefined_insert _ k v o Ho Hv)|].
  unfold no_undefined in *. rewrite forallb_app, Ho. simpl.
  destruct v; [congruence | reflexivity | reflexivity].
Qed.

Lemma length_replace k v o :
  List.length (replace_value k v o) = List.length o.
Proof.
  induction o as [|[k' v'] o IH]; simpl; [reflexivity|].
  destruct (String.eqb k' k); simpl; [|rewrite IH]; reflexivity.
Qed.

Lemma length_insert n k v o :
  List.length (insert_index n k v o) = S (List.length o).
Proof.
  induction o as [|[k' v'] o IH]; simpl; [reflexivity|].
  destruct (array_index k') as [m|]; [destruct (m <? n)%N|];
    simpl; rewrite ?IH; reflexivity.
Qed.

Lemma length_set_new k v o :
  k <> "__proto__" -> has_key k o = false ->
  List.length (keys (set k v o)) = S (List.length (keys o)).
Proof.
  intros Hk Hhas. unfold keys, set. rewrite !length_map.
  apply String.eqb_neq in Hk. rewrite Hk, Hhas.
  destruct (array_index k); [apply length_insert|].
  rewrite length_app. simpl. lia.
Qed.

Lemma length_set_old k v o :
  has_key k o = true ->
  List.length (keys (set k v o)) = List.length (keys o).
Proof.
  intros Hhas. unfold keys, set. rewrite !length_map.
  destruct (String.eqb k "__proto__"); [reflexivity|].
  rewrite Hhas. apply length_replace.
Qed.

End Assignment.

(** ** Writing a dimension *)

Section Writing.
Context {installation : Installation}.

Lemma stored_updated dimension data now (p : UserData) :
  no_undefined (ud_profile p) = true -> data <> JUndefined ->
  stored (updated dimension data now p) = updated dimension data now p.
Proof.
  intros Hp Hdata. unfold stored, updated.
  cbn [ud_id ud_name ud_createdAt ud_updatedAt ud_profile ud_sessions].
  rewrite (json_object_id _ (no_undefined_set dimension data _ Hp Hdata)).
  reflexivity.
Qed.

Lemma updateUserProfile_step st userId dimension data now userDir :
  store_ok st = true ->
  findUserDir userId st = Some userDir ->
  data <> JUndefined ->
  exists before st',
    getUserContext userId st = Ok before
    /\ updateUserProfile userId dimension data now st
       = Ok (updated dimension data now before, st')
    /\ getUserContext userId st' = Ok (updated dimension data now before)
    /\ (forall otherDir, otherDir <> userDir ->
                         entry otherDir st' = entry otherDir st)
    /\ sessionFiles userDir st' = sessionFiles userDir st.
Proof.
  intros Hst Hf Hdata. destruct (findUserDir_found _ _ _ Hf) as [_ [d He]].
  destruct (entry_ok_parts _ (store_ok_entry _ _ _ Hst He))
    as (_ & _ & _ & Hprofile & _). cbn [snd] in Hprofile.
  exists (profile_json d). eexists.
  split; [exact (getUserContext_found _ _ _ _ Hf He)|].
  split; [exact (updateUserProfile_found _ _ _ _ _ _ _ Hf He)|].
  rewrite (stored_updated _ _ _ _ Hprofile Hdata).
  split; [|split].
  - apply (getUserContext_found _ _ userDir
             (mkUserDir (updated dimension data now (profile_json d))
                        (sessions_dir d))).
    + rewrite (findUserDir_put _ _ _ _ _ He). exact Hf.
    + apply entry_put_same.
  - intros otherDir Hother. apply entry_put_other. congruence.
  - unfold sessionFiles. rewrite entry_put_same, He. reflexivity.
Qed.

(** C2, as the code has it. [updateUserProfile] overwrites: in every
    reachable store, for a user that the lookup resolves, a key other than
    [__proto__] and data that JSON can hold, the call succeeds and the
    stored slot then holds the new data, whatever it held before; [null]
    data puts the slot back to [null]. The other slots, the sessions and
    the other users are unchanged, and [updatedAt] is refreshed. *)
Theorem updateUserProfile_overwrites
    (st : Store) (userId dimension : string) (data : value) (now : string)
    (userDir : string) :
  reachable st ->
  findUserDir userId st = Some userDir ->
  dimension <> "__proto__" ->
  data <> JUndefined ->
  exists before after st',
    getUserContext userId st = Ok before
    /\ updateUserProfile userId dimension data now st = Ok (after, st')
    /\ getUserContext userId st' = Ok after
    /\ get dimension (ud_profile after) = Some data
    /\ (forall k, k <> dimension ->
                  get k (ud_profile after) = get k (ud_profile before))
    /\ ud_updatedAt after = Some now
    /\ ud_id after = ud_id before
    /\ ud_name after = ud_name before
    /\ ud_createdAt after = ud_createdAt before
    /\ (forall otherDir, otherDir <> userDir ->
                         entry otherDir st' = entry otherDir st)
    /\ sessionFiles userDir st' = sessionFiles userDir st.
Proof.
  intros Hreach Hf Hproto Hdata.
  destruct (updateUserProfile_step st userId dimension data now userDir
              (reachable_ok st Hreach) Hf Hdata)
    as (before & st' & Hget & Hupd & Hget' & Hdirs & Hfiles).
  exists before, (updated dimension data now before), st'.
  split; [exact Hget|]. split; [exact Hupd|]. split; [exact Hget'|].
  cbn [updated ud_profile ud_updatedAt ud_id ud_name ud_createdAt].
  split; [exact (get_set_same dimension data _ Hproto)|].
  split; [intros k Hk; exact (get_set_other dimension k data _ Hk)|].
  repeat split; assumption.
Qed.

End Writing.

(** A store in which one dimension of Afrin's profile has a result. *)
Lemma updateUserProfile_overwrites_witness :
  exists after st',
    updateUserProfile uuid1 "personality" (JData "[2]")
      "2025-08-29T11:00:00.000Z"
      (run (UpdateUserProfile uuid1 "personality" (JData "[1]")
              "2025-08-29T10:30:00.000Z") afrin_store)
    = Ok (after, st')
    /\ getUserContext uuid1 st' = Ok after
    /\ get "personality" (ud_profile after) = Some (JData "[2]").
Proof.
  destruct (updateUserProfile_overwrites
              (run (UpdateUserProfile uuid1 "personality" (JData "[1]")
                      "2025-08-29T10:30:00.000Z") afrin_store)
              uuid1 "personality" (JData "[2]") "2025-08-29T11:00:00.000Z"
              "Afrin_123e4567-e89b-42d3-a456-426614174000")
    as (before & after & st' & _ & Hupd & Hget & Hslot & _).
  - apply reachable_step; [exact reachable_afrin_store | reflexivity].
  - reflexivity.
  - discriminate.
  - discriminate.
  - exists after, st'. auto.
Defined.

(** C2 as stated fails: a second result for a dimension replaces the
    first, and a [null] after it empties the slot again. *)
Lemma second_write_replaces_first :
  exists p1 st1 p2 st2 p3 st3,
    updateUserProfile uuid1 "personality" (JData "[1]")
      "2025-08-29T10:30:00.000Z" afrin_store = Ok (p1, st1)
    /\ get "personality" (ud_profile p1) = Some (JData "[1]")
    /\ updateUserProfile uuid1 "personality" (JData "[2]")
         "2025-08-29T11:00:00.000Z" st1 = Ok (p2, st2)
    /\ getUserContext uuid1 st2 = Ok p2
    /\ get "personality" (ud_profile p2) = Some (JData "[2]")
    /\ updateUserProfile uuid1 "personality" JNull
         "2025-08-29T11:30:00.000Z" st2 = Ok (p3, st3)
    /\ getUserContext uuid1 st3 = Ok p3
    /\ get "personality" (ud_profile p3) = Some JNull.
Proof.
  do 6 eexists.
  split; [reflexivity|]. split; [reflexivity|].
  split; [reflexivity|]. split; [reflexivity|].
  split; [reflexivity|]. split; [reflexivity|].
  split; reflexivity.
Qed.

Section AnyKey.
Context {installation : Installation}.

(** C3, as the code has it. [updateUserProfile] does not check the key:
    in every reachable store, for a user that the lookup resolves and data
    that JSON can hold, the call succeeds whatever the key is. The keys
    of the stored profile are then the keys it had and the given key
    ([__proto__] apart, which is never stored): a key that is not one of
    the twelve is added and the profile has one key more, every key
    present before is kept. *)
Theorem updateUserProfile_accepts_any_key
    (st : Store) (userId dimension : string) (data : value) (now : string)
    (userDir : string) :
  reachable st ->
  findUserDir userId st = Some userDir ->
  data <> JUndefined ->
  exists before after st',
    getUserContext userId st = Ok before
    /\ updateUserProfile userId dimension data now st = Ok (after, st')
    /\ getUserContext userId st' = Ok after
    /\ (forall k,
          has_key k (ud_profile after)
          = has_key k (ud_profile before)
            || (String.eqb k dimension
                && negb (String.eqb dimension "__proto__")))
    /\ (has_key dimension (ud_profile before) = true ->
        List.length (keys (ud_profile after))
        = List.length (keys (ud_profile before)))
    /\ (has_key dimension (ud_profile before) = false ->
        dimension <> "__proto__" ->
        List.length (keys (ud_profile after))
        = S (List.length (keys (ud_profile before)))).
Proof.
  intros Hreach Hf Hdata.
  destruct (updateUserProfile_step st userId dimension data now userDir
              (reachable_ok st Hreach) Hf Hdata)
    as (before & st' & Hget & Hupd & Hget' & _).
  exists before, (updated dimension data now before), st'.
  split; [exact Hget|]. split; [exact Hupd|]. split; [exact Hget'|].
  cbn [updated ud_profile].
  split; [intros k; apply has_key_set|].
  split; [apply length_set_old|].
  intros Hnew Hproto. exact (length_set_new _ _ _ Hproto Hnew).
Qed.

End AnyKey.

Lemma updateUserProfile_accepts_any_key_witness :
  exists after st',
    updateUserProfile uuid1 "hobbies" (JData "[1]")
      "2025-08-29T10:30:00.000Z" afrin_store = Ok (after, st')
    /\ has_key "hobbies" (ud_profile after) = true
    /\ List.length (keys (ud_profile after)) = 13.
Proof.
  destruct (updateUserProfile_accepts_any_key afrin_store uuid1 "hobbies"
              (JData "[1]") "2025-08-29T10:30:00.000Z"
              "Afrin_123e4567-e89b-42d3-a456-426614174000"
              reachable_afrin_store eq_refl)
    as (before & after & st' & Hget & Hupd & _ & Hkeys & _ & Hlen).
  - discriminate.
  - injection Hget as <-.
    exists after, st'. split; [exact Hupd|]. split.
    + rewrite Hkeys. reflexivity.
    + rewrite Hlen; [reflexivity | reflexivity | discriminate].
Defined.

(** C3 as stated fails: a key outside the twelve is not refused, it is
    stored as a thirteenth key. *)
Lemma unknown_dimension_is_stored :
  existsb (String.eqb "hobbies") dimensions = false
  /\ exists after st' record,
       updateUserProfile uuid1 "hobbies" (JData "[1]")
         "2025-08-29T10:30:00.000Z" afrin_store = Ok (after, st')
       /\ getUserContext uuid1 st' = Ok record
       /\ keys (ud_profile record) = dimensions ++ ["hobbies"]
       /\ List.length (keys (ud_profile record)) = 13.
Proof.
  split; [reflexivity|]. do 3 eexists.
  split; [reflexivity|]. split; [reflexivity|]. split; reflexivity.
Qed.


(** ** Next options *)

Section NextOptions.
Import MasterFlow FlowFacts.

Lemma existsb_filter_member (f : string -> bool) (l : list string) (x : string) :
  In x l -> existsb (String.eqb x) (filter f l) = f x.
Proof.
  intros Hin. destruct (f x) eqn:Hx.
  - apply existsb_exists. exists x. split.
    + apply filter_In. auto.
    + apply String.eqb_refl.
  - destruct (existsb (String.eqb x) (filter f l)) eqn:E; [|reflexivity].
    apply existsb_exists in E. destruct E as (y & Hy & Heq).
    apply String.eqb_eq in Heq. subst y.
    apply filter_In in Hy. rewrite Hx in Hy. destruct Hy. discriminate.
Qed.

Lemma remaining_is_not_completed (user_profile : UserProfile) :
  remaining (get_assessment_progress user_profile)
  = filter (fun dim =>
              negb (is_completed
                      match assessments user_profile with
                      | Some d => d
                      | None => []
                      end dim))
           all_dimensions.
Proof.
  unfold get_assessment_progress. cbn [remaining].
  apply filter_ext_in. intros dim Hin.
  rewrite (existsb_filter_member _ _ _ Hin). reflexivity.
Qed.

Lemma progress_partition (user_profile : UserProfile) :
  List.length (completed (get_assessment_progress user_profile))
  + List.length (remaining (get_assessment_progress user_profile)) = 12.
Proof.
  rewrite remaining_is_not_completed.
  unfold get_assessment_progress. cbn [completed].
  rewrite filter_length. reflexivity.
Qed.

Lemma remaining_incl (user_profile : UserProfile) :
  incl (remaining (get_assessment_progress user_profile)) all_dimensions.
Proof. unfold get_assessment_progress. cbn [remaining]. apply incl_filter. Qed.

Lemma offers_among_dimensions (kind : string) (l : list string) :
  existsb (String.eqb kind) all_dimensions = false ->
  incl l all_dimensions ->
  offers kind (map dimension_option l) = false.
Proof.
  intros Hkind Hincl. unfold offers.
  destruct (existsb _ (map dimension_option l)) eqn:E; [|reflexivity].
  apply existsb_exists in E. destruct E as (o & Ho & Heq).
  apply in_map_iff in Ho. destruct Ho as (d & <- & Hd).
  cbn [agent dimension_option] in Heq. apply String.eqb_eq in Heq. subst d.
  assert (H : existsb (String.eqb kind) all_dimensions = true).
  { apply existsb_exists. exists kind.
    split; [exact (Hincl _ Hd) | apply String.eqb_refl]. }
  congruence.
Qed.

Lemma dimension_options_of_dimensions (l : list string) :
  incl l all_dimensions ->
  dimension_options (map dimension_option l) = map dimension_option l.
Proof.
  intros Hincl. unfold dimension_options. apply forallb_filter_id.
  apply forallb_forall. intros o Ho.
  apply in_map_iff in Ho. destruct Ho as (d & <- & Hd).
  cbn [agent dimension_option].
  apply existsb_exists. exists d.
  split; [exact (Hincl _ Hd) | apply String.eqb_refl].
Qed.

Lemma length_zero_nil {X : Type} (l : list X) : List.length l = 0 -> l = [].
Proof. destruct l; [reflexivity | discriminate]. Qed.

(** C8. From eight completed dimensions on, [get_next_options] offers
    the action plan alone: the listing returns before the remaining
    dimensions and the insights option are added, where the test
    instructions of the repository expect the remaining dimensions, the
    insights and the action plan. With the first eight dimensions
    completed the four others remain, and no dimension and no insights
    option is offered; with all twelve completed the insights option is
    missing as well. *)
Theorem action_plan_alone_from_eight :
  List.length (completed (get_assessment_progress eight_completed)) = 8
  /\ remaining (get_assessment_progress eight_completed)
     = [ "strengths_weaknesses"; "emotional_intelligence"; "track_record";
         "constraints" ]
  /\ get_next_options eight_completed = [action_plan_option]
  /\ dimension_options (get_next_options eight_completed) = []
  /\ offers "insights" (get_next_options eight_completed) = false
  /\ List.length (completed (get_assessment_progress all_completed)) = 12
  /\ remaining (get_assessment_progress all_completed) = []
  /\ get_next_options all_completed = [action_plan_option]
  /\ offers "insights" (get_next_options all_completed) = false
  /\ offers "action_plan" (get_next_options all_completed) = true.
Proof. repeat split; reflexivity. Qed.

End NextOptions.

(* ================================================================== *)
(** * Further properties of the store *)

Import MoreFacts.

(** ** Recommendations and assessed dimensions *)

Section Recommendations.
Implicit Types (profile : object) (k : string).

Lemma recommendations_of_null_slots profile :
  flat_map (fun kv =>
              match snd kv with
              | JNull =>
                  [("Complete " ++ fst kv ++
                    " assessment for better career guidance")%string]
              | _ => []
              end) profile
  = map (fun kv => recommendation (fst kv)) (null_slots profile).
Proof.
  unfold null_slots.
  induction profile as [|[k v] rest IH]; [reflexivity|].
  cbn [flat_map filter snd fst]. rewrite IH.
  destruct v; reflexivity.
Qed.

Lemma assessed_and_null_slots profile :
  List.length (getAssessedDimensions profile)
  + List.length (null_slots profile)
  = List.length (keys profile).
Proof.
  unfold getAssessedDimensions, null_slots, keys, is_null.
  rewrite !length_map.
  exact (filter_length (fun kv => not_null (snd kv)) profile).
Qed.

(** X1. [generateRecommendations] never returns an empty list: it gives
    one recommendation for every [null] slot, in the order of the keys,
    and the single [Profile complete!] message when no slot is [null].
    Together with [getAssessedDimensions] the recommendations account
    for every key: the profile is reported complete exactly when every key
    is listed as assessed. *)
Theorem recommendations_cover_the_null_slots profile :
  generateRecommendations profile
  = match null_slots profile with
    | [] => [profile_complete]
    | _ => map (fun kv => recommendation (fst kv)) (null_slots profile)
    end
  /\ generateRecommendations profile <> []
  /\ List.length (getAssessedDimensions profile)
     + List.length (null_slots profile)
     = List.length (keys profile)
  /\ (generateRecommendations profile = [profile_complete]
      <-> List.length (getAssessedDimensions profile)
          = List.length (keys profile)).
Proof.
  pose proof (assessed_and_null_slots profile) as Hsum.
  assert (Hrec : generateRecommendations profile
                 = match null_slots profile with
                   | [] => [profile_complete]
                   | _ => map (fun kv => recommendation (fst kv))
                              (null_slots profile)
                   end).
  { unfold generateRecommendations.
    rewrite recommendations_of_null_slots.
    destruct (null_slots profile); reflexivity. }
  split; [exact Hrec|]. rewrite Hrec.
  split; [destruct (null_slots profile); discriminate|].
  split; [exact Hsum|].
  destruct (null_slots profile) as [|[k v] rest] eqn:Hnull.
  - simpl in Hsum. split; [intros _; lia | reflexivity].
  - simpl in Hsum. split; [discriminate | lia].
Qed.

Lemma get_In_key k profile :
  In k (keys profile) -> exists v, get k profile = Some v.
Proof.
  unfold keys. induction profile as [|[k' v'] rest IH]; simpl; [contradiction|].
  intros [->|H].
  - rewrite String.eqb_refl. eauto.
  - destruct (String.eqb k' k); eauto.
Qed.

Lemma get_of_In k v profile :
  NoDup (keys profile) -> In (k, v) profile -> get k profile = Some v.
Proof.
  unfold keys. induction profile as [|[k' v'] rest IH]; simpl; [contradiction|].
  intros Hnd [[= -> ->]|Hin].
  - rewrite String.eqb_refl. reflexivity.
  - inversion Hnd as [|? ? Hnotin Hnd']; subst.
    destruct (String.eqb_spec k' k) as [->|_]; [|exact (IH Hnd' Hin)].
    exfalso. apply Hnotin. change k with (fst (k, v)). apply in_map, Hin.
Qed.

Lemma get_In k v profile : get k profile = Some v -> In (k, v) profile.
Proof.
  induction profile as [|[k' v'] rest IH]; simpl; [discriminate|].
  destruct (String.eqb_spec k' k) as [->|_].
  - intros [= ->]. left. reflexivity.
  - intros H. right. exact (IH H).
Qed.

(** X2. On an object (no key twice) [getAssessedDimensions] lists a key
    exactly when [profile[key]] is there and is not [null], lists no key
    twice, and lists only keys of the object. *)
Theorem assessed_dimensions_are_the_non_null_keys profile :
  NoDup (keys profile) ->
  (forall k,
      In k (getAssessedDimensions profile)
      <-> exists v, get k profile = Some v /\ not_null v = true)
  /\ NoDup (getAssessedDimensions profile)
  /\ incl (getAssessedDimensions profile) (keys profile).
Proof.
  intros Hnd. unfold getAssessedDimensions. split; [|split].
  - intros k. rewrite in_map_iff. split.
    + intros ([k' v] & Hk & Hin). cbn [fst] in Hk. subst k'.
      apply filter_In in Hin. destruct Hin as [Hin Hv]. cbn [snd] in Hv.
      exists v. split; [exact (get_of_In k v profile Hnd Hin) | exact Hv].
    + intros (v & Hget & Hv). exists (k, v). split; [reflexivity|].
      apply filter_In. split; [exact (get_In k v profile Hget) | exact Hv].
  - unfold keys in Hnd. clear -Hnd.
    induction profile as [|[k v] rest IH]; [constructor|].
    inversion Hnd as [|? ? Hnotin Hnd']; subst. cbn [filter snd].
    destruct (not_null v); [|exact (IH Hnd')].
    cbn [map fst]. constructor; [|exact (IH Hnd')].
    intros Hin. apply Hnotin. apply in_map_iff in Hin.
    destruct Hin as (kv & Hk & Hin). apply filter_In in Hin.
    rewrite <- Hk. apply in_map, (proj1 Hin).
  - intros k Hin. apply in_map_iff in Hin.
    destruct Hin as (kv & <- & Hin). apply filter_In in Hin.
    apply in_map, (proj1 Hin).
Qed.

Lemma assessed_dimensions_are_the_non_null_keys_witness :
  In "skills" (getAssessedDimensions three_assessed)
  <-> exists v, get "skills" three_assessed = Some v /\ not_null v = true.
Proof.
  refine (proj1 (assessed_dimensions_are_the_non_null_keys three_assessed _)
                "skills").
  vm_compute. repeat constructor; simpl; intuition discriminate.
Defined.

End Recommendations.

(** ** The summary of a new user *)

Section NewUser.
Context {installation : Installation}.

(** X3. In every store reached by calls whose session ids are plain
    names (the stores of [reachable]), right after [createUser] with a
    fresh UUID, [getUserSummary] on the returned id reports the sanitized
    name, no session, no message and no last activity, a completeness of
    0, no assessed dimension and one recommendation for each of the
    twelve dimensions; [GET /api/user/:userId] returns the record with an
    empty list of sessions and, as its folder, the directory
    [<name>_<uuid>] of [this.usersDir], whatever that absolute path
    is. *)
Theorem new_user_summary (st : Store) (uuid now name : string) :
  reachable st -> uuid_shape uuid = true -> fresh uuid st = true ->
  let st' := snd (createUser uuid now name st) in
  getUserSummary uuid st'
  = Ok (mkSummary (mkSummaryUser (sanitize name) now 0)
                  0%float []
                  (mkConversationSummary 0 None)
                  (map recommendation dimensions))
  /\ Server.get_user uuid st'
     = Server.Json
         (mkBundle
            (mkUserData uuid (sanitize name) now None initialProfile [])
            []
            (path_join usersDir (sanitize name ++ "_" ++ uuid))).
Proof.
  intros Hreach Hu Hfresh st'.
  pose proof (fresh_not_found st uuid (reachable_ok st Hreach) Hu Hfresh) as Hf.
  destruct (createUser_unlisted uuid now name st Hf) as (_ & Hfind & _).
  fold st' in Hfind.
  assert (He : entry (sanitize name ++ "_" ++ uuid) st'
               = Some (mkUserDir
                         (mkUserData uuid (sanitize name) now None
                                     initialProfile [])
                         None)).
  { unfold st', createUser, writeProfile. cbn [snd].
    rewrite (not_found_not_listed _ _ _ Hf
               (eq_ind_r (fun s => includes s uuid = true)
                         (includes_suffix (sanitize name ++ "_") uuid)
                         (eq_sym (string_app_assoc (sanitize name) "_" uuid)))).
    apply entry_put_same. }
  pose proof (getUserData_found _ _ _ _ Hfind He) as Hdata.
  assert (Hfiles : sessionFiles (sanitize name ++ "_" ++ uuid) st' = []).
  { unfold sessionFiles. rewrite He. reflexivity. }
  rewrite Hfiles in Hdata. cbn [map profile_json] in Hdata.
  split.
  - unfold getUserSummary. rewrite Hdata. reflexivity.
  - unfold Server.get_user. rewrite Hdata. reflexivity.
Qed.

End NewUser.

Lemma new_user_summary_witness :
  getUserSummary uuid2
    (snd (createUser uuid2 "2025-08-30T09:00:00.000Z" "Ravi K." chat_store))
  = Ok (mkSummary (mkSummaryUser "Ravi K" "2025-08-30T09:00:00.000Z" 0)
                  0%float []
                  (mkConversationSummary 0 None)
                  (map recommendation dimensions)).
Proof.
  exact (proj1 (new_user_summary chat_store uuid2 "2025-08-30T09:00:00.000Z"
                  "Ravi K." reachable_chat_store eq_refl eq_refl)).
Defined.


(** ** Identifiers resolve to their own record *)

Section OwnRecord.
Context {installation : Installation}.

Lemma ids_put st n d d' :
  entry n st = Some d ->
  ud_id (profile_json d') = ud_id (profile_json d) ->
  ids (put n d' st) = ids st.
Proof.
  intros He Hid. unfold put. rewrite He. revert He.
  unfold ids. induction st as [|[k x] st IH]; simpl; [discriminate|].
  destruct (String.eqb k n).
  - intros [= ->]. simpl. rewrite Hid. reflexivity.
  - intros He. simpl. rewrite (IH He). reflexivity.
Qed.

Lemma fresh_not_an_id uuid st : fresh uuid st = true -> ~ In uuid (ids st).
Proof.
  unfold fresh, ids. rewrite forallb_forall. intros H Hin.
  apply in_map_iff in Hin. destruct Hin as (e & <- & He).
  specialize (H e He). rewrite String.eqb_refl in H. discriminate.
Qed.

Lemma ids_put_new st n d :
  entry n st = None ->
  Permutation (ids (put n d st)) (ud_id (profile_json d) :: ids st).
Proof.
  intros He. unfold ids.
  exact (Permutation_map (fun e => ud_id (profile_json (snd e)))
           (put_absent n d st He)).
Qed.

Lemma run_ids op st :
  store_ok st = true -> admissible op st = true -> NoDup (ids st) ->
  NoDup (ids (run op st)).
Proof.
  intros Hst Hop Hnd.
  destruct op as [uuid now name | userId dim data now | userId sid turn];
    cbn [run admissible] in *.
  - apply andb_true_iff in Hop. destruct Hop as [Hu Hfresh].
    pose proof (fresh_not_found st uuid Hst Hu Hfresh) as Hf.
    destruct (createUser_unlisted uuid now name st Hf) as ((-> & Habsent) & _).
    apply (Permutation_NoDup (Permutation_sym (ids_put_new st _ _ Habsent))).
    cbn [profile_json ud_id].
    constructor; [exact (fresh_not_an_id _ _ Hfresh) | exact Hnd].
  - destruct (findUserDir userId st) as [userDir|] eqn:Hf.
    + destruct (findUserDir_found _ _ _ Hf) as [_ [d He]].
      rewrite (updateUserProfile_found _ _ _ _ _ _ _ Hf He).
      rewrite (ids_put st userDir d _ He); [exact Hnd | reflexivity].
    + rewrite (updateUserProfile_missing _ _ _ _ _ Hf). exact Hnd.
  - destruct (findUserDir userId st) as [userDir|] eqn:Hf.
    + destruct (findUserDir_found _ _ _ Hf) as [_ [d He]].
      rewrite (saveConversation_found _ _ _ _ _ _ Hop Hf He).
      rewrite (ids_put st userDir d _ He); [exact Hnd | reflexivity].
    + rewrite (saveConversation_missing _ _ _ _ Hf). exact Hnd.
Qed.

Lemma reachable_ids st : reachable st -> NoDup (ids st).
Proof.
  induction 1 as [|st op Hreach IH Hop]; [constructor|].
  exact (run_ids op st (reachable_ok st Hreach) Hop IH).
Qed.

Lemma same_id_same_entry st (e1 e2 : string * UserDir) :
  NoDup (ids st) -> In e1 st -> In e2 st ->
  ud_id (profile_json (snd e1)) = ud_id (profile_json (snd e2)) ->
  e1 = e2.
Proof.
  unfold ids. induction st as [|e st IH]; simpl; [contradiction|].
  intros Hnd H1 H2 Hid. inversion Hnd as [|? ? Hnotin Hnd']; subst.
  destruct H1 as [->|H1], H2 as [->|H2].
  - reflexivity.
  - exfalso. apply Hnotin. rewrite Hid.
    exact (in_map (fun e => ud_id (profile_json (snd e))) st e2 H2).
  - exfalso. apply Hnotin. rewrite <- Hid.
    exact (in_map (fun e => ud_id (profile_json (snd e))) st e1 H1).
  - exact (IH Hnd' H1 H2 Hid).
Qed.

(** X4. As long as every conversation was saved under a session id that
    is a plain name, so that nothing but user directories is in
    [usersDir] (the stores of [reachable]), no two profiles carry the same
    id, and the id of every stored profile resolves to the directory of
    that profile: [getUserContext] on it returns that very record,
    whatever the other users are called. *)
Theorem stored_id_resolves_to_its_record
    (st : Store) (userDir : string) (d : UserDir) :
  reachable st -> In (userDir, d) st ->
  NoDup (ids st)
  /\ findUserDir (ud_id (profile_json d)) st = Some userDir
  /\ entry userDir st = Some d
  /\ getUserContext (ud_id (profile_json d)) st = Ok (profile_json d).
Proof.
  intros Hreach Hin.
  pose proof (reachable_ok st Hreach) as Hst.
  pose proof (reachable_ids st Hreach) as Hnd.
  assert (Hok : entry_ok (userDir, d) = true).
  { unfold store_ok in Hst. rewrite forallb_forall in Hst. exact (Hst _ Hin). }
  destruct (entry_ok_parts _ Hok) as (Hname & _ & Hu & _).
  cbn [fst snd] in Hname, Hu.
  set (u := ud_id (profile_json d)) in *.
  assert (Hinc : includes userDir u = true).
  { rewrite Hname, <- string_app_assoc. apply includes_suffix. }
  assert (Hfind : findUserDir u st = Some userDir /\ entry userDir st = Some d).
  { destruct (findUserDir u st) as [dir|] eqn:Hf.
    - destruct (findUserDir_found _ _ _ Hf) as [Hinc' [d' He']].
      pose proof (uuid_names_its_directory _ _ _ _ Hst Hu He' Hinc') as Hid.
      pose proof (same_id_same_entry st (dir, d') (userDir, d) Hnd
                    (entry_In _ _ _ He') Hin Hid) as Heq.
      injection Heq as -> ->. split; [reflexivity | exact He'].
    - exfalso.
      assert (Hl : In userDir (readdir st)).
      { unfold readdir. change userDir with (fst (userDir, d)).
        apply in_map, Hin. }
      rewrite (proj1 (findUserDir_none _ _) Hf userDir Hl) in Hinc.
      discriminate. }
  destruct Hfind as [Hf He].
  split; [exact Hnd|]. split; [exact Hf|]. split; [exact He|].
  exact (getUserContext_found _ _ _ _ Hf He).
Qed.

End OwnRecord.

Lemma stored_id_resolves_to_its_record_witness :
  getUserContext uuid2 two_users_store
  = Ok (mkUserData uuid2 "Ravi K" "2025-08-30T09:00:00.000Z" None
                   initialProfile []).
Proof.
  refine (proj2 (proj2 (proj2
    (stored_id_resolves_to_its_record two_users_store
       "Ravi K_9b2f0c1e-7a4d-4c3b-8f6e-0d5a1b2c3d4e"
       (mkUserDir (mkUserData uuid2 "Ravi K" "2025-08-30T09:00:00.000Z" None
                              initialProfile []) None)
       reachable_two_users_store _)))).
  right. left. reflexivity.
Defined.


(** ** One directory per call *)

Section OneDirectory.
Context {installation : Installation}.

Lemma put_keeps_other_lookups st userDir (d x : UserDir) other :
  entry userDir st = Some d ->
  findUserDir other st <> Some userDir ->
  getUserContext other (put userDir x st) = getUserContext other st
  /\ getUserData other (put userDir x st) = getUserData other st
  /\ getUserSummary other (put userDir x st) = getUserSummary other st.
Proof.
  intros He Hother.
  assert (Hdata : getUserData other (put userDir x st) = getUserData other st).
  { unfold getUserData. rewrite (findUserDir_put _ _ _ _ x He).
    destruct (findUserDir other st) as [otherDir|]; [|reflexivity].
    rewrite entry_put_other by congruence. reflexivity. }
  split; [|split; [exact Hdata|]].
  - unfold getUserContext, readProfile. rewrite (findUserDir_put _ _ _ _ x He).
    destruct (findUserDir other st) as [otherDir|]; [|reflexivity].
    rewrite entry_put_other by congruence. reflexivity.
  - unfold getUserSummary. rewrite Hdata. reflexivity.
Qed.

(** X5. A successful [updateUserProfile] rewrites one [profile.json] and
    nothing else: the directory listing is the same, every id that
    resolves to another directory gets the same answers from
    [getUserContext], [getUserData] and [getUserSummary] as before, and
    for every id the sessions and the folder that [getUserData] reports
    are unchanged. *)
Theorem updateUserProfile_rewrites_one_profile
    (st st' : Store) (userId dimension : string) (data : value) (now : string)
    (p : UserData) :
  updateUserProfile userId dimension data now st = Ok (p, st') ->
  readdir st' = readdir st
  /\ (forall other,
        findUserDir other st <> findUserDir userId st ->
        getUserContext other st' = getUserContext other st
        /\ getUserData other st' = getUserData other st
        /\ getUserSummary other st' = getUserSummary other st)
  /\ (forall any b,
        getUserData any st = Ok b ->
        exists b',
          getUserData any st' = Ok b'
          /\ sessions b' = sessions b
          /\ folderPath b' = folderPath b
          /\ ud_id (profile b') = ud_id (profile b)
          /\ ud_name (profile b') = ud_name (profile b)
          /\ ud_createdAt (profile b') = ud_createdAt (profile b)).
Proof.
  intros H.
  destruct (findUserDir userId st) as [userDir|] eqn:Hf;
    [|rewrite (updateUserProfile_missing _ _ _ _ _ Hf) in H; discriminate].
  destruct (findUserDir_found _ _ _ Hf) as [_ [d He]].
  rewrite (updateUserProfile_found _ _ _ _ _ _ _ Hf He) in H.
  injection H as _ <-.
  split; [exact (readdir_put_present _ _ _ _ He)|]. split.
  - intros other Hother. exact (put_keeps_other_lookups _ _ _ _ _ He Hother).
  - intros any b Hb.
    destruct (getUserData_ok_inv _ _ _ Hb) as (dir & d' & Hfa & Hea & ->).
    destruct (String.eqb_spec dir userDir) as [->|Hne].
    + eexists. split.
      * apply (getUserData_found any _ userDir).
        -- rewrite (findUserDir_put _ _ _ _ _ He). exact Hfa.
        -- apply entry_put_same.
      * rewrite Hea in He. injection He as ->.
        cbn [sessions folderPath profile profile_json stored updated
             ud_id ud_name ud_createdAt].
        unfold sessionFiles. rewrite entry_put_same, Hea.
        cbn [sessions_dir]. auto.
    + exists (mkBundle (profile_json d')
                       (map toSession (sessionFiles dir st))
                       (path_join usersDir dir)).
      split; [|auto].
      rewrite <- (getUserData_found _ _ _ _ Hfa Hea).
      apply (put_keeps_other_lookups _ _ _ _ _ He). congruence.
Qed.

End OneDirectory.

Lemma updateUserProfile_rewrites_one_profile_witness :
  getUserSummary uuid1
    (run (UpdateUserProfile "Ravi" "skills" (JData "[1]")
            "2025-08-30T10:00:00.000Z") two_users_store)
  = getUserSummary uuid1 two_users_store.
Proof.
  refine (proj2 (proj2 (proj1 (proj2
    (updateUserProfile_rewrites_one_profile two_users_store _
       "Ravi" "skills" (JData "[1]") "2025-08-30T10:00:00.000Z" _ eq_refl))
    uuid1 _))).
  discriminate.
Defined.

Section OneLog.
Context {installation : Installation}.

(** X6. Under a session id that is a plain name (no path separator), a
    successful [saveConversation] writes one session file of the user's
    own directory and nothing else: the directory listing is the same,
    [getUserContext] returns the same record for every id, and every id
    that resolves to another directory gets the same [getUserData] and
    [getUserSummary]. *)
Theorem saveConversation_writes_one_log
    (st st' : Store) (userId : string) (sid : option string)
    (turn : ConversationTurn) (turns : list ConversationTurn) :
  plain_name (orDefault sid) = true ->
  saveConversation userId sid turn st = Ok (turns, st') ->
  readdir st' = readdir st
  /\ (forall any, getUserContext any st' = getUserContext any st)
  /\ (forall other,
        findUserDir other st <> findUserDir userId st ->
        getUserData other st' = getUserData other st
        /\ getUserSummary other st' = getUserSummary other st).
Proof.
  intros Hplain H.
  destruct (findUserDir userId st) as [userDir|] eqn:Hf;
    [|rewrite (saveConversation_missing _ _ _ _ Hf) in H; discriminate].
  destruct (findUserDir_found _ _ _ Hf) as [_ [d He]].
  rewrite (saveConversation_found _ _ _ _ _ _ Hplain Hf He) in H.
  injection H as _ <-.
  split; [exact (readdir_put_present _ _ _ _ He)|]. split.
  - intros any. unfold getUserContext, readProfile.
    rewrite (findUserDir_put _ _ _ _ _ He).
    destruct (findUserDir any st) as [dir|]; [|reflexivity].
    destruct (String.eqb_spec dir userDir) as [->|Hne].
    + rewrite entry_put_same, He. reflexivity.
    + rewrite entry_put_other by congruence. reflexivity.
  - intros other Hother.
    exact (proj2 (put_keeps_other_lookups _ _ _ _ _ He Hother)).
Qed.

End OneLog.

Lemma saveConversation_writes_one_log_witness :
  getUserContext "Afrin"
    (run (SaveConversation uuid1 (Some "s1") turnA) two_users_store)
  = getUserContext "Afrin" two_users_store.
Proof.
  exact (proj1 (proj2
    (saveConversation_writes_one_log two_users_store _ uuid1 (Some "s1")
       turnA _ eq_refl eq_refl)) "Afrin").
Defined.


(** ** Counting turns *)

Section Counting.
Context {installation : Installation}.

Lemma fold_left_count (files : list (string * list ConversationTurn)) (n : nat) :
  fold_left (fun count session => count + List.length (data session))
            (map toSession files) n
  = n + countTurns files.
Proof.
  unfold countTurns. revert n.
  induction files as [|[f turns] files IH]; intros n; simpl; [lia|].
  rewrite IH. lia.
Qed.

Lemma countTurns_put file turn files :
  countTurns
    (put file
         (match entry file files with Some l => l | None => [] end ++ [turn])
         files)
  = S (countTurns files).
Proof.
  unfold put. destruct (entry file files) as [l|] eqn:E.
  - revert E. unfold countTurns.
    induction files as [|[f turns] files IH]; simpl; [discriminate|].
    destruct (String.eqb f file); simpl.
    + intros [= ->]. rewrite length_app. simpl. lia.
    + intros E. rewrite (IH E). lia.
  - unfold countTurns.
    rewrite (Permutation_map (fun f => List.length (snd f))
               (insert_entry_permutation file ([] ++ [turn]) files)).
    reflexivity.
Qed.

Lemma length_put {X : Type} file (x : X) (files : list (string * X)) :
  List.length (put file x files)
  = List.length files
    + match entry file files with Some _ => 0 | None => 1 end.
Proof.
  unfold put. destruct (entry file files).
  - rewrite <- (length_map fst), <- (length_map fst files).
    change (List.length (readdir (rewrite_entry file x files))
            = List.length (readdir files) + 0).
    rewrite readdir_rewrite. lia.
  - rewrite (Permutation_length (insert_entry_permutation file x files)).
    simpl. lia.
Qed.

Lemma last_of_snoc {X : Type} (l : list X) (x : X) :
  last (map Some (l ++ [x])) None = Some x.
Proof. rewrite map_app. apply last_last. Qed.

(** The summary of a user whose logs are not empty. *)
Lemma getUserSummary_found st userId userDir d :
  findUserDir userId st = Some userDir ->
  entry userDir st = Some d ->
  nonempty_logs (sessionFiles userDir st) = true ->
  exists la,
    getUserSummary userId st
    = Ok (mkSummary
            (mkSummaryUser (ud_name (profile_json d))
                           (ud_createdAt (profile_json d))
                           (List.length (sessionFiles userDir st)))
            (calculateProfileCompleteness (ud_profile (profile_json d)))
            (getAssessedDimensions (ud_profile (profile_json d)))
            (mkConversationSummary (countTurns (sessionFiles userDir st)) la)
            (generateRecommendations (ud_profile (profile_json d))))
    /\ (forall pre file turns turn,
          sessionFiles userDir st = pre ++ [(file, turns ++ [turn])] ->
          la = Some (timestamp turn)).
Proof.
  intros Hf He Hlogs.
  destruct (summary_of_nonempty_logs _ Hlogs) as [[total la] Hsum].
  exists la. split.
  - unfold getUserSummary. rewrite (getUserData_found _ _ _ _ Hf He).
    cbn [bind sessions profile]. rewrite Hsum. cbn [bind].
    rewrite length_map.
    unfold generateConversationSummary in Hsum.
    rewrite fold_left_count in Hsum.
    destruct (last (map Some (map toSession (sessionFiles userDir st))) None)
      as [s|]; [destruct (last (map Some (data s)) None)|];
      try discriminate; injection Hsum as <- <-; reflexivity.
  - intros pre file turns turn Hfiles.
    unfold generateConversationSummary in Hsum.
    rewrite Hfiles, (map_app toSession) in Hsum.
    change (map toSession [(file, turns ++ [turn])])
      with [toSession (file, turns ++ [turn])] in Hsum.
    rewrite last_of_snoc in Hsum.
    cbn [toSession data snd] in Hsum. rewrite last_of_snoc in Hsum.
    injection Hsum as _ <-. reflexivity.
Qed.

(** X7. In every store reached by calls whose session ids are plain
    names (the stores of [reachable]), for a user that the lookup
    resolves and a session id that is again a plain name (no path
    separator), [saveConversation] raises [totalMessages] of the user's
    summary by exactly one; [totalSessions] grows by one when the session
    had no file yet and stays otherwise; completeness, assessed
    dimensions and recommendations are unchanged. [lastActivity] becomes
    the timestamp of the saved turn when the session's file is the last
    one that [readdir] lists. *)
Theorem saveConversation_counts_in_the_summary
    (st : Store) (userId : string) (sid : option string)
    (turn : ConversationTurn) (userDir : string) :
  reachable st ->
  findUserDir userId st = Some userDir ->
  plain_name (orDefault sid) = true ->
  let file := sessionFileName sid in
  exists s turns st' s',
    getUserSummary userId st = Ok s
    /\ saveConversation userId sid turn st = Ok (turns, st')
    /\ getUserSummary userId st' = Ok s'
    /\ totalMessages (conversationSummary s')
       = S (totalMessages (conversationSummary s))
    /\ totalSessions (user s')
       = totalSessions (user s)
         + match entry file (sessionFiles userDir st) with
           | Some _ => 0
           | None => 1
           end
    /\ profileCompleteness s' = profileCompleteness s
    /\ dimensionsAssessed s' = dimensionsAssessed s
    /\ recommendations s' = recommendations s
    /\ (forall pre,
          sessionFiles userDir st' = pre ++ [(file, turns)] ->
          lastActivity (conversationSummary s') = Some (timestamp turn)).
Proof.
  intros Hreach Hf Hplain file.
  pose proof (reachable_ok st Hreach) as Hst.
  destruct (findUserDir_found _ _ _ Hf) as [_ [d He]].
  pose proof (saveConversation_found userId sid turn st userDir d Hplain Hf He)
    as Hsave.
  cbv zeta in Hsave. fold file in Hsave.
  set (turns := sessionTurns userDir file st ++ [turn]) in *.
  set (files' := put file turns (sessionFiles userDir st)) in *.
  set (st' := put userDir (mkUserDir (profile_json d) (Some files')) st) in *.
  pose proof (saveConversation_ok _ _ _ _ _ _ Hst Hsave) as Hst'.
  assert (Hf' : findUserDir userId st' = Some userDir)
    by (unfold st'; rewrite (findUserDir_put _ _ _ _ _ He); exact Hf).
  assert (He' : entry userDir st'
                = Some (mkUserDir (profile_json d) (Some files')))
    by apply entry_put_same.
  assert (Hfiles' : sessionFiles userDir st' = files')
    by (unfold sessionFiles; rewrite He'; reflexivity).
  destruct (getUserSummary_found st userId userDir d Hf He
              (store_ok_sessionFiles st userDir Hst)) as (la & Hs & _).
  destruct (getUserSummary_found st' userId userDir _ Hf' He'
              (store_ok_sessionFiles st' userDir Hst')) as (la' & Hs' & Hla').
  rewrite Hfiles' in Hs', Hla'. cbn [profile_json] in Hs'.
  do 4 eexists.
  split; [exact Hs|]. split; [exact Hsave|]. split; [exact Hs'|].
  cbn [conversationSummary totalMessages user totalSessions
       profileCompleteness dimensionsAssessed recommendations lastActivity].
  split; [exact (countTurns_put file turn (sessionFiles userDir st))|].
  split; [exact (length_put file turns (sessionFiles userDir st))|].
  split; [reflexivity|]. split; [reflexivity|]. split; [reflexivity|].
  intros pre Hpre. rewrite Hfiles' in Hpre.
  exact (Hla' pre file (sessionTurns userDir file st) turn Hpre).
Qed.

End Counting.

Lemma saveConversation_counts_in_the_summary_witness :
  exists s s',
    getUserSummary uuid1 chat_store = Ok s
    /\ getUserSummary uuid1
         (run (SaveConversation uuid1 (Some "s2") turnA) chat_store) = Ok s'
    /\ totalMessages (conversationSummary s') = 2
    /\ totalSessions (user s') = 2
    /\ lastActivity (conversationSummary s') = Some (timestamp turnA).
Proof.
  destruct (saveConversation_counts_in_the_summary chat_store uuid1
              (Some "s2") turnA "Afrin_123e4567-e89b-42d3-a456-426614174000"
              reachable_chat_store eq_refl eq_refl)
    as (s & turns & st' & s' & Hs & Hsave & Hs' & Hm & Hn & _ & _ & _ & Hla).
  injection Hsave as <- <-.
  exists s, s'. split; [exact Hs|]. split; [exact Hs'|].
  injection Hs as <-.
  split; [exact Hm|]. split; [exact Hn|].
  exact (Hla [("default.json",
               [mkTurn "2025-08-29T10:00:30.000Z" "hi" "Welcome back"])]
             eq_refl).
Defined.


(** ** Session ids read back *)

Section SessionIds.
Context {installation : Installation}.

Lemma prefix_json_straddle (c : ascii) (r : string) :
  prefix ".json" (String c (r ++ ".json")) = true ->
  prefix ".json" (String c r) = true.
Proof.
  cbn [prefix]. destruct (ascii_dec "." c) as [_|]; [|discriminate].
  destruct r as [|c1 r]; [cbn; discriminate|]. cbn [append prefix].
  destruct (ascii_dec "j" c1) as [_|]; [|discriminate].
  destruct r as [|c2 r]; [cbn; discriminate|]. cbn [append prefix].
  destruct (ascii_dec "s" c2) as [_|]; [|discriminate].
  destruct r as [|c3 r]; [cbn; discriminate|]. cbn [append prefix].
  destruct (ascii_dec "o" c3) as [_|]; [|discriminate].
  destruct r as [|c4 r]; [cbn; discriminate|]. cbn [append prefix].
  destruct (ascii_dec "n" c4) as [_|]; [|discriminate].
  intros _. destruct r; reflexivity.
Qed.

Lemma replace_json_suffix (sid : string) :
  includes sid ".json" = false ->
  replace ".json" "" (sid ++ ".json") = sid.
Proof.
  induction sid as [|c r IH]; [reflexivity|].
  intros H.
  change (prefix ".json" (String c r) || includes r ".json" = false) in H.
  apply orb_false_iff in H. destruct H as [Hp Hr].
  change (replace ".json" "" (String c (r ++ ".json")) = String c r).
  assert (Hp' : prefix ".json" (String c (r ++ ".json")) = false).
  { destruct (prefix ".json" (String c (r ++ ".json"))) eqn:E; [|reflexivity].
    rewrite (prefix_json_straddle c r E) in Hp. discriminate. }
  unfold replace; fold replace. rewrite Hp', (IH Hr). reflexivity.
Qed.

(** X8. A session id that is a plain name (no path separator) and does
    not contain [.json] comes back as it was given: for a user that the
    lookup resolves, after [saveConversation] under such an id,
    [getUserData] lists a session named by that very id, holding the
    turns of the session followed by the saved one; a missing or empty id
    is listed as [default]. *)
Theorem session_id_reads_back
    (st : Store) (userId : string) (sid : option string)
    (turn : ConversationTurn) (userDir : string) :
  findUserDir userId st = Some userDir ->
  plain_name (orDefault sid) = true ->
  includes (orDefault sid) ".json" = false ->
  exists turns st' bundle,
    saveConversation userId sid turn st = Ok (turns, st')
    /\ turns = sessionTurns userDir (sessionFileName sid) st ++ [turn]
    /\ getUserData userId st' = Ok bundle
    /\ In (mkSession (orDefault sid) turns) (sessions bundle)
    /\ (sid = None \/ sid = Some "" -> orDefault sid = "default")
    /\ (forall s, sid = Some s -> s <> "" -> orDefault sid = s).
Proof.
  intros Hf Hplain Hjson.
  destruct (saveConversation_step userId sid turn st userDir Hplain Hf)
    as (st' & Hsave & Hf' & Hfiles & _).
  destruct (findUserDir_found _ _ _ Hf') as [_ [d' He']].
  do 3 eexists.
  split; [exact Hsave|]. split; [reflexivity|].
  split; [exact (getUserData_found _ _ _ _ Hf' He')|].
  split; [|split].
  - cbn [sessions]. rewrite Hfiles.
    replace (mkSession (orDefault sid)
               (sessionTurns userDir (sessionFileName sid) st ++ [turn]))
      with (toSession (sessionFileName sid,
                       sessionTurns userDir (sessionFileName sid) st ++ [turn])).
    + apply in_map, entry_In, entry_put_same.
    + unfold toSession, sessionFileName. cbn [fst snd].
      rewrite (replace_json_suffix _ Hjson). reflexivity.
  - intros [->| ->]; reflexivity.
  - intros s -> Hs. cbn [orDefault].
    destruct (String.eqb_spec s ""); [contradiction | reflexivity].
Qed.

End SessionIds.

Lemma session_id_reads_back_witness :
  exists st' bundle,
    getUserData uuid1 st' = Ok bundle
    /\ In (mkSession "session_1756461600000_k3j9x2m1q" [turnA])
          (sessions bundle).
Proof.
  destruct (session_id_reads_back chat_store uuid1
              (Some "session_1756461600000_k3j9x2m1q") turnA
              "Afrin_123e4567-e89b-42d3-a456-426614174000"
              eq_refl eq_refl eq_refl)
    as (turns & st' & bundle & _ & -> & Hdata & Hin & _).
  exists st', bundle. split; [exact Hdata | exact Hin].
Defined.


(** ** Directory names *)

Section DirectoryNames.

Lemma forall_chars_impl (p q : ascii -> bool) (s : string) :
  (forall c, p c = true -> q c = true) ->
  forall_chars p s = true -> forall_chars q s = true.
Proof.
  intros Hpq. induction s as [|c s IH]; simpl; [reflexivity|].
  intros H. apply andb_true_iff in H. destruct H as [Hc Hs].
  rewrite (Hpq c Hc). exact (IH Hs).
Qed.

Lemma name_char_is_plain (c : ascii) :
  is_name_char c = true ->
  negb (Ascii.eqb c "/" || Ascii.eqb c "\" || Ascii.eqb c Ascii.zero) = true.
Proof.
  destruct c as [[] [] [] [] [] [] [] []]; vm_compute; congruence.
Qed.

Lemma uuid_char_is_plain (c : ascii) :
  is_hex c || is_dash c = true ->
  negb (Ascii.eqb c "/" || Ascii.eqb c "\" || Ascii.eqb c Ascii.zero) = true.
Proof.
  destruct c as [[] [] [] [] [] [] [] []]; vm_compute; congruence.
Qed.

Lemma matches_chars (p : list cls) :
  forall s, matches p s = true ->
            forall_chars (fun c => is_hex c || is_dash c) s = true.
Proof.
  induction p as [|k p IH]; intros [|c s] H; simpl in *;
    try discriminate; try reflexivity.
  destruct k; apply andb_true_iff in H; destruct H as [Hc Hs];
    rewrite Hc, (IH s Hs); simpl; rewrite ?orb_true_r; reflexivity.
Qed.

Lemma matches_length (p : list cls) :
  forall s, matches p s = true -> String.length s = List.length p.
Proof.
  induction p as [|k p IH]; intros [|c s] H; simpl in *;
    try discriminate; try reflexivity.
  - destruct k; discriminate.
  - destruct k; apply andb_true_iff in H; destruct H as [_ Hs];
      rewrite (IH s Hs); reflexivity.
Qed.

Lemma sanitize_idempotent (name : string) :
  sanitize (sanitize name) = sanitize name.
Proof.
  unfold sanitize at 1.
  rewrite (filter_chars_id _ _ (sanitize_chars name)).
  apply sanitize_trimmed.
Qed.

(** X9. Whatever the name, the directory that [createUser] makes for a
    UUID is a single path component: its name [<sanitized name>_<uuid>]
    holds no path separator and no NUL, is neither empty nor [.] nor
    [..], is 37 characters longer than the sanitized name and contains the
    UUID. Sanitizing twice gives what sanitizing once gives. *)
Theorem directory_name_is_one_component (name uuid : string) :
  uuid_shape uuid = true ->
  let userDir := (sanitize name ++ "_" ++ uuid)%string in
  plain_name userDir = true
  /\ userDir <> "" /\ userDir <> "." /\ userDir <> ".."
  /\ String.length userDir = String.length (sanitize name) + 37
  /\ includes userDir uuid = true
  /\ sanitize (sanitize name) = sanitize name.
Proof.
  intros Hu userDir.
  assert (Hlen : String.length userDir = String.length (sanitize name) + 37).
  { unfold userDir. rewrite !string_app_length.
    rewrite (matches_length _ _ Hu). reflexivity. }
  split.
  - unfold plain_name, userDir. rewrite !forall_chars_app.
    rewrite (forall_chars_impl _ _ _ name_char_is_plain (sanitize_chars name)).
    rewrite (forall_chars_impl _ _ _ uuid_char_is_plain (matches_chars _ _ Hu)).
    reflexivity.
  - repeat split.
    + intros H. rewrite H in Hlen. simpl in Hlen. lia.
    + intros H. rewrite H in Hlen. simpl in Hlen. lia.
    + intros H. rewrite H in Hlen. simpl in Hlen. lia.
    + exact Hlen.
    + unfold userDir. rewrite <- string_app_assoc. apply includes_suffix.
    + apply sanitize_idempotent.
Qed.

Lemma directory_name_is_one_component_witness :
  plain_name (sanitize "../../etc/passwd" ++ "_" ++ uuid1) = true.
Proof.
  exact (proj1 (directory_name_is_one_component "../../etc/passwd" uuid1
                  eq_refl)).
Defined.

End DirectoryNames.

(** ** Completeness grows with the assessed dimensions *)

Section Monotone.

Lemma completeness_of_twelve_table :
  forallb (fun k' =>
    forallb (fun k =>
      number_le (Math_round ((of_nat k / of_nat 12) * 100)%float)
                (Math_round ((of_nat k' / of_nat 12) * 100)%float))
      (seq 0 (S k')))
    (seq 0 13) = true.
Proof. vm_compute. reflexivity. Qed.

Lemma completeness_of_twelve_monotone (k k' : nat) :
  k <= k' -> k' <= 12 ->
  number_le (Math_round ((of_nat k / of_nat 12) * 100)%float)
            (Math_round ((of_nat k' / of_nat 12) * 100)%float) = true.
Proof.
  intros Hk Hk'.
  pose proof completeness_of_twelve_table as H.
  rewrite forallb_forall in H.
  assert (Hin' : In k' (seq 0 13)) by (apply in_seq; lia).
  specialize (H k' Hin'). rewrite forallb_forall in H.
  apply H. apply in_seq. lia.
Qed.

(** X10. Among profiles that have the twelve dimension keys,
    [calculateProfileCompleteness] is monotone in the number of assessed
    dimensions: a profile with at least as many non-null slots has at
    least the same completeness, and the value lies between 0 and 100. *)
Theorem completeness_is_monotone (profile profile' : object) :
  Permutation (keys profile) dimensions ->
  Permutation (keys profile') dimensions ->
  List.length (getAssessedDimensions profile)
  <= List.length (getAssessedDimensions profile') ->
  number_le (calculateProfileCompleteness profile)
            (calculateProfileCompleteness profile') = true
  /\ number_le 0%float (calculateProfileCompleteness profile) = true
  /\ number_le (calculateProfileCompleteness profile') 100%float = true.
Proof.
  intros Hkeys Hkeys' Hle.
  assert (Hlen : List.length (keys profile) = 12)
    by (rewrite (Permutation_length Hkeys); reflexivity).
  assert (Hlen' : List.length (keys profile') = 12)
    by (rewrite (Permutation_length Hkeys'); reflexivity).
  pose proof (assessed_count_le profile) as Hk. rewrite Hlen in Hk.
  pose proof (assessed_count_le profile') as Hk'. rewrite Hlen' in Hk'.
  unfold calculateProfileCompleteness.
  rewrite <- !assessed_count, Hlen, Hlen'.
  split; [exact (completeness_of_twelve_monotone _ _ Hle Hk')|]. split.
  - exact (completeness_of_twelve_monotone 0 _ (Nat.le_0_l _) Hk).
  - exact (completeness_of_twelve_monotone _ 12 Hk' (Nat.le_refl 12)).
Qed.

Lemma completeness_is_monotone_witness :
  number_le (calculateProfileCompleteness initialProfile)
            (calculateProfileCompleteness three_assessed) = true.
Proof.
  refine (proj1 (completeness_is_monotone initialProfile three_assessed _ _ _)).
  - apply Permutation_refl.
  - vm_compute. apply Permutation_refl.
  - vm_compute. lia.
Defined.

End Monotone.

Import Invariants.

(** ** Data that JSON leaves out *)

Section Undefined.
Context {installation : Installation}.
Implicit Types (o : object) (k : string) (v : value).

Lemma keys_replace k v o : keys (replace_value k v o) = keys o.
Proof.
  unfold keys. induction o as [|[k' v'] o IH]; simpl; [reflexivity|].
  destruct (String.eqb k' k); simpl; [|rewrite IH]; reflexivity.
Qed.

Lemma insert_index_permutation n k v o :
  Permutation ((k, v) :: o) (insert_index n k v o).
Proof.
  induction o as [|[k' v'] o IH]; simpl; [apply Permutation_refl|].
  destruct (array_index k') as [m|]; [destruct (m <? n)%N|];
    try apply Permutation_refl.
  apply perm_trans with ((k', v') :: (k, v) :: o);
    [apply perm_swap | apply perm_skip, IH].
Qed.

Lemma has_key_false_not_in k o : has_key k o = false -> ~ In k (keys o).
Proof.
  intros H Hin. destruct (get_In_key k o Hin) as [v Hv].
  unfold has_key in H. rewrite Hv in H. discriminate.
Qed.

Lemma nodup_keys_set k v o : NoDup (keys o) -> NoDup (keys (set k v o)).
Proof.
  intros Hnd. unfold set.
  destruct (String.eqb k "__proto__"); [exact Hnd|].
  destruct (has_key k o) eqn:Hhas; [rewrite keys_replace; exact Hnd|].
  pose proof (has_key_false_not_in k o Hhas) as Hnotin.
  assert (Hcons : NoDup (keys ((k, v) :: o))) by (constructor; assumption).
  destruct (array_index k).
  - exact (Permutation_NoDup
             (Permutation_map fst (insert_index_permutation _ k v o)) Hcons).
  - exact (Permutation_NoDup
             (Permutation_map fst (Permutation_cons_append o (k, v))) Hcons).
Qed.

Lemma nodup_keys_json_object o :
  NoDup (keys o) -> NoDup (keys (json_object o)).
Proof.
  unfold keys, json_object.
  induction o as [|[k v] o IH]; simpl; [constructor|].
  intros Hnd. inversion Hnd as [|? ? Hnotin Hnd']; subst.
  destruct (negb (value_eqb v JUndefined)); [|exact (IH Hnd')].
  simpl. constructor; [|exact (IH Hnd')].
  intros Hin. apply Hnotin. apply in_map_iff in Hin.
  destruct Hin as (kv & Hk & Hin). apply filter_In in Hin.
  rewrite <- Hk. apply in_map, (proj1 Hin).
Qed.

Lemma get_not_in k o : ~ In k (keys o) -> get k o = None.
Proof.
  intros H. destruct (get k o) as [v|] eqn:E; [|reflexivity].
  exfalso. apply H. apply get_In in E.
  unfold keys. change k with (fst (k, v)). apply in_map, E.
Qed.

Lemma get_json_object k o :
  NoDup (keys o) ->
  get k (json_object o)
  = match get k o with
    | Some JUndefined => None
    | r => r
    end.
Proof.
  unfold json_object.
  induction o as [|[k' v'] o IH]; [reflexivity|].
  intros Hnd. inversion Hnd as [|? ? Hnotin Hnd']; subst.
  cbn [filter snd get].
  destruct (String.eqb_spec k' k) as [->|Hne].
  - destruct v'; cbn [value_eqb negb get]; rewrite ?String.eqb_refl;
      try reflexivity.
    rewrite (IH Hnd'), (get_not_in k o Hnotin). reflexivity.
  - destruct (negb (value_eqb v' JUndefined)); cbn [get];
      [destruct (String.eqb_spec k' k); [contradiction|]|]; exact (IH Hnd').
Qed.

Lemma no_undefined_get k o :
  no_undefined o = true -> get k o <> Some JUndefined.
Proof.
  unfold no_undefined. rewrite forallb_forall. intros H Hget.
  specialize (H _ (get_In _ _ _ Hget)). discriminate.
Qed.

Lemma run_objects op st : objects st -> objects (run op st).
Proof.
  intros Hobj.
  destruct op as [uuid now name | userId dim data now | userId sid turn];
    cbn [run].
  - unfold createUser, writeProfile. cbn [snd].
    intros dir d Hin. apply In_put in Hin. destruct Hin as [[= -> ->]|Hin];
      [|exact (Hobj _ _ Hin)].
    vm_compute. repeat constructor; simpl; intuition discriminate.
  - destruct (findUserDir userId st) as [userDir|] eqn:Hf.
    + destruct (findUserDir_found _ _ _ Hf) as [_ [d He]].
      rewrite (updateUserProfile_found _ _ _ _ _ _ _ Hf He).
      intros dir d' Hin. apply In_put in Hin.
      destruct Hin as [[= -> ->]|Hin]; [|exact (Hobj _ _ Hin)].
      cbn [profile_json stored updated ud_profile].
      apply nodup_keys_json_object, nodup_keys_set.
      exact (Hobj _ _ (entry_In _ _ _ He)).
    + rewrite (updateUserProfile_missing _ _ _ _ _ Hf). exact Hobj.
  - destruct (saveConversation userId sid turn st) as [[turns st']|e] eqn:Hsave;
      [|exact Hobj].
    destruct (findUserDir userId st) as [userDir|] eqn:Hf;
      [|rewrite (saveConversation_missing _ _ _ _ Hf) in Hsave; discriminate].
    destruct (findUserDir_found _ _ _ Hf) as [_ [d He]].
    destruct (saveConversation_returns _ _ _ _ _ _ _ _ Hf He Hsave)
      as [->|[file ->]]; [exact Hobj|].
    intros dir d' Hin. apply In_put in Hin.
    destruct Hin as [[= -> ->]|Hin]; [|exact (Hobj _ _ Hin)].
    exact (Hobj _ _ (entry_In _ _ _ He)).
Qed.

Lemma reachable_objects st : reachable st -> objects st.
Proof.
  induction 1 as [|st op _ IH _]; [intros ? ? []|].
  exact (run_objects op st IH).
Qed.

(** X11. Data that JSON cannot hold removes the key. In every reachable
    store, for a user that the lookup resolves and a key other than
    [__proto__], [updateUserProfile] with [undefined] data returns a
    profile in which the key is present with the value [undefined], but
    the record written, as [getUserContext] reads it back, no longer has
    the key at all; every other slot is as it was. *)
Theorem undefined_data_removes_the_key
    (st : Store) (userId dimension now userDir : string) :
  reachable st ->
  findUserDir userId st = Some userDir ->
  dimension <> "__proto__" ->
  exists before after st' record,
    getUserContext userId st = Ok before
    /\ updateUserProfile userId dimension JUndefined now st = Ok (after, st')
    /\ get dimension (ud_profile after) = Some JUndefined
    /\ getUserContext userId st' = Ok record
    /\ has_key dimension (ud_profile record) = false
    /\ ~ In dimension (getAssessedDimensions (ud_profile record))
    /\ (forall k, k <> dimension ->
                  get k (ud_profile record) = get k (ud_profile before)).
Proof.
  intros Hreach Hf Hproto.
  pose proof (reachable_ok st Hreach) as Hst.
  destruct (findUserDir_found _ _ _ Hf) as [_ [d He]].
  destruct (entry_ok_parts _ (store_ok_entry _ _ _ Hst He))
    as (_ & _ & _ & Hnou & _). cbn [snd] in Hnou.
  pose proof (reachable_objects st Hreach _ _ (entry_In _ _ _ He)) as Hnd.
  set (o := ud_profile (profile_json d)) in *.
  pose proof (nodup_keys_set dimension JUndefined o Hnd) as Hnd'.
  assert (Hdrop : has_key dimension (json_object (set dimension JUndefined o))
                  = false).
  { unfold has_key. rewrite (get_json_object _ _ Hnd').
    rewrite (get_set_same dimension JUndefined o Hproto). reflexivity. }
  exists (profile_json d). do 3 eexists.
  split; [exact (getUserContext_found _ _ _ _ Hf He)|].
  split; [exact (updateUserProfile_found _ _ _ _ _ _ _ Hf He)|].
  split; [exact (get_set_same dimension JUndefined o Hproto)|].
  split.
  { apply (getUserContext_found _ _ userDir).
    - rewrite (findUserDir_put _ _ _ _ _ He). exact Hf.
    - apply entry_put_same. }
  cbn [profile_json stored updated ud_profile]. fold o.
  split; [exact Hdrop|]. split.
  - intros Hin.
    apply (has_key_false_not_in _ _ Hdrop).
    unfold getAssessedDimensions in Hin. apply in_map_iff in Hin.
    destruct Hin as (kv & <- & Hin). apply filter_In in Hin.
    apply in_map, (proj1 Hin).
  - intros k Hk. rewrite (get_json_object _ _ Hnd').
    rewrite (get_set_other dimension k JUndefined o Hk).
    destruct (get k o) as [[| |]|] eqn:E; try reflexivity.
    destruct (no_undefined_get k o Hnou E).
Qed.

End Undefined.

Lemma undefined_data_removes_the_key_witness :
  exists record,
    getUserContext uuid1
      (run (UpdateUserProfile uuid1 "skills" JUndefined
              "2025-08-29T12:00:00.000Z") afrin_store) = Ok record
    /\ has_key "skills" (ud_profile record) = false.
Proof.
  destruct (undefined_data_removes_the_key afrin_store uuid1 "skills"
              "2025-08-29T12:00:00.000Z"
              "Afrin_123e4567-e89b-42d3-a456-426614174000"
              reachable_afrin_store eq_refl)
    as (before & after & st' & record & _ & Hupd & _ & Hget & Hkey & _).
  - discriminate.
  - injection Hupd as _ <-. exists record. split; [exact Hget | exact Hkey].
Defined.


(** ** Progress and options of the master flow *)

Section Progress.
Import MasterFlow FlowFacts.

Lemma nodup_snoc {X : Type} (l : list X) (x : X) :
  NoDup l -> ~ In x l -> NoDup (l ++ [x]).
Proof.
  induction 1 as [|y l Hy Hnd IH]; simpl; intros Hx.
  - constructor; [intros [] | constructor].
  - constructor.
    + rewrite in_app_iff. simpl. intros [H|[H|[]]]; [exact (Hy H)|].
      apply Hx. left. symmetry. exact H.
    + apply IH. intros H. apply Hx. right. exact H.
Qed.

Lemma filter_partition_permutation {X : Type} (f : X -> bool) (l : list X) :
  Permutation (filter f l ++ filter (fun x => negb (f x)) l) l.
Proof.
  induction l as [|x l IH]; simpl; [constructor|].
  destruct (f x); simpl.
  - apply perm_skip, IH.
  - apply Permutation_sym, Permutation_cons_app, Permutation_sym, IH.
Qed.

Lemma all_dimensions_nodup : NoDup all_dimensions.
Proof. repeat constructor; simpl; intuition discriminate. Qed.

Lemma agents_of_dimension_options (l : list string) :
  map agent (map dimension_option l) = l.
Proof. rewrite map_map. apply map_id. Qed.

Lemma progress_partitions_the_dimensions_aux (user_profile : UserProfile) :
  NoDup (remaining (get_assessment_progress user_profile))
  /\ (forall dim,
        In dim (completed (get_assessment_progress user_profile)) ->
        ~ In dim (remaining (get_assessment_progress user_profile))).
Proof.
  rewrite remaining_is_not_completed.
  split; [apply NoDup_filter, all_dimensions_nodup|].
  intros dim Hc Hr. unfold get_assessment_progress in Hc. cbn [completed] in Hc.
  apply filter_In in Hc. apply filter_In in Hr.
  destruct Hc as [_ Hc], Hr as [_ Hr]. rewrite Hc in Hr. discriminate.
Qed.

Lemma milestones_are_not_dimensions (dim : string) :
  In dim all_dimensions ->
  String.eqb "action_plan" dim = false /\ String.eqb "insights" dim = false.
Proof.
  intros H. simpl in H.
  repeat (destruct H as [<-|H]; [split; reflexivity|]). destruct H.
Qed.

Lemma offers_app (kind : string) (a b : list Option_) :
  offers kind (a ++ b) = offers kind a || offers kind b.
Proof. unfold offers. apply existsb_app. Qed.

(** X12. [get_assessment_progress] splits the twelve dimensions in two:
    [completed] and [remaining] together are a rearrangement of
    [all_dimensions], neither lists a dimension twice, no dimension is in
    both, and each keeps the fixed order of [all_dimensions]. A dimension
    is completed exactly when its assessment has a true ['completed']
    entry. *)
Theorem progress_partitions_the_dimensions (user_profile : UserProfile) :
  let progress := get_assessment_progress user_profile in
  let done :=
    is_completed
      match assessments user_profile with Some d => d | None => [] end in
  Permutation (completed progress ++ remaining progress) all_dimensions
  /\ NoDup (completed progress)
  /\ NoDup (remaining progress)
  /\ (forall dim,
        In dim (completed progress)
        <-> In dim all_dimensions /\ done dim = true)
  /\ (forall dim,
        In dim (remaining progress)
        <-> In dim all_dimensions /\ done dim = false)
  /\ completed progress = filter done all_dimensions
  /\ remaining progress = filter (fun dim => negb (done dim)) all_dimensions.
Proof.
  intros progress done.
  pose proof (remaining_is_not_completed user_profile) as Hrem.
  fold progress done in Hrem.
  assert (Hcom : completed progress = filter done all_dimensions)
    by reflexivity.
  rewrite Hcom, Hrem.
  split; [apply filter_partition_permutation|].
  split; [apply NoDup_filter, all_dimensions_nodup|].
  split; [apply NoDup_filter, all_dimensions_nodup|].
  split; [intros dim; apply filter_In|].
  split; [|split; reflexivity].
  intros dim. rewrite filter_In, negb_true_iff. reflexivity.
Qed.

(** X13. [get_next_options] always offers something and never the same
    option twice: it returns one option from 8 completed dimensions on,
    and below 8 one option per remaining dimension plus the insights
    option from 3 on. No option starts a dimension that is already
    completed, and every option is a dimension, [insights] or
    [action_plan]. *)
Theorem next_options_are_distinct (user_profile : UserProfile) :
  let progress := get_assessment_progress user_profile in
  let n := List.length (completed progress) in
  let options := get_next_options user_profile in
  List.length options
  = (if 8 <=? n then 1 else (12 - n) + (if 3 <=? n then 1 else 0))
  /\ options <> []
  /\ NoDup (map agent options)
  /\ (forall dim, In dim (completed progress) -> offers dim options = false)
  /\ (forall o, In o options ->
                In (agent o) (remaining progress)
                \/ o = insights_option \/ o = action_plan_option).
Proof.
  intros progress n options.
  pose proof (progress_partition user_profile) as Hsum.
  pose proof (remaining_incl user_profile) as Hincl.
  destruct (progress_partitions_the_dimensions_aux user_profile)
    as (Hnd & Hdisj).
  fold progress in Hsum, Hincl, Hnd, Hdisj. fold n in Hsum.
  assert (Hopt : options
                 = if 8 <=? n then [action_plan_option]
                   else if 3 <=? n
                        then map dimension_option (remaining progress)
                             ++ [insights_option]
                        else map dimension_option (remaining progress))
    by reflexivity.
  assert (Hins : ~ In "insights" (remaining progress)).
  { intros H. apply Hincl in H. simpl in H. intuition discriminate. }
  assert (Hcompleted : forall dim, In dim (completed progress) ->
                                   In dim all_dimensions).
  { intros dim H. unfold progress, get_assessment_progress in H.
    cbn [completed] in H. apply filter_In in H. exact (proj1 H). }
  assert (Hoff : forall dim l,
             ~ In dim l -> offers dim (map dimension_option l) = false).
  { intros dim l Hnot. unfold offers.
    destruct (existsb _ (map dimension_option l)) eqn:E; [|reflexivity].
    apply existsb_exists in E. destruct E as (o & Ho & Heq).
    apply in_map_iff in Ho. destruct Ho as (d & <- & Hd).
    cbn [agent dimension_option] in Heq. apply String.eqb_eq in Heq.
    subst d. contradiction. }
  rewrite Hopt.
  destruct (8 <=? n) eqn:H8.
  - split; [reflexivity|]. split; [discriminate|].
    split; [repeat constructor; intros []|].
    split.
    + intros dim Hdim. apply Hcompleted in Hdim.
      change (offers dim [action_plan_option])
        with (String.eqb "action_plan" dim || false).
      rewrite (proj1 (milestones_are_not_dimensions dim Hdim)). reflexivity.
    + intros o [<-|[]]. right. right. reflexivity.
  - apply Nat.leb_gt in H8.
    assert (Hlen : List.length (remaining progress) = 12 - n) by lia.
    destruct (3 <=? n) eqn:H3.
    + split; [rewrite length_app, length_map, Hlen; reflexivity|].
      split; [intros H; apply app_eq_nil in H; destruct H; discriminate|].
      split.
      { rewrite map_app, agents_of_dimension_options. cbn [map agent insights_option].
        apply nodup_snoc; assumption. }
      split.
      * intros dim Hdim. rewrite offers_app.
        rewrite (Hoff dim _ (Hdisj dim Hdim)).
        change (offers dim [insights_option])
          with (String.eqb "insights" dim || false).
        rewrite (proj2 (milestones_are_not_dimensions dim (Hcompleted dim Hdim))).
        reflexivity.
      * intros o Ho. apply in_app_iff in Ho. destruct Ho as [Ho|[<-|[]]].
        -- left. apply in_map_iff in Ho. destruct Ho as (d & <- & Hd). exact Hd.
        -- right. left. reflexivity.
    + split; [rewrite length_map, Hlen; lia|].
      split.
      { intros H. apply map_eq_nil in H. rewrite H in Hlen.
        cbn [List.length] in Hlen. lia. }
      split; [rewrite agents_of_dimension_options; exact Hnd|].
      split.
      * intros dim Hdim. exact (Hoff dim _ (Hdisj dim Hdim)).
      * intros o Ho. left. apply in_map_iff in Ho.
        destruct Ho as (d & <- & Hd). exact Hd.
Qed.

End Progress.

(* ================================================================== *)
(** * Properties of the master agent and of the chat route *)

Import MasterAgent ServerChat.

(** ** What a request does to the store *)

Section Requests.
Context {installation : Installation}.
Variable stringify : Reply -> string.

(** Truthy data is written, and as a value other than [null] unless it
    is a number beyond the range of the doubles. *)
Lemma truthy_written (p : parsed) :
  truthy p = true ->
  written p <> JUndefined
  /\ (p <> Lossy None -> not_null (written p) = true).
Proof.
  destruct p as [[| |t]|[t|]]; simpl; intros H; try discriminate;
    (split; [discriminate|]); intros Hp; (reflexivity || congruence).
Qed.

Lemma value_eqb_undefined (v : value) :
  negb (value_eqb v JUndefined) = true <-> v <> JUndefined.
Proof.
  destruct v; simpl; split; intros H; try reflexivity; try discriminate.
  destruct H. reflexivity.
Qed.

Lemma run_update_ok userId key data now st p st' :
  updateUserProfile userId key data now st = Ok (p, st') ->
  run (UpdateUserProfile userId key data now) st = st'.
Proof. intros H. cbn [run]. rewrite H. reflexivity. Qed.

(** The store after [processMessage]: as it was, or after one gated
    update, which erases nothing unless the data overflows. *)
Lemma processMessage_store userId ctx model st :
  exists ops,
    snd (processMessage userId ctx model st) = run_all ops st
    /\ gated_all ops st = true
    /\ (overflow model = false -> forallb keeping ops = true)
    /\ (ops = []
        \/ exists key data,
             ops = [UpdateUserProfile userId key data (updateTime model)]).
Proof.
  unfold processMessage.
  destruct (determineAgent (decision model)) as [d|];
    [|exists []; cbn; auto].
  destruct (agent d) as [|key]; [exists []; cbn; auto|].
  unfold routeToSpecializedAgent.
  destruct (existsb (String.eqb key) dimensions) eqn:Hkey;
    [|exists []; cbn; auto].
  unfold overflow.
  destruct (agentResponse model) as [r|]; [|exists []; cbn; auto].
  destruct (truthy (assessmentData r)) eqn:Hdata; [|exists []; cbn; auto].
  destruct (truthy_written _ Hdata) as [Hdef Hnn].
  destruct (updateUserProfile userId key (written (assessmentData r))
              (updateTime model) st) as [[p st']|e] eqn:Hupd.
  - exists [UpdateUserProfile userId key (written (assessmentData r))
                              (updateTime model)].
    cbn [snd run_all gated_all gated forallb keeping]. rewrite Hkey.
    rewrite (proj2 (value_eqb_undefined _) Hdef).
    rewrite (run_update_ok _ _ _ _ _ _ _ Hupd).
    split; [reflexivity|]. split; [reflexivity|]. split; [|right; eauto].
    intros Hover. rewrite Hnn; [reflexivity|].
    intros Heq. rewrite Heq in Hover. discriminate.
  - exists []. cbn. auto.
Qed.

Lemma run_all_app ops ops' st :
  run_all (ops ++ ops') st = run_all ops' (run_all ops st).
Proof. revert st. induction ops as [|op ops IH]; intros st; simpl; auto. Qed.

Lemma gated_all_app ops ops' st :
  gated_all (ops ++ ops') st
  = gated_all ops st && gated_all ops' (run_all ops st).
Proof.
  revert st. induction ops as [|op ops IH]; intros st; simpl; [reflexivity|].
  rewrite IH. apply andb_assoc.
Qed.

(** Every request is a sequence of at most two gated calls. *)
Lemma serve_is_gated request st :
  acceptable request st = true ->
  exists ops,
    serve stringify request st = run_all ops st
    /\ gated_all ops st = true
    /\ (overflowing request = false -> forallb keeping ops = true).
Proof.
  intros Hacc.
  destruct request as [name uuid now | message userId sessionId w];
    cbn [serve acceptable overflowing] in *.
  - unfold Server.register_user.
    destruct name as [name|]; [|exists []; auto].
    destruct (String.eqb name ""); [exists []; auto|].
    exists [CreateUser uuid now name].
    cbn [run_all gated_all gated run forallb keeping].
    rewrite Hacc. destruct (createUser uuid now name st). auto.
  - apply andb_true_iff in Hacc. destruct Hacc as [Hnew Hplain].
    unfold chat. destruct (missing message); [exists []; auto|].
    destruct (missing userId).
    + unfold handleInitialInteraction.
      destruct (extraction w) as [[e|]|]; try (exists []; cbn; auto; fail).
      destruct (negb (truthy (requiresName e)) && _);
        [|exists []; cbn; auto].
      destruct (extractedName e) as [s|v]; [|exists []; cbn; auto].
      exists [CreateUser (uuid w) (createdTime w) s].
      cbn [run_all gated_all gated run forallb keeping]. rewrite Hnew.
      destruct (createUser (uuid w) (createdTime w) s st). auto.
    + destruct (getUserContext (given userId) st) as [ctx|e];
        [|exists []; cbn; auto].
      destruct (processMessage_store (given userId) ctx (model w) st)
        as (ops & Hrun & Hgated & Hkeeping & _).
      destruct (processMessage (given userId) ctx (model w) st)
        as [reply st1]. cbn [snd] in Hrun. subst st1.
      exists (ops ++ [SaveConversation (given userId) sessionId
                        (mkTurn (turnTime w) (given message)
                                (stringify reply))]).
      rewrite run_all_app, gated_all_app, Hgated, forallb_app.
      cbn [run_all gated_all gated run forallb keeping]. rewrite Hplain.
      split; [|split; [reflexivity|]].
      * destruct (saveConversation _ _ _ (run_all ops st)) as [[l st2]|e];
          reflexivity.
      * intros Hover. rewrite (Hkeeping Hover). reflexivity.
Qed.

Lemma gated_admissible op st : gated op st = true -> admissible op st = true.
Proof.
  destruct op; cbn [gated admissible]; auto.
Qed.

Lemma run_all_reachable ops st :
  reachable st -> gated_all ops st = true -> reachable (run_all ops st).
Proof.
  revert st. induction ops as [|op ops IH]; intros st Hreach Hg; [exact Hreach|].
  cbn [gated_all run_all] in *. apply andb_true_iff in Hg.
  destruct Hg as [Hop Hops]. apply IH; [|exact Hops].
  apply reachable_step; [exact Hreach | exact (gated_admissible op st Hop)].
Qed.

Lemma served_reachable st : served stringify st -> reachable st.
Proof.
  induction 1 as [|st request _ IH Hacc]; [apply reachable_empty|].
  destruct (serve_is_gated request st Hacc) as (ops & -> & Hg & _).
  exact (run_all_reachable ops st IH Hg).
Qed.

End Requests.

(** ** The twelve keys and the progress made *)

Section TwelveKeys.
Context {installation : Installation}.
Variable stringify : Reply -> string.
Implicit Types (o : object) (k : string) (v : value).

Lemma dimension_not_proto k : In k dimensions -> k <> "__proto__".
Proof. intros H ->. simpl in H. intuition discriminate. Qed.

Lemma set_on_dimension k v o :
  keys o = dimensions -> In k dimensions -> set k v o = replace_value k v o.
Proof.
  intros Hkeys Hk. unfold set.
  destruct (String.eqb_spec k "__proto__") as [->|_];
    [destruct (dimension_not_proto _ Hk); reflexivity|].
  rewrite <- Hkeys in Hk. destruct (get_In_key k o Hk) as [x Hx].
  unfold has_key. rewrite Hx. reflexivity.
Qed.

Lemma existsb_dimension k :
  existsb (String.eqb k) dimensions = true -> In k dimensions.
Proof.
  intros H. apply existsb_exists in H. destruct H as (x & Hx & Heq).
  apply String.eqb_eq in Heq. subst x. exact Hx.
Qed.

Lemma assessed_replace_incl k v o :
  not_null v = true ->
  incl (getAssessedDimensions o) (getAssessedDimensions (replace_value k v o)).
Proof.
  intros Hv. unfold getAssessedDimensions.
  induction o as [|[k' v'] o IH]; [intros x []|].
  cbn [replace_value]. destruct (String.eqb_spec k' k) as [->|_].
  - cbn [filter snd]. rewrite Hv. intros x Hx.
    destruct (not_null v'); [exact Hx | right; exact Hx].
  - cbn [filter snd]. destruct (not_null v'); cbn [map fst].
    + intros x [<-|Hx]; [left; reflexivity | right; exact (IH x Hx)].
    + exact IH.
Qed.

Lemma assessed_replace_length k v o :
  not_null v = true ->
  List.length (getAssessedDimensions o)
  <= List.length (getAssessedDimensions (replace_value k v o)).
Proof.
  intros Hv. unfold getAssessedDimensions. rewrite !length_map.
  induction o as [|[k' v'] o IH]; [apply Nat.le_refl|].
  cbn [replace_value]. destruct (String.eqb k' k).
  - cbn [filter snd]. rewrite Hv. destruct (not_null v'); simpl; lia.
  - cbn [filter snd]. destruct (not_null v'); simpl; lia.
Qed.

Lemma assessed_replace_null k v o :
  get k o = Some JNull -> not_null v = true ->
  List.length (getAssessedDimensions (replace_value k v o))
  = S (List.length (getAssessedDimensions o)).
Proof.
  intros Hget Hv. unfold getAssessedDimensions. rewrite !length_map.
  induction o as [|[k' v'] o IH]; [discriminate|].
  cbn [get] in Hget. cbn [replace_value]. destruct (String.eqb k' k).
  - injection Hget as ->. cbn [filter snd not_null]. rewrite Hv. reflexivity.
  - cbn [filter snd]. destruct (not_null v'); simpl; rewrite (IH Hget);
      reflexivity.
Qed.

Lemma keeps_progress_refl d : keeps_progress d d.
Proof.
  unfold keeps_progress. repeat split; auto using incl_refl.
Qed.

Lemma keeps_progress_trans d1 d2 d3 :
  keeps_progress d1 d2 -> keeps_progress d2 d3 -> keeps_progress d1 d3.
Proof.
  unfold keeps_progress.
  intros (A1 & A2 & A3 & A4 & A5) (B1 & B2 & B3 & B4 & B5).
  repeat split; try congruence; [eapply incl_tran; eassumption | lia].
Qed.

(** The profile that a gated update writes. *)
Lemma gated_update_profile key data now (d : UserDir) :
  keys (ud_profile (profile_json d)) = dimensions ->
  no_undefined (ud_profile (profile_json d)) = true ->
  In key dimensions -> data <> JUndefined ->
  stored (updated key data now (profile_json d))
  = mkUserData (ud_id (profile_json d)) (ud_name (profile_json d))
               (ud_createdAt (profile_json d)) (Some now)
               (replace_value key data (ud_profile (profile_json d)))
               (ud_sessions (profile_json d)).
Proof.
  intros Hkeys Hnou Hkey Hdef.
  rewrite (stored_updated key data now _ Hnou Hdef).
  unfold updated. rewrite (set_on_dimension _ _ _ Hkeys Hkey). reflexivity.
Qed.

(** A gated call keeps the twelve keys and every directory, and, unless
    it writes [null], the progress of every profile. *)
Lemma run_gated op st :
  store_ok st = true -> twelve_keys st -> gated op st = true ->
  twelve_keys (run op st)
  /\ forall userDir d,
       entry userDir st = Some d ->
       exists d',
         entry userDir (run op st) = Some d'
         /\ (keeping op = true -> keeps_progress d d').
Proof.
  intros Hst Htw Hg.
  destruct op as [uuid now name | userId key data now | userId sid turn];
    cbn [run gated keeping] in *.
  - apply andb_true_iff in Hg. destruct Hg as [Hu Hfresh].
    pose proof (fresh_not_found st uuid Hst Hu Hfresh) as Hf.
    destruct (createUser_unlisted uuid now name st Hf) as ((-> & Habsent) & _).
    split.
    + intros dir d Hin. apply In_put in Hin.
      destruct Hin as [[= -> ->]|Hin]; [reflexivity | exact (Htw _ _ Hin)].
    + intros dir d He. exists d.
      split; [|intros _; apply keeps_progress_refl].
      rewrite entry_put_other; [exact He | congruence].
  - apply andb_true_iff in Hg. destruct Hg as [Hkey Hdata].
    apply existsb_dimension in Hkey.
    apply value_eqb_undefined in Hdata.
    destruct (findUserDir userId st) as [dir0|] eqn:Hf.
    + destruct (findUserDir_found _ _ _ Hf) as [_ [d0 He0]].
      rewrite (updateUserProfile_found _ _ _ _ _ _ _ Hf He0).
      pose proof (Htw _ _ (entry_In _ _ _ He0)) as Hkeys.
      destruct (entry_ok_parts _ (store_ok_entry _ _ _ Hst He0))
        as (_ & _ & _ & Hnou & _). cbn [snd] in Hnou.
      rewrite (gated_update_profile key data now d0 Hkeys Hnou Hkey Hdata).
      split.
      * intros dir d Hin. apply In_put in Hin.
        destruct Hin as [[= -> ->]|Hin]; [|exact (Htw _ _ Hin)].
        cbn [profile_json ud_profile]. rewrite keys_replace. exact Hkeys.
      * intros dir d He.
        destruct (String.eqb_spec dir dir0) as [->|Hne].
        -- rewrite He0 in He. injection He as <-.
           eexists. split; [apply entry_put_same|].
           intros Hnn. unfold keeps_progress.
           cbn [profile_json ud_profile ud_id ud_name ud_createdAt].
           repeat split;
             [exact (assessed_replace_incl key data _ Hnn)
             |exact (assessed_replace_length key data _ Hnn)].
        -- exists d. split; [|intros _; apply keeps_progress_refl].
           rewrite entry_put_other by congruence. exact He.
    + rewrite (updateUserProfile_missing _ _ _ _ _ Hf).
      split; [exact Htw|]. intros dir d He. exists d.
      split; [exact He | intros _; apply keeps_progress_refl].
  - destruct (findUserDir userId st) as [dir0|] eqn:Hf.
    + destruct (findUserDir_found _ _ _ Hf) as [_ [d0 He0]].
      rewrite (saveConversation_found _ _ _ _ _ _ Hg Hf He0).
      split.
      * intros dir d Hin. apply In_put in Hin.
        destruct Hin as [[= -> ->]|Hin]; [|exact (Htw _ _ Hin)].
        exact (Htw _ _ (entry_In _ _ _ He0)).
      * intros dir d He.
        destruct (String.eqb_spec dir dir0) as [->|Hne].
        -- rewrite He0 in He. injection He as <-.
           eexists. split; [apply entry_put_same|].
           intros _. unfold keeps_progress. cbn [profile_json].
           repeat split; auto using incl_refl.
        -- exists d. split; [|intros _; apply keeps_progress_refl].
           rewrite entry_put_other by congruence. exact He.
    + rewrite (saveConversation_missing _ _ _ _ Hf).
      split; [exact Htw|]. intros dir d He. exists d.
      split; [exact He | intros _; apply keeps_progress_refl].
Qed.

Lemma run_all_gated ops :
  forall st,
    store_ok st = true -> twelve_keys st -> gated_all ops st = true ->
    store_ok (run_all ops st) = true
    /\ twelve_keys (run_all ops st)
    /\ forall userDir d,
         entry userDir st = Some d ->
         exists d',
           entry userDir (run_all ops st) = Some d'
           /\ (forallb keeping ops = true -> keeps_progress d d').
Proof.
  induction ops as [|op ops IH]; intros st Hst Htw Hg;
    cbn [run_all gated_all forallb] in *.
  - split; [exact Hst|]. split; [exact Htw|].
    intros dir d He. exists d.
    split; [exact He | intros _; apply keeps_progress_refl].
  - apply andb_true_iff in Hg. destruct Hg as [Hop Hops].
    destruct (run_gated op st Hst Htw Hop) as [Htw1 Hkeep1].
    pose proof (run_ok op st Hst (gated_admissible op st Hop)) as Hst1.
    destruct (IH _ Hst1 Htw1 Hops) as (Hst2 & Htw2 & Hkeep2).
    split; [exact Hst2|]. split; [exact Htw2|].
    intros dir d He. destruct (Hkeep1 dir d He) as (d1 & He1 & Hk1).
    destruct (Hkeep2 dir d1 He1) as (d2 & He2 & Hk2).
    exists d2. split; [exact He2|].
    intros Hk. apply andb_true_iff in Hk. destruct Hk as [Hkop Hkops].
    exact (keeps_progress_trans _ _ _ (Hk1 Hkop) (Hk2 Hkops)).
Qed.

Lemma served_twelve_keys st : served stringify st -> twelve_keys st.
Proof.
  induction 1 as [|st request Hserved IH Hacc]; [intros ? ? []|].
  destruct (serve_is_gated stringify request st Hacc) as (ops & -> & Hg & _).
  pose proof (reachable_ok st (served_reachable stringify st Hserved)) as Hst.
  exact (proj1 (proj2 (run_all_gated ops st Hst IH Hg))).
Qed.

Lemma twelve_keys_completeness o :
  keys o = dimensions ->
  calculateProfileCompleteness o
  = Math_round ((of_nat (List.length (getAssessedDimensions o)) / of_nat 12)
                * 100)%float
  /\ List.length (getAssessedDimensions o) <= 12.
Proof.
  intros Hkeys. pose proof (assessed_count_le o) as Hle.
  unfold calculateProfileCompleteness.
  rewrite <- assessed_count, Hkeys in *. split; [reflexivity | exact Hle].
Qed.

(** X14. The server keeps the shape of the profiles. In every store
    reached through the register and chat routes, whatever the language
    model answers, every stored profile has exactly the twelve dimension
    keys, in their order; its completeness is therefore
    [round(100 * k / 12)] for its [k] assessed dimensions, and never
    NaN. *)
Theorem served_profiles_have_the_twelve_keys
    (st : Store) (userDir : string) (d : UserDir) :
  served stringify st ->
  In (userDir, d) st ->
  let profile := ud_profile (profile_json d) in
  keys profile = dimensions
  /\ calculateProfileCompleteness profile
     = of_nat (round_div (100 * List.length (getAssessedDimensions profile)) 12)
  /\ is_nan (calculateProfileCompleteness profile) = false.
Proof.
  intros Hserved Hin profile.
  pose proof (served_twelve_keys st Hserved _ _ Hin) as Hkeys.
  fold profile in Hkeys.
  destruct (twelve_keys_completeness profile Hkeys) as [Hcalc Hle].
  split; [exact Hkeys|]. rewrite Hcalc.
  rewrite (completeness_of_twelve _ Hle). split; [reflexivity|].
  revert Hle. generalize (List.length (getAssessedDimensions profile)).
  intros n Hn.
  do 13 (destruct n as [|n]; [vm_compute; reflexivity|]). lia.
Qed.

(** X15. The server loses progress in one case only. For every store
    reached through the routes (with session ids that are plain names)
    and every further such request, each user directory is still there
    afterwards; and unless the assessment data that the agent returns is
    a number beyond the range of the doubles ([1e999] is read as
    [Infinity], which is truthy and is written as [null]), the profile
    has the same id, name and creation time, every dimension that was
    assessed is still assessed, and the completeness of the profile has
    not gone down. *)
Theorem served_progress_is_kept
    (st : Store) (request : Request) (userDir : string) (d : UserDir) :
  served stringify st ->
  acceptable request st = true ->
  entry userDir st = Some d ->
  exists d',
    entry userDir (serve stringify request st) = Some d'
    /\ (overflowing request = false ->
        keeps_progress d d'
        /\ number_le
             (calculateProfileCompleteness (ud_profile (profile_json d)))
             (calculateProfileCompleteness (ud_profile (profile_json d')))
           = true).
Proof.
  intros Hserved Hacc He.
  pose proof (served_twelve_keys st Hserved) as Htw.
  pose proof (reachable_ok st (served_reachable stringify st Hserved)) as Hst.
  destruct (serve_is_gated stringify request st Hacc)
    as (ops & -> & Hg & Hkeeping).
  destruct (run_all_gated ops st Hst Htw Hg) as (_ & Htw' & Hkeep).
  destruct (Hkeep userDir d He) as (d' & He' & Hk).
  exists d'. split; [exact He'|]. intros Hover.
  specialize (Hk (Hkeeping Hover)). split; [exact Hk|].
  destruct (twelve_keys_completeness _ (Htw _ _ (entry_In _ _ _ He)))
    as [-> _].
  destruct (twelve_keys_completeness _ (Htw' _ _ (entry_In _ _ _ He')))
    as [-> Hle'].
  apply completeness_of_twelve_monotone; [|exact Hle'].
  exact (proj2 (proj2 (proj2 (proj2 Hk)))).
Qed.

End TwelveKeys.

(** ** Witnesses for the served stores *)

Section ServedSamples.

Lemma served_afrin_store : served sample_stringify afrin_store.
Proof.
  apply (served_step sample_stringify []
           (PostRegister (Some "Afrin") uuid1 "2025-08-29T10:00:00.000Z"));
    [apply served_empty | reflexivity].
Qed.

Lemma served_sample : served sample_stringify sample_served.
Proof.
  apply (served_step sample_stringify afrin_store
           (PostChat (Some "I enjoy puzzles") (Some uuid1) None sample_world));
    [apply served_afrin_store | reflexivity].
Qed.

End ServedSamples.

Lemma served_profiles_have_the_twelve_keys_witness :
  exists d,
    entry "Afrin_123e4567-e89b-42d3-a456-426614174000" sample_served = Some d
    /\ keys (ud_profile (profile_json d)) = dimensions
    /\ calculateProfileCompleteness (ud_profile (profile_json d)) = 8%float.
Proof.
  eexists. split; [reflexivity|].
  destruct (served_profiles_have_the_twelve_keys sample_stringify sample_served
              "Afrin_123e4567-e89b-42d3-a456-426614174000" _
              served_sample (or_introl eq_refl))
    as (Hkeys & Hcalc & _).
  split; [exact Hkeys | exact Hcalc].
Defined.

Lemma served_progress_is_kept_witness :
  exists d d',
    entry "Afrin_123e4567-e89b-42d3-a456-426614174000" afrin_store = Some d
    /\ entry "Afrin_123e4567-e89b-42d3-a456-426614174000" sample_served
       = Some d'
    /\ keeps_progress d d'.
Proof.
  destruct (served_progress_is_kept sample_stringify afrin_store
              (PostChat (Some "I enjoy puzzles") (Some uuid1) None sample_world)
              "Afrin_123e4567-e89b-42d3-a456-426614174000" _
              served_afrin_store eq_refl eq_refl)
    as (d' & He' & Hk).
  eexists. exists d'. split; [reflexivity|].
  split; [exact He' | exact (proj1 (Hk eq_refl))].
Defined.

(** ** The chat route *)

Section ChatRoute.
Context {installation : Installation}.
Variable stringify : Reply -> string.

Lemma getUserContext_ok_inv userId st ctx :
  getUserContext userId st = Ok ctx ->
  exists userDir d,
    findUserDir userId st = Some userDir /\ entry userDir st = Some d
    /\ ctx = profile_json d.
Proof.
  intros H. destruct (findUserDir userId st) as [userDir|] eqn:Hf.
  - destruct (findUserDir_found _ _ _ Hf) as [_ [d He]].
    rewrite (getUserContext_found _ _ _ _ Hf He) in H. injection H as <-.
    exists userDir, d. auto.
  - rewrite (getUserContext_missing _ _ Hf) in H. discriminate.
Qed.

Lemma saveConversation_listing userId sid turn st turns st' :
  plain_name (orDefault sid) = true ->
  saveConversation userId sid turn st = Ok (turns, st') ->
  readdir st' = readdir st.
Proof.
  intros Hplain H.
  destruct (findUserDir userId st) as [userDir|] eqn:Hf;
    [|rewrite (saveConversation_missing _ _ _ _ Hf) in H; discriminate].
  destruct (findUserDir_found _ _ _ Hf) as [_ [d He]].
  rewrite (saveConversation_found _ _ _ _ _ _ Hplain Hf He) in H.
  injection H as _ <-. exact (readdir_put_present _ _ _ _ He).
Qed.

(** What [processMessage] leaves in place for the user it serves. *)
Lemma processMessage_keeps_the_logs userId ctx model st userDir :
  findUserDir userId st = Some userDir ->
  let st1 := snd (processMessage userId ctx model st) in
  findUserDir userId st1 = Some userDir
  /\ readdir st1 = readdir st
  /\ sessionFiles userDir st1 = sessionFiles userDir st
  /\ (forall otherDir, otherDir <> userDir ->
                       entry otherDir st1 = entry otherDir st).
Proof.
  intros Hf st1.
  destruct (processMessage_store userId ctx model st)
    as (ops & Hrun & _ & _ & [->|(key & data & ->)]).
  - unfold st1. rewrite Hrun. cbn [run_all]. auto.
  - unfold st1. rewrite Hrun. cbn [run_all run].
    destruct (findUserDir_found _ _ _ Hf) as [_ [d He]].
    rewrite (updateUserProfile_found _ _ _ _ _ _ _ Hf He).
    split; [rewrite (findUserDir_put _ _ _ _ _ He); exact Hf|].
    split; [exact (readdir_put_present _ _ _ _ He)|].
    split.
    + unfold sessionFiles. rewrite entry_put_same, He. reflexivity.
    + intros otherDir Hother. apply entry_put_other. congruence.
Qed.

(** X16. Every chat message of a user that the lookup resolves, sent
    under a session id that is a plain name (no path separator), is
    logged exactly once. Whatever the model answers, and whether or not a
    profile is updated on the way, the route answers with the reply of
    [processMessage] and the session's log is the log it was, followed by
    one turn that holds the message and that reply; no other session and
    no other user is touched, and the directory listing is unchanged. *)
Theorem chat_logs_the_turn
    (message userId sessionId : option string) (w : World) (st : Store)
    (userDir : string) :
  missing message = false ->
  missing userId = false ->
  findUserDir (given userId) st = Some userDir ->
  plain_name (orDefault sessionId) = true ->
  let file := sessionFileName sessionId in
  exists ctx reply st',
    getUserContext (given userId) st = Ok ctx
    /\ reply = fst (processMessage (given userId) ctx (model w) st)
    /\ chat stringify message userId sessionId w st
       = (Server.Json (Replied reply), st')
    /\ sessionTurns userDir file st'
       = sessionTurns userDir file st
         ++ [mkTurn (turnTime w) (given message) (stringify reply)]
    /\ (forall other, other <> file ->
          sessionTurns userDir other st' = sessionTurns userDir other st)
    /\ (forall otherDir, otherDir <> userDir ->
          entry otherDir st' = entry otherDir st)
    /\ readdir st' = readdir st.
Proof.
  intros Hmsg Huser Hf Hplain file.
  destruct (findUserDir_found _ _ _ Hf) as [_ [d He]].
  pose proof (getUserContext_found _ _ _ _ Hf He) as Hctx.
  destruct (processMessage_keeps_the_logs (given userId) (profile_json d)
              (model w) st userDir Hf) as (Hf1 & Hdir1 & Hfiles1 & Hother1).
  unfold chat. rewrite Hmsg, Huser, Hctx.
  destruct (processMessage (given userId) (profile_json d) (model w) st)
    as [reply st1] eqn:Hpm. cbn [snd] in Hf1, Hdir1, Hfiles1, Hother1.
  destruct (saveConversation_step (given userId) sessionId
              (mkTurn (turnTime w) (given message) (stringify reply))
              st1 userDir Hplain Hf1)
    as (st2 & Hsave & Hf2 & Hfiles2 & Hother2 & _).
  fold file in Hsave, Hfiles2. rewrite Hsave.
  destruct (sessionTurns_put _ _ _ _ _ Hfiles2) as [Hturns Hothers].
  assert (Hsame : forall f, sessionTurns userDir f st1 = sessionTurns userDir f st)
    by (intros f; unfold sessionTurns; rewrite Hfiles1; reflexivity).
  exists (profile_json d), reply, st2.
  split; [reflexivity|]. split; [rewrite Hpm; reflexivity|].
  split; [reflexivity|].
  split; [rewrite Hturns, Hsame; reflexivity|].
  split; [intros other Hne; rewrite (Hothers other Hne); apply Hsame|].
  split.
  - intros otherDir Hne. rewrite (Hother2 _ Hne). exact (Hother1 _ Hne).
  - rewrite (saveConversation_listing _ _ _ _ _ _ Hplain Hsave). exact Hdir1.
Qed.

(** X17. The chat route refuses without writing. A missing or empty
    message is answered 400 [Message is required]; a message for a user
    id that no directory name contains is answered 500 [Internal server
    error]. In both cases the store is left as it was: nothing is logged
    and no user is created. *)
Theorem chat_refuses_without_writing
    (message userId sessionId : option string) (w : World) (st : Store) :
  (missing message = true ->
   chat stringify message userId sessionId w st
   = (Server.Status 400 "Message is required", st))
  /\ (missing message = false -> missing userId = false ->
      findUserDir (given userId) st = None ->
      chat stringify message userId sessionId w st
      = (Server.Status 500 "Internal server error", st)).
Proof.
  split.
  - intros Hmsg. unfold chat. rewrite Hmsg. reflexivity.
  - intros Hmsg Huser Hf. unfold chat.
    rewrite Hmsg, Huser, (getUserContext_missing _ _ Hf). reflexivity.
Qed.

End ChatRoute.

Lemma chat_logs_the_turn_witness :
  sessionTurns "Afrin_123e4567-e89b-42d3-a456-426614174000" "default.json"
               sample_served
  = [mkTurn "2025-08-29T10:05:02.000Z" "I enjoy puzzles" "personality"].
Proof.
  destruct (chat_logs_the_turn sample_stringify (Some "I enjoy puzzles")
              (Some uuid1) None sample_world afrin_store
              "Afrin_123e4567-e89b-42d3-a456-426614174000"
              eq_refl eq_refl eq_refl eq_refl)
    as (ctx & reply & st' & Hctx & -> & Hchat & Hturns & _).
  injection Hctx as <-. injection Hchat as <-. exact Hturns.
Defined.

Lemma chat_refuses_without_writing_witness :
  chat sample_stringify (Some "hello") (Some "nobody") None sample_world
       afrin_store
  = (Server.Status 500 "Internal server error", afrin_store).
Proof.
  exact (proj2 (chat_refuses_without_writing sample_stringify (Some "hello")
                  (Some "nobody") None sample_world afrin_store)
               eq_refl eq_refl eq_refl).
Defined.

(** ** The reply of a specialized agent *)

Section AgentReplies.
Context {installation : Installation}.
Variable stringify : Reply -> string.

Lemma completeness_of_twelve_strict_table :
  forallb (fun k =>
    number_lt (Math_round ((of_nat k / of_nat 12) * 100)%float)
              (Math_round ((of_nat (S k) / of_nat 12) * 100)%float))
    (seq 0 12) = true.
Proof. vm_compute. reflexivity. Qed.

Lemma completeness_of_twelve_strict (k : nat) :
  k < 12 ->
  number_lt (Math_round ((of_nat k / of_nat 12) * 100)%float)
            (Math_round ((of_nat (S k) / of_nat 12) * 100)%float) = true.
Proof.
  intros Hk. pose proof completeness_of_twelve_strict_table as H.
  rewrite forallb_forall in H. apply H. apply in_seq. lia.
Qed.

Lemma replace_value_same (k : string) (v : value) (o : object) :
  get k o = Some v -> replace_value k v o = o.
Proof.
  induction o as [|[k' v'] o IH]; simpl; [reflexivity|].
  destruct (String.eqb k' k).
  - intros [= ->]. reflexivity.
  - intros H. rewrite (IH H). reflexivity.
Qed.

(** X18. The status in an agent's reply is the one before the write. In
    a store reached through the routes under session ids that are plain
    names (the stores of [served]), when a message is routed to one of
    the twelve agents for a dimension whose slot is [null] and the
    agent returns truthy assessment data, the slot then holds the data as
    JSON writes it, and the [profileStatus] of the reply is the
    completeness of the context read before the update. Unless the data
    is a number beyond the range of the doubles, the profile read back has
    one more assessed dimension and the status of the reply is strictly
    below the completeness of the profile now stored; such a number
    ([1e999], read as [Infinity]) is truthy but written as [null], so
    that the slot is still [null] and the profile is as it was. *)
Theorem agent_reply_reports_the_earlier_status
    (st : Store) (userId key now : string) (ctx : UserData)
    (response : AgentResponse) :
  served stringify st ->
  getUserContext userId st = Ok ctx ->
  In key dimensions ->
  get key (ud_profile ctx) = Some JNull ->
  truthy (assessmentData response) = true ->
  exists st' ctx',
    routeToSpecializedAgent userId ctx key (Some response) now st
    = (AgentReply (message response) key
         (or_else (assessmentComplete response) (JData "false"))
         (or_else (nextDimension response) JNull)
         (calculateProfileCompleteness (ud_profile ctx)),
       st')
    /\ getUserContext userId st' = Ok ctx'
    /\ get key (ud_profile ctx') = Some (written (assessmentData response))
    /\ ud_updatedAt ctx' = Some now
    /\ (assessmentData response <> Lossy None ->
        List.length (getAssessedDimensions (ud_profile ctx'))
        = S (List.length (getAssessedDimensions (ud_profile ctx)))
        /\ number_lt (calculateProfileCompleteness (ud_profile ctx))
                     (calculateProfileCompleteness (ud_profile ctx')) = true)
    /\ (assessmentData response = Lossy None ->
        get key (ud_profile ctx') = Some JNull
        /\ ud_profile ctx' = ud_profile ctx).
Proof.
  intros Hserved Hctx Hkey Hnull Hdata.
  destruct (getUserContext_ok_inv _ _ _ Hctx) as (userDir & d & Hf & He & ->).
  pose proof (reachable_ok st (served_reachable stringify st Hserved)) as Hst.
  pose proof (served_twelve_keys stringify st Hserved _ _ (entry_In _ _ _ He))
    as Hkeys.
  destruct (entry_ok_parts _ (store_ok_entry _ _ _ Hst He))
    as (_ & _ & _ & Hnou & _). cbn [snd] in Hnou.
  destruct (truthy_written _ Hdata) as [Hdef Hnn].
  set (o := ud_profile (profile_json d)) in *.
  set (data := written (assessmentData response)) in *.
  assert (Hhas : has_key key o = true)
    by (unfold has_key; rewrite Hnull; reflexivity).
  assert (Hkeys' : keys (replace_value key data o) = dimensions)
    by (rewrite keys_replace; exact Hkeys).
  do 2 eexists. split.
  - unfold routeToSpecializedAgent.
    replace (existsb (String.eqb key) dimensions) with true.
    + rewrite Hdata. fold data.
      rewrite (updateUserProfile_found _ _ _ _ _ _ _ Hf He).
      rewrite (gated_update_profile key data now d Hkeys Hnou Hkey Hdef).
      reflexivity.
    + symmetry. apply existsb_exists. exists key.
      split; [exact Hkey | apply String.eqb_refl].
  - split.
    { apply (getUserContext_found _ _ userDir).
      - rewrite (findUserDir_put _ _ _ _ _ He). exact Hf.
      - apply entry_put_same. }
    cbn [profile_json ud_profile ud_updatedAt]. fold o.
    split; [exact (get_replace_same key data o Hhas)|].
    split; [reflexivity|]. split.
    + intros Hfinite.
      pose proof (assessed_replace_null key data o Hnull (Hnn Hfinite))
        as Hcount.
      split; [exact Hcount|].
      destruct (twelve_keys_completeness o Hkeys) as [-> _].
      destruct (twelve_keys_completeness _ Hkeys') as [-> Hle].
      rewrite Hcount in *. apply completeness_of_twelve_strict. lia.
    + intros Hover. unfold data. rewrite Hover. cbn [written].
      rewrite (replace_value_same key JNull o Hnull).
      split; [exact Hnull | reflexivity].
Qed.

End AgentReplies.

Lemma agent_reply_reports_the_earlier_status_witness :
  exists st' ctx',
    routeToSpecializedAgent uuid1
      (mkUserData uuid1 "Afrin" "2025-08-29T10:00:00.000Z" None
                  initialProfile [])
      "skills"
      (Some (mkAgentResponse (JData "[1]") (JData "[2]") JNull JNull))
      "2025-08-29T10:06:00.000Z" afrin_store
    = (AgentReply (JData "[1]") "skills" (JData "false") JNull 0%float, st')
    /\ getUserContext uuid1 st' = Ok ctx'
    /\ get "skills" (ud_profile ctx') = Some (JData "[2]")
    /\ number_lt 0%float (calculateProfileCompleteness (ud_profile ctx'))
       = true.
Proof.
  destruct (agent_reply_reports_the_earlier_status sample_stringify
              afrin_store uuid1 "skills" "2025-08-29T10:06:00.000Z"
              (mkUserData uuid1 "Afrin" "2025-08-29T10:00:00.000Z" None
                          initialProfile [])
              (mkAgentResponse (JData "[1]") (JData "[2]") JNull JNull)
              served_afrin_store eq_refl)
    as (st' & ctx' & Hroute & Hget & Hslot & _ & Hlt & _).
  - simpl. tauto.
  - reflexivity.
  - reflexivity.
  - exists st', ctx'. split; [exact Hroute|].
    split; [exact Hget|]. split; [exact Hslot|].
    apply Hlt. discriminate.
Defined.

(** The other case of X18 and of X15: the personality agent answers
    Afrin with [[2]] and then with [1e999]. The second answer is read as
    [Infinity], which is truthy: the slot is written again, as [null],
    and the completeness of the profile is back at 0. *)
Lemma overflowing_data_erases_the_dimension :
  let w :=
    mkWorld uuid2 "2025-08-29T10:07:00.000Z" Failure
      (mkModel (Answer (Some (mkDecision (Key "personality") JUndefined)))
               Failure
               (Some (mkAgentResponse (JData "[1]") (Lossy None) JNull JNull))
               "2025-08-29T10:07:01.000Z")
      "2025-08-29T10:07:02.000Z" in
  let request := PostChat (Some "more") (Some uuid1) None w in
  acceptable request sample_served = true
  /\ overflowing request = true
  /\ (exists d,
        entry "Afrin_123e4567-e89b-42d3-a456-426614174000" sample_served
        = Some d
        /\ get "personality" (ud_profile (profile_json d)) = Some (JData "[2]")
        /\ calculateProfileCompleteness (ud_profile (profile_json d))
           = 8%float)
  /\ (exists d',
        entry "Afrin_123e4567-e89b-42d3-a456-426614174000"
              (serve sample_stringify request sample_served)
        = Some d'
        /\ get "personality" (ud_profile (profile_json d')) = Some JNull
        /\ calculateProfileCompleteness (ud_profile (profile_json d'))
           = 0%float).
Proof.
  repeat split; eexists; repeat split; reflexivity.
Qed.

(** ** The first message *)

Section FirstMessage.
Context {installation : Installation}.

(** X19. [handleInitialInteraction] registers a user exactly when the
    model answers with a falsy [requiresName] and a non-empty string as
    [extractedName]: in every reachable store and for a fresh UUID, the
    reply then carries the new id, which resolves to a record with the
    sanitized extracted name and twelve [null] slots, and the welcome
    text. In every other case, a failure of the model or a name that is
    not a string included, the store is left as it was and the reply asks
    for the name. *)
Theorem initial_interaction_registers_a_named_user
    (st : Store) (uuid now : string) (extraction : llm (option Extraction)) :
  reachable st -> uuid_shape uuid = true -> fresh uuid st = true ->
  let reply := fst (handleInitialInteraction uuid now extraction st) in
  let st' := snd (handleInitialInteraction uuid now extraction st) in
  match extraction with
  | Answer (Some (mkExtraction requires (NameText s) _)) =>
      if negb (truthy requires) && negb (String.eqb s "") then
        reply
        = Registered uuid
            (welcome (sanitize s) ++
             " To provide you with the most personalized career guidance, I'll be conducting a comprehensive 12-dimensional assessment. Are you ready to begin?")
        /\ st' = snd (createUser uuid now s st)
        /\ getUserContext uuid st'
           = Ok (mkUserData uuid (sanitize s) now None initialProfile [])
      else
        st' = st /\ exists response, reply = NeedsName response
  | _ => st' = st /\ exists response, reply = NeedsName response
  end.
Proof.
  intros Hreach Hu Hfresh reply st'.
  pose proof (fresh_not_found st uuid (reachable_ok st Hreach) Hu Hfresh) as Hf.
  destruct extraction as [[[requires [s|v] response]|]|];
    unfold reply, st', handleInitialInteraction;
    cbn [requiresName extractedName extractionResponse].
  - destruct (negb (truthy requires) && negb (String.eqb s "")) eqn:Hc.
    + destruct (createUser_unlisted uuid now s st Hf) as (_ & _ & Hget).
      destruct (createUser uuid now s st) as [user st1] eqn:Hcreate.
      cbn [fst snd] in *. split; [|split; [reflexivity | exact Hget]].
      unfold createUser in Hcreate. injection Hcreate as <- _. reflexivity.
    + cbn [fst snd]. split; [reflexivity | eexists; reflexivity].
  - destruct (negb (truthy requires) && truthy v); cbn [fst snd];
      (split; [reflexivity | eexists; reflexivity]).
  - cbn [fst snd]. split; [reflexivity | eexists; reflexivity].
  - cbn [fst snd]. split; [reflexivity | eexists; reflexivity].
Qed.

End FirstMessage.

Lemma initial_interaction_registers_a_named_user_witness :
  getUserContext uuid2
    (snd (handleInitialInteraction uuid2 "2025-08-30T09:00:00.000Z"
            (Answer (Some (mkExtraction (JData "false") (NameText "Ravi K.")
                                        JNull)))
            afrin_store))
  = Ok (mkUserData uuid2 "Ravi K" "2025-08-30T09:00:00.000Z" None
                   initialProfile []).
Proof.
  exact (proj2 (proj2
    (initial_interaction_registers_a_named_user afrin_store uuid2
       "2025-08-30T09:00:00.000Z"
       (Answer (Some (mkExtraction (JData "false") (NameText "Ravi K.") JNull)))
       reachable_afrin_store eq_refl eq_refl))).
Defined.


(** ** The summary route *)

Section SummaryRoute.
Context {installation : Installation}.

(** X20. As long as every conversation was saved under a session id that
    is a plain name, so that nothing but user directories is in
    [usersDir] (the stores of [reachable]), the two GET routes answer
    every id that some directory name contains, and only those: for such
    an id [GET /api/user/:userId/summary] returns a summary, never an
    error, whose user name and number of sessions are those of the record
    that [GET /api/user/:userId] returns, and the folder of that record
    is the resolved directory of [this.usersDir]; for any other id the
    routes answer 500 with [Failed to generate summary] and [User not
    found]. *)
Theorem get_routes_answer_the_resolved_ids (st : Store) (userId : string) :
  reachable st ->
  match findUserDir userId st with
  | Some userDir =>
      exists summary bundle,
        get_user_summary userId st = Server.Json summary
        /\ Server.get_user userId st = Server.Json bundle
        /\ su_name (user summary) = ud_name (profile bundle)
        /\ su_createdAt (user summary) = ud_createdAt (profile bundle)
        /\ totalSessions (user summary) = List.length (sessions bundle)
        /\ totalMessages (conversationSummary summary)
           = list_sum (map (fun s => List.length (data s)) (sessions bundle))
        /\ folderPath bundle = path_join usersDir userDir
  | None =>
      get_user_summary userId st
      = Server.Status 500 "Failed to generate summary"
      /\ Server.get_user userId st = Server.Status 500 "User not found"
  end.
Proof.
  intros Hreach. pose proof (reachable_ok st Hreach) as Hst.
  destruct (findUserDir userId st) as [userDir|] eqn:Hf.
  - destruct (findUserDir_found _ _ _ Hf) as [_ [d He]].
    destruct (getUserSummary_found st userId userDir d Hf He
                (store_ok_sessionFiles st userDir Hst)) as (la & Hs & _).
    do 2 eexists.
    split; [unfold get_user_summary; rewrite Hs; reflexivity|].
    split; [unfold Server.get_user;
            rewrite (getUserData_found _ _ _ _ Hf He); reflexivity|].
    cbn [user su_name su_createdAt totalSessions profile sessions folderPath
         conversationSummary totalMessages].
    rewrite length_map, map_map.
    repeat split; reflexivity.
  - split.
    + unfold get_user_summary, getUserSummary.
      rewrite (getUserData_missing _ _ Hf). reflexivity.
    + unfold Server.get_user. rewrite (getUserData_missing _ _ Hf).
      reflexivity.
Qed.

End SummaryRoute.

Lemma get_routes_answer_the_resolved_ids_witness :
  exists summary bundle,
    get_user_summary "Afrin" chat_store = Server.Json summary
    /\ Server.get_user "Afrin" chat_store = Server.Json bundle
    /\ totalSessions (user summary) = List.length (sessions bundle).
Proof.
  pose proof (get_routes_answer_the_resolved_ids chat_store "Afrin"
                reachable_chat_store) as H.
  change (findUserDir "Afrin" chat_store)
    with (Some "Afrin_123e4567-e89b-42d3-a456-426614174000") in H.
  destruct H as (summary & bundle & Hs & Hb & _ & _ & Hn & _).
  exists summary, bundle. split; [exact Hs|]. split; [exact Hb | exact Hn].
Defined.

